(** * Cafeteria: registration ledger, till ledger and reconciliation

    A shallow embedding of the business rules of [app.py] (the SQLite
    backend) and of the places where [app_sheets.py] (the spreadsheet
    backend) differs, followed by the properties of the specification
    that were checked against it.

    Conventions of the model.
    - Text is a [string]; its characters are read as ASCII code points.
      [str.upper], [str.lower], [str.strip] and [str.split] are those of
      Python restricted to the ASCII range: bytes above 127 are left
      unchanged by the case functions and are not whitespace.
    - Python integers are [Z].
    - Money.  The program stores amounts as floats.  Every amount it writes
      comes from the price table (8.0, 12.0, 6.0, 2.0, 1.5) or is a sum of
      such values; these are multiples of 0.5, which binary floating point
      represents and adds without rounding.  Amounts are therefore kept as
      an exact number of centimes in [Z] (8.0 is [800]).
    - A raised exception is the [Raise] case of [result].  In [app.py]
      nothing is written to the store on that path: every [raise] precedes
      the first [s.add]. *)

From Stdlib Require Import ZArith Ascii String List Lia Bool.
From stdpp Require Import gmap strings list sorting.

Local Open Scope Z_scope.

(** ** Python built-ins used by the program *)

Module Py.

(** [str.isspace] on one ASCII character: TAB, LF, VT, FF, CR, the four
    separators FS, GS, RS, US, and the space. *)
Definition isspace (c : ascii) : bool :=
  let n := N_of_ascii c in
  ((9 <=? n) && (n <=? 13) || (28 <=? n) && (n <=? 32))%N.

Definition upper_char (c : ascii) : ascii :=
  let n := N_of_ascii c in
  if ((97 <=? n) && (n <=? 122))%N then ascii_of_N (n - 32) else c.

Definition lower_char (c : ascii) : ascii :=
  let n := N_of_ascii c in
  if ((65 <=? n) && (n <=? 90))%N then ascii_of_N (n + 32) else c.

Fixpoint map_chars (f : ascii -> ascii) (s : string) : string :=
  match s with
  | EmptyString => EmptyString
  | String c r => String (f c) (map_chars f r)
  end.

(** [s.upper()] and [s.lower()] *)
Definition upper : string -> string := map_chars upper_char.
Definition lower : string -> string := map_chars lower_char.

Fixpoint lstrip (s : string) : string :=
  match s with
  | EmptyString => EmptyString
  | String c r => if isspace c then lstrip r else s
  end.

Fixpoint rstrip (s : string) : string :=
  match s with
  | EmptyString => EmptyString
  | String c r =>
      match rstrip r with
      | EmptyString => if isspace c then EmptyString else String c EmptyString
      | r' => String c r'
      end
  end.

(** [s.strip()] *)
Definition strip (s : string) : string := rstrip (lstrip s).

(** [s.split()] with no argument: the maximal runs of non-whitespace
    characters, in order.  [cur] is the run being read, reversed. *)
Fixpoint split_go (cur : list ascii) (s : string) : list string :=
  match s with
  | EmptyString =>
      match cur with
      | [] => []
      | _ => [string_of_list_ascii (rev cur)]
      end
  | String c r =>
      if isspace c then
        match cur with
        | [] => split_go [] r
        | _ => string_of_list_ascii (rev cur) :: split_go [] r
        end
      else split_go (c :: cur) r
  end.

Definition split (s : string) : list string := split_go [] s.

(** [sep.join(parts)] *)
Fixpoint join (sep : string) (parts : list string) : string :=
  match parts with
  | [] => EmptyString
  | [p] => p
  | p :: rest => String.append p (String.append sep (join sep rest))
  end.

(** [s.split(sep)] for a separator of one character: the fields between
    the separators, empty fields included; never the empty list. *)
Fixpoint split_on_go (sep : ascii) (cur : list ascii) (s : string)
  : list string :=
  match s with
  | EmptyString => [string_of_list_ascii (rev cur)]
  | String c r =>
      if Ascii.eqb c sep
      then string_of_list_ascii (rev cur) :: split_on_go sep [] r
      else split_on_go sep (c :: cur) r
  end.

Definition split_on (sep : ascii) (s : string) : list string :=
  split_on_go sep [] s.

(** [s[i]] for [0 <= i]; [None] stands for [IndexError]. *)
Definition getitem (s : string) (i : nat) : option ascii := String.get i s.

(** [needle in s] *)
Fixpoint contains (needle s : string) : bool :=
  if String.prefix needle s then true
  else match s with
       | EmptyString => false
       | String _ r => contains needle r
       end.

Definition digit_val (c : ascii) : option Z :=
  let n := N_of_ascii c in
  if ((48 <=? n) && (n <=? 57))%N then Some (Z.of_N (n - 48)) else None.

(** The digits of [int(s)] after the sign: one or more decimal digits,
    single underscores allowed between two digits. [prev_digit] tells
    whether the previous character was a digit. *)
Fixpoint int_digits (acc : Z) (prev_digit : bool) (s : string) : option Z :=
  match s with
  | EmptyString => if prev_digit then Some acc else None
  | String c r =>
      match digit_val c with
      | Some d => int_digits (10 * acc + d) true r
      | None =>
          if Ascii.eqb c "_" && prev_digit then
            match r with
            | EmptyString => None
            | String c' _ =>
                match digit_val c' with
                | Some _ => int_digits acc false r
                | None => None
                end
            end
          else None
      end
  end.

(** The whitespace [int] skips around the number on an ASCII [str]: TAB,
    LF, VT, FF, CR and the space.  The four separators FS, GS, RS and US
    are whitespace for [str.strip] and [str.split] but not for [int],
    which raises on a text that holds one. *)
Definition int_space (c : ascii) : bool :=
  let n := N_of_ascii c in
  ((9 <=? n) && (n <=? 13) || (n =? 32))%N.

Fixpoint int_lstrip (s : string) : string :=
  match s with
  | EmptyString => EmptyString
  | String c r => if int_space c then int_lstrip r else s
  end.

Fixpoint int_rstrip (s : string) : string :=
  match s with
  | EmptyString => EmptyString
  | String c r =>
      match int_rstrip r with
      | EmptyString =>
          if int_space c then EmptyString else String c EmptyString
      | r' => String c r'
      end
  end.

(** [int(s)] on a [str]: surrounding whitespace is dropped, an optional
    sign is read, then the digits. [None] stands for [ValueError]. *)
Definition int (s : string) : option Z :=
  match int_rstrip (int_lstrip s) with
  | String "+" r => int_digits 0 false r
  | String "-" r => Z.opp <$> int_digits 0 false r
  | r => int_digits 0 false r
  end.

Definition digit_char (d : Z) : ascii := ascii_of_N (48 + Z.to_N d).

(** The decimal digits of a non-negative integer, most significant
    first; [fuel] bounds the number of digits. *)
Fixpoint digits_go (fuel : nat) (n : Z) (acc : string) : string :=
  match fuel with
  | O => acc
  | S f =>
      let acc' := String (digit_char (n mod 10)) acc in
      if n <? 10 then acc' else digits_go f (n / 10) acc'
  end.

Definition digits (n : Z) : string :=
  digits_go (S (Z.to_nat (Z.log2 n))) n EmptyString.

Fixpoint zeros (k : nat) : string :=
  match k with
  | O => EmptyString
  | S k' => String "0" (zeros k')
  end.

Definition zero_pad (width : nat) (s : string) : string :=
  String.append (zeros (width - String.length s)) s.

(** The format specification [0{width}d]: sign-aware zero padding. *)
Definition format_0d (width : nat) (n : Z) : string :=
  if n <? 0
  then String "-" (zero_pad (width - 1) (digits (- n)))
  else zero_pad width (digits n).

End Py.

(** ** The [datetime.date] operations used by the program

    Transcribed from the reference implementation of Python's [datetime]
    module ([_is_leap], [_days_in_month], [_days_before_year],
    [_days_before_month], [_ymd2ord], [date.weekday]). *)

Module Datetime.

Definition is_leap (year : Z) : bool :=
  (year mod 4 =? 0) && (negb (year mod 100 =? 0) || (year mod 400 =? 0)).

Definition days_in_month (year month : Z) : Z :=
  if (month =? 2) && is_leap year then 29
  else nth (Z.to_nat month)
         [-1; 31; 28; 31; 30; 31; 30; 31; 31; 30; 31; 30; 31] 0.

Definition days_before_year (year : Z) : Z :=
  let y := year - 1 in
  y * 365 + y / 4 - y / 100 + y / 400.

Definition days_before_month (year month : Z) : Z :=
  nth (Z.to_nat month)
    [-1; 0; 31; 59; 90; 120; 151; 181; 212; 243; 273; 304; 334] 0
  + (if (2 <? month) && is_leap year then 1 else 0).

Definition ymd2ord (year month day : Z) : Z :=
  days_before_year year + days_before_month year month + day.

(** A value of class [date]. *)
Record date := { year : Z; month : Z; day : Z }.

(** The checks of the constructor [date(y, m, d)]; it raises
    [ValueError] when they fail. *)
Definition check_date_fields (y m d : Z) : bool :=
  (1 <=? y) && (y <=? 9999) && (1 <=? m) && (m <=? 12)
  && (1 <=? d) && (d <=? days_in_month y m).

Definition mk_date (y m d : Z) : option date :=
  if check_date_fields y m d
  then Some {| year := y; month := m; day := d |}
  else None.

Definition toordinal (dt : date) : Z := ymd2ord (year dt) (month dt) (day dt).

(** Monday is 0 and Sunday is 6. *)
Definition weekday (dt : date) : Z := (toordinal dt + 6) mod 7.


End Datetime.

(** ** Exceptions and results *)

(** The [detail] of the [HTTPException]s the program raises, one
    constructor per message of the source, with the values the message
    interpolates. *)
Inductive detail :=
| DayNotOpen (dateStr : string)
    (* "Le {dateStr} est ferme, impossible de reserver." *)
| QuotaReached (dateStr : string)
    (* "Quota de 40 atteint pour le {dateStr}." *)
| NoReservationFound (target dateStr : string)
    (* "Pas de reservation trouvee pour {target} le {dateStr}." *)
| TillClosed (iso : string)
    (* "Caisse fermee pour {iso}." *)
| MenuLimitReached (header : string).
    (* "Limite de 45 menus servis atteinte pour {header}." *)

Inductive exn :=
| HTTPException (status : Z) (d : detail)
| ValueError.

Inductive result (A : Type) :=
| Ok (a : A)
| Raise (e : exn).

Arguments Ok {A} a.
Arguments Raise {A} e.

#[global] Instance result_ret : MRet result := fun A a => Ok a.

#[global] Instance result_bind : MBind result := fun A B k r =>
  match r with
  | Ok a => k a
  | Raise e => Raise e
  end.

(** An [option] read as "value or [ValueError]". *)
Definition or_ValueError {A} (o : option A) : result A :=
  match o with
  | Some a => Ok a
  | None => Raise ValueError
  end.

(** ** What the program reads from outside the store *)

(** [today_iso] is the value of [today_iso()], the local calendar date in
    canonical form, at the time of the request.
    [fromisoformat_date s] is [datetime.fromisoformat(s).date().isoformat()],
    or [None] when [fromisoformat] raises.
    [utcnow_iso] is [datetime.utcnow().isoformat()].
    [float_of_cell s] is [float(s)] in centimes, or [None] when [float]
    raises [ValueError]; [cell_of_number x] is the text the spreadsheet
    gives back for a cell that was written with the number [x]. *)
Record Env := {
  today_iso : string;
  fromisoformat_date : string -> option string;
  (* spreadsheet backend only *)
  utcnow_iso : string;
  float_of_cell : string -> option Z;
  cell_of_number : Z -> string
}.

(** ** Utilities shared by both backends *)

Definition PRICE_ELEVE : Z := 800.
Definition PRICE_PROF : Z := 1200.
Definition PRICE_SANDWICH : Z := 600.
Definition PRICE_BOISSON : Z := 200.
Definition PRICE_CHOCOLAT : Z := 150.
Definition MAX_RESAS : Z := 40.
Definition MAX_MENUS : Z := 45.

(** [" ".join((s or "").strip().upper().split())] *)
Definition norm_name (s : string) : string :=
  Py.join " " (Py.split (Py.upper (Py.strip s))).

(** [y, m, d = map(int, iso.split("-"))] *)
Definition parse_ymd (sep : ascii) (s : string) : result (Z * Z * Z) :=
  match Py.split_on sep s with
  | [a; b; c] =>
      x ← or_ValueError (Py.int a);
      y ← or_ValueError (Py.int b);
      z ← or_ValueError (Py.int c);
      Ok (x, y, z)
  | _ => Raise ValueError
  end.

(** [f"{label} {d:02d}.{m:02d}"] *)
Definition header_text (label : string) (d m : Z) : string :=
  String.append label
    (String " " (String.append (Py.format_0d 2 d)
       (String "." (Py.format_0d 2 m)))).

(** The two guards of [to_iso_any]:
    [len(s) == 10 and s[2] == "." and s[5] == "."] and
    [len(s) == 10 and s[4] == "-" and s[7] == "-"]. *)
Definition dotted_shape (s : string) : Prop :=
  String.length s = 10%nat ∧ Py.getitem s 2 = Some "."%char
  ∧ Py.getitem s 5 = Some "."%char.

Definition dashed_shape (s : string) : Prop :=
  String.length s = 10%nat ∧ Py.getitem s 4 = Some "-"%char
  ∧ Py.getitem s 7 = Some "-"%char.

#[global] Instance dotted_shape_dec s : Decision (dotted_shape s).
Proof. unfold dotted_shape. apply _. Defined.

#[global] Instance dashed_shape_dec s : Decision (dashed_shape s).
Proof. unfold dashed_shape. apply _. Defined.

(** [f"{y:04d}-{m:02d}-{d:02d}"] *)
Definition iso_text (y m d : Z) : string :=
  String.append (Py.format_0d 4 y)
    (String "-" (String.append (Py.format_0d 2 m)
       (String "-" (Py.format_0d 2 d)))).

(** [f"{d:02d}.{m:02d}.{y:04d}"] *)
Definition display_text (y m d : Z) : string :=
  String.append (Py.format_0d 2 d)
    (String "." (String.append (Py.format_0d 2 m)
       (String "." (Py.format_0d 4 y)))).

(** The branch of [to_iso_any] on the display form:
    [dd, mm, yyyy = s.split(".")] and
    [f"{int(yyyy):04d}-{int(mm):02d}-{int(dd):02d}"], outside any [try]. *)
Definition from_dotted (s : string) : result string :=
  match Py.split_on "." s with
  | [dd; mm; yyyy] =>
      y ← or_ValueError (Py.int yyyy);
      m ← or_ValueError (Py.int mm);
      d ← or_ValueError (Py.int dd);
      Ok (iso_text y m d)
  | _ => Raise ValueError
  end.

(** The body shared by the two [pretty_fr_header]: parse, build the date,
    pick the label with [label_of]. *)
Definition pretty_with (label_of : Datetime.date -> string) (iso : string)
  : result string :=
  '(y, m, d) ← parse_ymd "-" iso;
  dt ← or_ValueError (Datetime.mk_date y m d);
  Ok (header_text (label_of dt) d m).

(** ** The store of [app.py]: three SQL tables

    A table is the list of its rows in storage order, which for SQLite is
    the order of the integer primary key.  [created_at] is never read by
    the program and is left out. *)

Module ParamRow.
Record t := {
  id : Z;
  date_iso : string;
  jour : string;
  menu : string;
  open : bool;
  disabled : bool
}.
End ParamRow.

Module Reservation.
Record t := {
  id : Z;
  date_iso : string;
  name : string
}.
End Reservation.

Module TillRow.
Record t := {
  id : Z;
  date_iso : string;
  name : string;
  type : string;
  base : Z;
  beverage : Z;
  chocolate : Z;
  total : Z
}.
End TillRow.

Record DB := {
  params : list ParamRow.t;
  reservations : list Reservation.t;
  till : list TillRow.t
}.

(** The key SQLite gives to a row inserted without one: one more than the
    largest key in the table, 1 in an empty table. *)
Definition next_id (ids : list Z) : Z := 1 + foldr Z.max 0 ids.

Definition add_reservation (db : DB) (date_iso name : string) : DB :=
  {| params := params db;
     reservations :=
       reservations db ++
         [ {| Reservation.id := next_id (Reservation.id <$> reservations db);
              Reservation.date_iso := date_iso;
              Reservation.name := name |} ];
     till := till db |}.

(** [s.delete(r)]: the row with the primary key of [r] goes. *)
Definition delete_reservation (db : DB) (r : Reservation.t) : DB :=
  {| params := params db;
     reservations :=
       filter (λ x, Reservation.id x ≠ Reservation.id r) (reservations db);
     till := till db |}.

(** [s.add(TillRow(...))]; the key is assigned here. *)
Definition add_till_row (db : DB)
    (date_iso name type : string) (base beverage chocolate total : Z) : DB :=
  {| params := params db;
     reservations := reservations db;
     till :=
       till db ++
         [ {| TillRow.id := next_id (TillRow.id <$> till db);
              TillRow.date_iso := date_iso;
              TillRow.name := name;
              TillRow.type := type;
              TillRow.base := base;
              TillRow.beverage := beverage;
              TillRow.chocolate := chocolate;
              TillRow.total := total |} ] |}.

(** Request bodies and answers. *)

Record ReserveIn := { reserve_name : string; reserve_dateStr : string }.

Record UnreserveIn := { unreserve_name : string; unreserve_dateStr : string }.

Module CheckoutIn.
Record t := {
  name : string;
  type : string;
  beverage : bool;
  chocolate : bool;
  dateIso : option string;
  method : string
}.
End CheckoutIn.

Record QtyIn := { qty : Z; qty_dateIso : option string }.

Record CloseIn := { close_dateIso : option string }.

Record Totals := {
  menus : Z;
  eleves : Z;
  profs : Z;
  sandwiches : Z;
  beverages : Z;
  chocolates : Z;
  amount : Z
}.

Record CaisseOut := {
  out_date : string;
  closed : bool;
  names : list string;
  totals : Totals
}.

(** The two plain-text answers of the registration routes. *)
Inductive text :=
| Confirmed (name dateStr : string)
    (* "Merci {name}, reservation confirmee pour le {dateStr} !" *)
| Unregistered (dateStr : string).
    (* "Vous etes desinscrit pour le {dateStr}." *)

(** [x or default] on an optional string: [None] and [""] are falsy. *)
Definition str_or (x : option string) (default : string) : string :=
  match x with
  | Some (String c r) => String c r
  | _ => default
  end.

(** Rows sorted on a key, as [order_by] does; equal keys keep their
    order. *)
Fixpoint insert_by {A} (key : A -> Z) (x : A) (l : list A) : list A :=
  match l with
  | [] => [x]
  | y :: r => if key x <? key y then x :: l else y :: insert_by key x r
  end.

Definition order_by {A} (key : A -> Z) (l : list A) : list A :=
  foldr (insert_by key) [] (rev l).

(** The loop body of [build_totals], the same in both backends, on the
    fields of the row at hand: payer name, type, beverage, chocolate and
    total. *)

Definition Totals0 : Totals :=
  {| menus := 0; eleves := 0; profs := 0; sandwiches := 0;
     beverages := 0; chocolates := 0; amount := 0 |}.

Definition add_amount (t : Totals) (x : Z) : Totals :=
  {| menus := menus t; eleves := eleves t; profs := profs t;
     sandwiches := sandwiches t; beverages := beverages t;
     chocolates := chocolates t; amount := amount t + x |}.

(** The [else] branch: a menu row. *)
Definition count_menu (t : Totals) (typ : string) (bev choc : Z) : Totals :=
  let is_eleve := Py.contains "eleve" (Py.lower typ) in
  {| menus := menus t + 1;
     eleves := if is_eleve then eleves t + 1 else eleves t;
     profs := if is_eleve then profs t else profs t + 1;
     sandwiches := sandwiches t;
     beverages := if 0 <? bev then beverages t + 1 else beverages t;
     chocolates := if 0 <? choc then chocolates t + 1 else chocolates t;
     amount := amount t |}.

(** [paidCount[key] = paidCount.get(key, 0) + 1] under [if key:] *)
Definition count_paid (paidCount : gmap string Z) (name : string)
  : gmap string Z :=
  let key := norm_name name in
  if decide (key = "") then paidCount
  else <[key := default 0 (paidCount !! key) + 1]> paidCount.

Definition totals_step (acc : Totals * gmap string Z)
    (name typ : string) (bev choc tot : Z) : Totals * gmap string Z :=
  let '(t, paidCount) := acc in
  if decide (typ = "Closed") then (t, paidCount)
  else if decide (typ = "Sandwich") then
    (add_amount
       {| menus := menus t; eleves := eleves t; profs := profs t;
          sandwiches := sandwiches t + 1; beverages := beverages t;
          chocolates := chocolates t; amount := amount t |} tot, paidCount)
  else if decide (typ = "Boisson") then
    (add_amount
       {| menus := menus t; eleves := eleves t; profs := profs t;
          sandwiches := sandwiches t; beverages := beverages t + 1;
          chocolates := chocolates t; amount := amount t |} tot, paidCount)
  else if decide (typ = "Chocolat") then
    (add_amount
       {| menus := menus t; eleves := eleves t; profs := profs t;
          sandwiches := sandwiches t; beverages := beverages t;
          chocolates := chocolates t + 1; amount := amount t |} tot, paidCount)
  else
    (add_amount (count_menu t typ bev choc) tot, count_paid paidCount name).

(** One turn of the loop that ends [api_caisse], the same in both
    backends, on the name of the reservation at hand; the state is
    [(paid_left, remaining)]. *)
Definition queue_step (acc : gmap string Z * list string) (name : string)
  : gmap string Z * list string :=
  let '(paid_left, remaining) := acc in
  let k := norm_name name in
  if 0 <? default 0 (paid_left !! k)
  then (<[k := default 0 (paid_left !! k) - 1]> paid_left, remaining)
  else (paid_left, remaining ++ [name]).

(** ** [app.py] *)

Module App.

Definition DAYS : list string :=
  ["Dimanche"; "Lundi"; "Mardi"; "Mercredi"; "Jeudi"; "Vendredi"; "Samedi"].

Definition day_label (dt : Datetime.date) : string :=
  let w := Datetime.weekday dt in
  nth (Z.to_nat (if w <? 6 then w + 1 else 0)) DAYS "".

Definition pretty_fr_header (iso : string) : result string :=
  pretty_with day_label iso.

Definition to_iso_any (env : Env) (s : string) : result string :=
  let s := Py.strip s in
  if decide (s = "") then Ok (today_iso env)
  else if decide (dotted_shape s) then from_dotted s
  else if decide (dashed_shape s) then Ok s
  else match fromisoformat_date env s with
       | Some d => Ok d
       | None => Ok (today_iso env)
       end.

(** The key built in [api_initial]: [f"{d:02d}.{m:02d}.{y:04d}"] from
    [y, m, d = map(int, r.date_iso.split("-"))]. *)
Definition display_key (date_iso : string) : result string :=
  '(y, m, d) ← parse_ymd "-" date_iso;
  Ok (display_text y m d).

Definition api_reserve (env : Env) (db : DB) (inp : ReserveIn)
  : result (DB * text) :=
  iso ← to_iso_any env (reserve_dateStr inp);
  let p := head (filter (λ p, ParamRow.date_iso p = iso
                              ∧ ParamRow.open p = true) (params db)) in
  if decide (p = None) then
    Raise (HTTPException 400 (DayNotOpen (reserve_dateStr inp)))
  else
    let cnt := filter (λ r, Reservation.date_iso r = iso) (reservations db) in
    if decide (40 ≤ Z.of_nat (length cnt)) then
      Raise (HTTPException 400 (QuotaReached (reserve_dateStr inp)))
    else
      Ok (add_reservation db iso (Py.strip (reserve_name inp)),
          Confirmed (reserve_name inp) (reserve_dateStr inp)).

(** The loop of [api_unreserve]: the first row whose stripped name is
    [target]. *)
Fixpoint first_match (target : string) (rows : list Reservation.t)
  : option Reservation.t :=
  match rows with
  | [] => None
  | r :: rest =>
      if decide (Py.strip (Reservation.name r) = target) then Some r
      else first_match target rest
  end.

Definition api_unreserve (env : Env) (db : DB) (inp : UnreserveIn)
  : result (DB * text) :=
  iso ← to_iso_any env (unreserve_dateStr inp);
  let target := Py.strip (unreserve_name inp) in
  let rows := filter (λ r, Reservation.date_iso r = iso) (reservations db) in
  match first_match target rows with
  | Some r => Ok (delete_reservation db r, Unregistered (unreserve_dateStr inp))
  | None =>
      Raise (HTTPException 400
               (NoReservationFound target (unreserve_dateStr inp)))
  end.

(** [x or default] on a [str]: the empty string is falsy. *)
Definition or_else (x default : string) : string :=
  if decide (x = "") then default else x.

Definition is_closed (db : DB) (iso : string) : bool :=
  bool_decide
    (head (filter (λ r, TillRow.date_iso r = iso ∧ TillRow.type r = "Closed")
             (till db)) ≠ None).

(** [select(TillRow).where(TillRow.date_iso == iso)] *)
Definition till_of (db : DB) (iso : string) : list TillRow.t :=
  filter (λ r, TillRow.date_iso r = iso) (till db).

Definition row_step (acc : Totals * gmap string Z) (row : TillRow.t)
  : Totals * gmap string Z :=
  totals_step acc (TillRow.name row) (TillRow.type row)
    (TillRow.beverage row) (TillRow.chocolate row) (TillRow.total row).

Definition build_totals (db : DB) (iso : string) : Totals * gmap string Z :=
  fold_left row_step (till_of db iso) (Totals0, ∅).


(** [select(Reservation).where(date_iso == iso).order_by(Reservation.id)] *)
Definition ordered (db : DB) (iso : string) : list Reservation.t :=
  order_by Reservation.id
    (filter (λ r, Reservation.date_iso r = iso) (reservations db)).

(** The date [api_caisse] answers for. *)
Definition caisse_date (env : Env) (date : option string) : string :=
  match date with
  | Some d =>
      if decide (d ≠ "" ∧ String.length d = 10%nat) then d
      else today_iso env
  | None => today_iso env
  end.

Definition api_caisse (env : Env) (db : DB) (date : option string)
  : CaisseOut :=
  let iso := caisse_date env date in
  if is_closed db iso then
    {| out_date := iso; closed := true; names := [];
       totals := fst (build_totals db iso) |}
  else
    let '(t, paidCount) := build_totals db iso in
    let '(_, remaining) :=
      fold_left queue_step (Reservation.name <$> ordered db iso)
        (paidCount, []) in
    {| out_date := iso; closed := false; names := remaining; totals := t |}.

Definition assert_open (db : DB) (iso : string) : result unit :=
  if is_closed db iso then Raise (HTTPException 400 (TillClosed iso))
  else Ok tt.

Definition assert_capacity (db : DB) (iso : string) : result unit :=
  let t := fst (build_totals db iso) in
  if decide (MAX_MENUS ≤ menus t) then
    header ← pretty_fr_header iso;
    Raise (HTTPException 400 (MenuLimitReached header))
  else Ok tt.

Definition api_checkout (env : Env) (db : DB) (inp : CheckoutIn.t)
  : result (DB * CaisseOut) :=
  let iso := str_or (CheckoutIn.dateIso inp) (today_iso env) in
  _ ← assert_open db iso;
  _ ← assert_capacity db iso;
  let typ := Py.upper (or_else (CheckoutIn.type inp) "PROF") in
  let method := Py.upper (or_else (CheckoutIn.method inp) "CASH") in
  let base := if decide (typ = "ELEVE") then PRICE_ELEVE else PRICE_PROF in
  let bev := if CheckoutIn.beverage inp then PRICE_BOISSON else 0 in
  let choc := if CheckoutIn.chocolate inp then PRICE_CHOCOLAT else 0 in
  let total_cash :=
    if decide (method = "CARD") then bev + choc else base + bev + choc in
  let type_label :=
    String.append (if decide (typ = "ELEVE") then "Eleve" else "Prof")
      (if decide (method = "CARD") then " (CARD)" else " (CASH)") in
  let db' :=
    add_till_row db iso (or_else (Py.strip (CheckoutIn.name inp)) "Anonyme")
      type_label base bev choc total_cash in
  Ok (db', api_caisse env db' (Some iso)).

(** [n = max(1, int(inp.qty or 1))] *)
Definition add_count (inp : QtyIn) : nat :=
  Z.to_nat (Z.max 1 (if decide (qty inp = 0) then 1 else qty inp)).

(** The body shared by the three [api_add_*] routes. *)
Definition api_add (env : Env) (db : DB) (inp : QtyIn)
    (type : string) (base beverage chocolate total : Z)
  : result (DB * CaisseOut) :=
  let iso := str_or (qty_dateIso inp) (today_iso env) in
  _ ← assert_open db iso;
  let db' :=
    Nat.iter (add_count inp)
      (λ d, add_till_row d iso "" type base beverage chocolate total) db in
  Ok (db', api_caisse env db' (Some iso)).

Definition api_add_sandwich env db inp :=
  api_add env db inp "Sandwich" PRICE_SANDWICH 0 0 PRICE_SANDWICH.

Definition api_add_beverage env db inp :=
  api_add env db inp "Boisson" 0 PRICE_BOISSON 0 PRICE_BOISSON.

Definition api_add_chocolate env db inp :=
  api_add env db inp "Chocolat" 0 0 PRICE_CHOCOLAT PRICE_CHOCOLAT.

(** The notification by mail is best effort ([try ... except: pass]) and
    writes nothing; the route always appends the marker. *)
Definition api_close (env : Env) (db : DB) (inp : CloseIn) : DB :=
  let iso := str_or (close_dateIso inp) (today_iso env) in
  add_till_row db iso "" "Closed" 0 0 0 0.

(** *** The requests of the API that write to the store, and runs of them

    The import of the administration page, the one other route that
    writes, is [Admin.admin_import] below; [Admin.run] runs requests of
    both kinds. *)

Inductive request :=
| Reserve (inp : ReserveIn)
| Unreserve (inp : UnreserveIn)
| Checkout (inp : CheckoutIn.t)
| AddSandwich (inp : QtyIn)
| AddBeverage (inp : QtyIn)
| AddChocolate (inp : QtyIn)
| Close (inp : CloseIn).

(** The store after a request; a request that raises leaves it as it
    was. *)
Definition after {A} (db : DB) (r : result (DB * A)) : DB :=
  match r with
  | Ok (db', _) => db'
  | Raise _ => db
  end.

Definition step (env : Env) (db : DB) (req : request) : DB :=
  match req with
  | Reserve inp => after db (api_reserve env db inp)
  | Unreserve inp => after db (api_unreserve env db inp)
  | Checkout inp => after db (api_checkout env db inp)
  | AddSandwich inp => after db (api_add_sandwich env db inp)
  | AddBeverage inp => after db (api_add_beverage env db inp)
  | AddChocolate inp => after db (api_add_chocolate env db inp)
  | Close inp => api_close env db inp
  end.

(** A run: each request comes with the environment of its moment. *)
Definition run (db : DB) (reqs : list (Env * request)) : DB :=
  fold_left (λ d er, step (fst er) d (snd er)) reqs db.

End App.

(** ** [app_sheets.py]

    A worksheet is the value of [get_all_values()]: the list of its rows,
    header row first, each row the list of its cells as text.  The three
    worksheets are taken to exist.  [append_row] puts a row after the last
    one; [delete_rows(i)] removes the row of 1-based index [i]. *)

Module Sheets.

Definition row := list string.

Record Book := {
  Parametres : list row;
  Reservations : list row;
  Caisse : list row
}.

(** [r[i]], used under a guard on [len(r)]. *)
Definition cell (r : row) (i : nat) : string := nth i r "".

Definition day_label (dt : Datetime.date) : string :=
  nth (Z.to_nat (Datetime.weekday dt))
    ["Lundi"; "Mardi"; "Mercredi"; "Jeudi"; "Vendredi"; "Samedi"; "Dimanche"]
    "".

Definition pretty_fr_header (iso : string) : result string :=
  pretty_with day_label iso.

Definition to_iso_any (env : Env) (s : string) : result string :=
  let s := Py.strip s in
  if decide (dotted_shape s) then from_dotted s
  else if decide (dashed_shape s) then Ok s
  else match fromisoformat_date env s with
       | Some d => Ok d
       | None => Ok (today_iso env)
       end.

(** [x.lower() in ("1","true","vrai","yes")] *)
Definition truthy (x : string) : bool :=
  bool_decide (Py.lower x ∈ ["1"; "true"; "vrai"; "yes"]).

Definition is_open (b : Book) (iso : string) : bool :=
  existsb (λ r : row, bool_decide (r ≠ [] ∧ (4 ≤ length r)%nat ∧ cell r 0 = iso)
                      && truthy (cell r 3))
    (tail (Parametres b)).

Definition api_reserve (env : Env) (b : Book) (inp : ReserveIn)
  : result (Book * text) :=
  iso ← to_iso_any env (reserve_dateStr inp);
  if negb (is_open b iso) then
    Raise (HTTPException 400 (DayNotOpen (reserve_dateStr inp)))
  else
    let count :=
      length (filter (λ r : row, r ≠ [] ∧ cell r 0 = iso)
                (tail (Reservations b))) in
    if decide (MAX_RESAS ≤ Z.of_nat count) then
      Raise (HTTPException 400 (QuotaReached (reserve_dateStr inp)))
    else
      Ok ({| Parametres := Parametres b;
             Reservations :=
               Reservations b ++
                 [[iso; Py.strip (reserve_name inp); utcnow_iso env]];
             Caisse := Caisse b |},
          Confirmed (reserve_name inp) (reserve_dateStr inp)).

(** The loop of [api_unreserve] over [enumerate(vals[1:], start=2)]:
    the index [i] of the first matching row. *)
Fixpoint find_row (iso name : string) (i : nat) (rows : list row)
  : option nat :=
  match rows with
  | [] => None
  | r :: rest =>
      if decide ((2 ≤ length r)%nat ∧ cell r 0 = iso
                 ∧ Py.strip (cell r 1) = name)
      then Some i
      else find_row iso name (S i) rest
  end.

(** [rsh.delete_rows(i)], [i] counted from 1. *)
Definition delete_rows (i : nat) (vals : list row) : list row :=
  take (i - 1) vals ++ drop i vals.

Definition api_unreserve (env : Env) (b : Book) (inp : UnreserveIn)
  : result (Book * text) :=
  iso ← to_iso_any env (unreserve_dateStr inp);
  let name := Py.strip (unreserve_name inp) in
  match find_row iso name 2 (tail (Reservations b)) with
  | Some i =>
      Ok ({| Parametres := Parametres b;
             Reservations := delete_rows i (Reservations b);
             Caisse := Caisse b |},
          Unregistered (unreserve_dateStr inp))
  | None =>
      Raise (HTTPException 400
               (NoReservationFound name (unreserve_dateStr inp)))
  end.

Definition is_closed (b : Book) (iso : string) : bool :=
  existsb (λ r : row, bool_decide ((3 ≤ length r)%nat ∧ cell r 0 = iso
                                   ∧ cell r 2 = "Closed"))
    (tail (Caisse b)).

(** [float(x or 0)] *)
Definition float_or_0 (env : Env) (x : string) : result Z :=
  if decide (x = "") then Ok 0 else or_ValueError (float_of_cell env x).

(** One turn of the loop of [build_totals]. *)
Definition row_step (env : Env) (iso : string)
    (acc : Totals * gmap string Z) (r : row)
  : result (Totals * gmap string Z) :=
  if decide ((length r < 7)%nat ∨ cell r 0 ≠ iso) then Ok acc
  else
    _ ← float_or_0 env (cell r 3);
    bev ← float_or_0 env (cell r 4);
    choc ← float_or_0 env (cell r 5);
    tot ← float_or_0 env (cell r 6);
    Ok (totals_step acc (cell r 1) (cell r 2) bev choc tot).

Fixpoint totals_loop (env : Env) (iso : string)
    (acc : Totals * gmap string Z) (vals : list row)
  : result (Totals * gmap string Z) :=
  match vals with
  | [] => Ok acc
  | r :: rest =>
      acc' ← row_step env iso acc r;
      totals_loop env iso acc' rest
  end.

Definition build_totals (env : Env) (b : Book) (iso : string)
  : result (Totals * gmap string Z) :=
  totals_loop env iso (Totals0, ∅) (tail (Caisse b)).

(** The list [ordered] of [api_caisse]: the stripped, non-empty names of
    the date, in sheet order. *)
Definition ordered (b : Book) (iso : string) : list string :=
  (λ r, Py.strip (cell r 1)) <$>
    filter (λ r : row, (2 ≤ length r)%nat ∧ cell r 0 = iso
                       ∧ Py.strip (cell r 1) ≠ "")
      (tail (Reservations b)).

Definition api_caisse (env : Env) (b : Book) (date : option string)
  : result CaisseOut :=
  let iso := App.caisse_date env date in
  if is_closed b iso then
    '(t, _) ← build_totals env b iso;
    Ok {| out_date := iso; closed := true; names := []; totals := t |}
  else
    '(t, paidCount) ← build_totals env b iso;
    let '(_, remaining) :=
      fold_left queue_step (ordered b iso) (paidCount, []) in
    Ok {| out_date := iso; closed := false; names := remaining;
          totals := t |}.

Definition assert_open (b : Book) (iso : string) : result unit :=
  if is_closed b iso then Raise (HTTPException 400 (TillClosed iso))
  else Ok tt.

Definition assert_capacity (env : Env) (b : Book) (iso : string)
  : result unit :=
  '(t, _) ← build_totals env b iso;
  if decide (MAX_MENUS ≤ menus t) then
    header ← pretty_fr_header iso;
    Raise (HTTPException 400 (MenuLimitReached header))
  else Ok tt.

(** The outer result is [Raise] when a check fails, before anything is
    written; once the row is appended the book is returned with the
    outcome of the final [api_caisse], which may itself raise. *)
Definition api_checkout (env : Env) (b : Book) (inp : CheckoutIn.t)
  : result (Book * result CaisseOut) :=
  let iso := str_or (CheckoutIn.dateIso inp) (today_iso env) in
  _ ← assert_open b iso;
  _ ← assert_capacity env b iso;
  let typ := Py.upper (App.or_else (CheckoutIn.type inp) "PROF") in
  let method := Py.upper (App.or_else (CheckoutIn.method inp) "CASH") in
  let base := if decide (typ = "ELEVE") then PRICE_ELEVE else PRICE_PROF in
  let bev := if CheckoutIn.beverage inp then PRICE_BOISSON else 0 in
  let choc := if CheckoutIn.chocolate inp then PRICE_CHOCOLAT else 0 in
  let total_cash :=
    if decide (method = "CARD") then bev + choc else base + bev + choc in
  let label :=
    String.append (if decide (typ = "ELEVE") then "Eleve" else "Prof")
      (if decide (method = "CARD") then " (CARD)" else " (CASH)") in
  let b' :=
    {| Parametres := Parametres b;
       Reservations := Reservations b;
       Caisse :=
         Caisse b ++
           [[iso; App.or_else (Py.strip (CheckoutIn.name inp)) "Anonyme";
             label; cell_of_number env base; cell_of_number env bev;
             cell_of_number env choc; cell_of_number env total_cash;
             utcnow_iso env]] |} in
  Ok (b', api_caisse env b' (Some iso)).

End Sheets.

(** ** Notions used to state the properties *)

(** The date a checkout, an add-on or a close is about:
    [inp.dateIso or today_iso()]. *)
Definition effective_date (env : Env) (dateIso : option string) : string :=
  str_or dateIso (today_iso env).


(** A checkout at the till for somebody who is not on the list: the
    display name is blank, or the ["Anonyme"] the page sends for it. *)
Definition walk_in (inp : CheckoutIn.t) : Prop :=
  Py.strip (CheckoutIn.name inp) = ""
  ∨ Py.strip (CheckoutIn.name inp) = "Anonyme".

Definition menus_split (t : Totals) : Prop := menus t = eleves t + profs t.

(** A till row that is neither a closing marker nor an add-on is a meal. *)
Definition is_meal (typ : string) : Prop :=
  typ ≠ "Closed" ∧ typ ≠ "Sandwich" ∧ typ ≠ "Boisson" ∧ typ ≠ "Chocolat".

#[global] Instance is_meal_dec typ : Decision (is_meal typ).
Proof. unfold is_meal. apply _. Defined.

(** A row as [api_close] writes it. *)
Definition closing_marker (r : TillRow.t) : Prop :=
  TillRow.type r = "Closed" ∧ TillRow.name r = ""
  ∧ TillRow.base r = 0 ∧ TillRow.beverage r = 0
  ∧ TillRow.chocolate r = 0 ∧ TillRow.total r = 0.

(** The rows a request may append to the till of a store [db]: a closing
    marker, or a row for a date that [db] does not hold closed, with a
    payer of non-empty key when the row is a meal. *)
Definition written_row (db : DB) (r : TillRow.t) : Prop :=
  closing_marker r
  ∨ (App.is_closed db (TillRow.date_iso r) = false
     ∧ (is_meal (TillRow.type r) → norm_name (TillRow.name r) ≠ "")).

(** The date has a schedule entry that is open for registration. *)
Definition open_for_registration (db : DB) (iso : string) : Prop :=
  Exists (λ p, ParamRow.date_iso p = iso ∧ ParamRow.open p = true) (params db).

(** The reservations of a date, in storage order. *)
Definition live_reservations (db : DB) (iso : string) : list Reservation.t :=
  filter (λ r, Reservation.date_iso r = iso) (reservations db).

(** The number of rows the spreadsheet backend counts against the quota. *)
Definition sheet_live_count (b : Sheets.Book) (iso : string) : nat :=
  length (filter (λ r : Sheets.row, r ≠ [] ∧ Sheets.cell r 0 = iso)
            (tail (Sheets.Reservations b))).

(** The primary keys of the reservation table grow along the table: the
    storage order is the order of the sequence ordinals.  Every store
    built by the requests from an empty table is of this kind. *)
Definition keys_ascending (db : DB) : Prop :=
  StronglySorted Z.lt (Reservation.id <$> reservations db).

(** How [api_unreserve] compares a stored name with the requested one. *)
Definition same_stripped (target : string) (r : Reservation.t) : Prop :=
  Py.strip (Reservation.name r) = target.

Definition sheet_row_matches (iso name : string) (r : Sheets.row) : Prop :=
  (2 ≤ length r)%nat ∧ Sheets.cell r 0 = iso
  ∧ Py.strip (Sheets.cell r 1) = name.

(** What [to_iso_any] falls back on when its input has neither shape. *)
Definition parsed_or_today (env : Env) (s : string) : string :=
  default (today_iso env) (fromisoformat_date env s).

(** Character classes of a text. *)
Fixpoint all_chars (p : ascii -> bool) (s : string) : bool :=
  match s with
  | EmptyString => true
  | String c r => p c && all_chars p r
  end.

Definition is_digit (c : ascii) : bool :=
  match Py.digit_val c with Some _ => true | None => false end.

(** [n] is written with exactly [width] digits and read back by [int]. *)
Definition exact_width (width : nat) (n : Z) : bool :=
  let s := Py.format_0d width n in
  all_chars is_digit s && Nat.eqb (String.length s) width
  && bool_decide (Py.int s = Some n).

(** *** Reconciliation, in the words of the specification *)

(** How many of [names] have the normalized name [k]. *)
Definition count_key (k : string) (names : list string) : Z :=
  Z.of_nat (length (filter (λ n, norm_name n = k) names)).

(** The payer names of the meal rows of a date, and [paid(k)]. *)
Definition meal_payers (db : DB) (iso : string) : list string :=
  TillRow.name <$>
    filter (λ r, is_meal (TillRow.type r)) (App.till_of db iso).

Definition paid (db : DB) (iso k : string) : Z :=
  count_key k (meal_payers db iso).

(** The rows [build_totals] of the spreadsheet backend counts as meals. *)
Definition sheet_meal_payers (b : Sheets.Book) (iso : string) : list string :=
  (λ r, Sheets.cell r 1) <$>
    filter (λ r : Sheets.row,
              ¬ ((length r < 7)%nat ∨ Sheets.cell r 0 ≠ iso)
              ∧ is_meal (Sheets.cell r 2))
      (tail (Sheets.Caisse b)).

(** The names of the reservations of a date in registration order, and
    [registered(k)]. *)
Definition registered_names (db : DB) (iso : string) : list string :=
  Reservation.name <$> App.ordered db iso.

Definition registered (db : DB) (iso k : string) : Z :=
  count_key k (registered_names db iso).

(** [paid_left.get(k, 0)] *)
Definition credit (paid_left : gmap string Z) (k : string) : Z :=
  default 0 (paid_left !! k).

(** The credits [build_totals] hands to the queue: the paid count of every
    key but the empty one, under which nothing is ever counted. *)
Definition credits_of (payers : list string) (k : string) : Z :=
  if decide (k = "") then 0 else count_key k payers.

(** Every meal row of the date carries a payer name whose key is not
    empty.  [api_checkout] writes no other meal row: it stores
    [inp.name.strip() or "Anonyme"]. *)
Definition payers_named (db : DB) (iso : string) : Prop :=
  Forall (λ n, norm_name n ≠ "") (meal_payers db iso).

(** The loop of [api_caisse] from its start, and the queue it computes for
    a date that is not closed: the second component of the loop state
    after the walk over the ordered reservations, started with the paid
    counts of [build_totals]. *)
Definition queue_loop (paidCount : gmap string Z) (ordered : list string)
  : gmap string Z * list string :=
  fold_left queue_step ordered (paidCount, []).

Definition remaining_queue (db : DB) (iso : string) : list string :=
  (queue_loop (App.build_totals db iso).2
     (Reservation.name <$> App.ordered db iso)).2.

(** The queue as the specification describes it, without a store of
    credits: walking the names in order, with [seen] the names already
    passed, a name is skipped when fewer than [credits k] names of its own
    key [k] came before it, and kept otherwise. *)
Fixpoint fifo_queue (credits : string → Z) (seen names : list string)
  : list string :=
  match names with
  | [] => []
  | n :: rest =>
      (if count_key (norm_name n) seen <? credits (norm_name n)
       then [] else [n])
      ++ fifo_queue credits (seen ++ [n]) rest
  end.

(** *** Environment, requests and stores for the examples *)

Definition env_15_march : Env :=
  {| today_iso := "2025-03-15";
     fromisoformat_date := λ _, None;
     utcnow_iso := "2025-03-15T10:00:00";
     float_of_cell := λ _, None;
     cell_of_number := λ _, "" |}.

(** A store whose only schedule entry opens Monday 17 March 2025. *)
Definition db_open_monday : DB :=
  {| params :=
       [ {| ParamRow.id := 1; ParamRow.date_iso := "2025-03-17";
            ParamRow.jour := "Lundi"; ParamRow.menu := "";
            ParamRow.open := true; ParamRow.disabled := false |} ];
     reservations := [];
     till := [] |}.

Definition reserve_monday (name : string) : App.request :=
  App.Reserve {| reserve_name := name; reserve_dateStr := "17.03.2025" |}.

Definition checkout_monday (name type : string) : App.request :=
  App.Checkout
    {| CheckoutIn.name := name; CheckoutIn.type := type;
       CheckoutIn.beverage := false; CheckoutIn.chocolate := false;
       CheckoutIn.dateIso := Some "2025-03-17"; CheckoutIn.method := "CASH" |}.

Definition blank_walk_in : CheckoutIn.t :=
  {| CheckoutIn.name := ""; CheckoutIn.type := "ELEVE";
     CheckoutIn.beverage := false; CheckoutIn.chocolate := false;
     CheckoutIn.dateIso := Some "2025-03-17"; CheckoutIn.method := "CASH" |}.

(** The requests of the scenario of the specification. *)
Definition student_cash_with_beverage (name iso : string) : CheckoutIn.t :=
  {| CheckoutIn.name := name; CheckoutIn.type := "ELEVE";
     CheckoutIn.beverage := true; CheckoutIn.chocolate := false;
     CheckoutIn.dateIso := Some iso; CheckoutIn.method := "CASH" |}.

Definition two_sandwiches (iso : string) : QtyIn :=
  {| qty := 2; qty_dateIso := Some iso |}.

(** Registering ["  john   smith "] for the open Monday. *)
Definition john_registered : DB := Eval vm_compute in
  App.step env_15_march db_open_monday (reserve_monday "  john   smith ").

(** The same, then closed at the till. *)
Definition monday_closed : DB := Eval vm_compute in
  App.step env_15_march john_registered
    (App.Close {| close_dateIso := Some "2025-03-17" |}).

(** The open Monday with one reservation under the name ["Anonyme"]. *)
Definition anonyme_registered : DB := Eval vm_compute in
  App.step env_15_march db_open_monday (reserve_monday "Anonyme").

(** John Smith registers twice and pays once. *)
Definition john_twice_paid_once : DB := Eval vm_compute in
  App.run db_open_monday
    [ (env_15_march, reserve_monday "John Smith");
      (env_15_march, reserve_monday " JOHN   SMITH ");
      (env_15_march, checkout_monday "john smith" "ELEVE") ].

(** Thirty-nine registrations for the open Monday. *)
Definition thirty_nine_registered : DB := Eval vm_compute in
  Nat.iter 39 (λ d, App.step env_15_march d (reserve_monday "Ada"))
    db_open_monday.

(** Forty-five menus served on the open Monday. *)
Definition forty_five_served : DB := Eval vm_compute in
  Nat.iter 45 (λ d, App.step env_15_march d (checkout_monday "" "PROF"))
    db_open_monday.

(** A spreadsheet with one staff meal whose amount cells are empty. *)
Definition book_one_meal : Sheets.Book :=
  {| Sheets.Parametres := [["date_iso"; "jour"; "menu"; "open"; "disabled"]];
     Sheets.Reservations := [["date_iso"; "name"; "timestamp"]];
     Sheets.Caisse :=
       [ ["date"; "nom"; "type"; "base"; "boisson"; "chocolat"; "total";
          "timestamp"];
         ["2025-03-17"; "Ada"; "Prof (CARD)"; ""; ""; ""; ""; ""] ] |}.

(** * Further routes of the program, and notions for their properties *)

(** [names] without its first name of key [k], if it has one. *)
Fixpoint remove_first_key (k : string) (names : list string) : list string :=
  match names with
  | [] => []
  | n :: rest =>
      if decide (norm_name n = k) then rest
      else n :: remove_first_key k rest
  end.

(** The key under which a checkout counts as paid. *)
Definition payer_key (inp : CheckoutIn.t) : string :=
  norm_name (App.or_else (Py.strip (CheckoutIn.name inp)) "Anonyme").


(** The three add-on routes, with the price and the counter of each. *)
Inductive add_on := Sandwich | Beverage | Chocolate.

Definition add_on_route (a : add_on)
  : Env → DB → QtyIn → result (DB * CaisseOut) :=
  match a with
  | Sandwich => App.api_add_sandwich
  | Beverage => App.api_add_beverage
  | Chocolate => App.api_add_chocolate
  end.

Definition add_on_price (a : add_on) : Z :=
  match a with
  | Sandwich => PRICE_SANDWICH
  | Beverage => PRICE_BOISSON
  | Chocolate => PRICE_CHOCOLAT
  end.

Definition add_on_counter (a : add_on) (t : Totals) : Z :=
  match a with
  | Sandwich => sandwiches t
  | Beverage => beverages t
  | Chocolate => chocolates t
  end.

(** The date a request works on, when it gets as far as having one. *)
Definition request_date (env : Env) (req : App.request) : option string :=
  match req with
  | App.Reserve inp =>
      match App.to_iso_any env (reserve_dateStr inp) with
      | Ok iso => Some iso
      | Raise _ => None
      end
  | App.Unreserve inp =>
      match App.to_iso_any env (unreserve_dateStr inp) with
      | Ok iso => Some iso
      | Raise _ => None
      end
  | App.Checkout inp => Some (effective_date env (CheckoutIn.dateIso inp))
  | App.AddSandwich inp | App.AddBeverage inp | App.AddChocolate inp =>
      Some (effective_date env (qty_dateIso inp))
  | App.Close inp => Some (effective_date env (close_dateIso inp))
  end.

(** The open Monday after a sandwich request with a quantity of zero. *)
Definition no_quantity_sandwich : DB := Eval vm_compute in
  App.step env_15_march db_open_monday
    (App.AddSandwich {| qty := 0; qty_dateIso := Some "2025-03-17" |}).

(** John Smith registers, then pays his meal. *)
Definition john_served : DB := Eval vm_compute in
  App.step env_15_march john_registered (checkout_monday "john smith" "ELEVE").

(** A till row as the routes write them: a closing marker, an add-on at
    its unit price, or a meal whose beverage and chocolate are absent or
    at their price and whose total is the extras alone (card) or the
    extras and the price of the meal of its kind (cash). *)
Definition priced (r : TillRow.t) : Prop :=
  let typ := TillRow.type r in
  if decide (typ = "Closed") then True
  else if decide (typ = "Sandwich") then TillRow.total r = PRICE_SANDWICH
  else if decide (typ = "Boisson") then TillRow.total r = PRICE_BOISSON
  else if decide (typ = "Chocolat") then TillRow.total r = PRICE_CHOCOLAT
  else
    let base :=
      if Py.contains "eleve" (Py.lower typ) then PRICE_ELEVE else PRICE_PROF in
    (TillRow.beverage r = 0 ∨ TillRow.beverage r = PRICE_BOISSON)
    ∧ (TillRow.chocolate r = 0 ∨ TillRow.chocolate r = PRICE_CHOCOLAT)
    ∧ (TillRow.total r = TillRow.beverage r + TillRow.chocolate r
       ∨ TillRow.total r
         = base + TillRow.beverage r + TillRow.chocolate r).

(** The part of the amount that does not depend on how meals are paid. *)
Definition extras_amount (t : Totals) : Z :=
  PRICE_SANDWICH * sandwiches t + PRICE_BOISSON * beverages t
  + PRICE_CHOCOLAT * chocolates t.

(** The price of the meals counted, were they all paid in cash. *)
Definition meals_amount (t : Totals) : Z :=
  PRICE_ELEVE * eleves t + PRICE_PROF * profs t.

(** A word as [str.split] gives them: not empty and free of whitespace. *)
Definition is_word (w : string) : Prop :=
  w ≠ "" ∧ all_chars (λ c, negb (Py.isspace c)) w = true.

(** ** [date.fromordinal]

    Transcribed from the reference implementation of Python's [datetime]
    module ([_ord2ymd], [date.fromordinal]); [divmod] by a positive number
    is floor division, as [Z.div] and [Z.modulo] are. *)

Module DateOrd.

Definition DI400Y : Z := Datetime.days_before_year 401.
Definition DI100Y : Z := Datetime.days_before_year 101.
Definition DI4Y : Z := Datetime.days_before_year 5.

Definition DAYS_IN_MONTH : list Z :=
  [-1; 31; 28; 31; 30; 31; 30; 31; 31; 30; 31; 30; 31].

Definition DAYS_BEFORE_MONTH : list Z :=
  [-1; 0; 31; 59; 90; 120; 151; 181; 212; 243; 273; 304; 334].

Definition ord2ymd (n : Z) : Z * Z * Z :=
  let n := n - 1 in
  let n400 := n / DI400Y in
  let n := n mod DI400Y in
  let year := n400 * 400 + 1 in
  let n100 := n / DI100Y in
  let n := n mod DI100Y in
  let n4 := n / DI4Y in
  let n := n mod DI4Y in
  let n1 := n / 365 in
  let n := n mod 365 in
  let year := year + (n100 * 100 + n4 * 4 + n1) in
  if (n1 =? 4) || (n100 =? 4) then (year - 1, 12, 31)
  else
    let leapyear := (n1 =? 3) && (negb (n4 =? 24) || (n100 =? 3)) in
    let month := Z.shiftr (n + 50) 5 in
    let preceding :=
      nth (Z.to_nat month) DAYS_BEFORE_MONTH 0
      + (if (2 <? month) && leapyear then 1 else 0) in
    if n <? preceding then
      let month := month - 1 in
      let preceding :=
        preceding
        - (nth (Z.to_nat month) DAYS_IN_MONTH 0
           + (if (month =? 2) && leapyear then 1 else 0)) in
      (year, month, n - preceding + 1)
    else (year, month, n - preceding + 1).

(** [date.fromordinal(n)]; [None] stands for [ValueError]. *)
Definition fromordinal (n : Z) : option Datetime.date :=
  let '(y, m, d) := ord2ymd n in Datetime.mk_date y m d.

End DateOrd.

(** ** [app.py]: the route [/api/initial]

    [date.today()] and [date.fromisoformat] are read from outside: the
    first is the parameter [tz_today], the second the parameter
    [fromisoformat], with [None] for [ValueError].  An exception raised in
    the route is not caught there. *)

From Stdlib Require OrderedTypeEx.

Module DayOut.
Record t := {
  date : string;
  jour : string;
  menu : string;
  open : bool;
  disabled : bool
}.
End DayOut.

Module Initial.

Record Out := {
  days : list DayOut.t;
  reservations_map : gmap string (list string)
}.

Definition wanted : list string := ["Lundi"; "Mardi"; "Jeudi"; "Vendredi"].

Definition mapping : gmap string Z :=
  list_to_map
    [("Lundi", 0); ("Mardi", 1); ("Mercredi", 2); ("Jeudi", 3);
     ("Vendredi", 4); ("Samedi", 5); ("Dimanche", 6)].

Definition next_weekday_str (today : Datetime.date) (day_name : string)
  : result string :=
  let target := default 0 (mapping !! day_name) in
  let delta :=
    let r := (target - Datetime.weekday today) mod 7 in
    if decide (r = 0) then 7 else r in
  let d := Datetime.toordinal today + delta in
  dt ← or_ValueError (DateOrd.fromordinal d);
  Ok (display_text (Datetime.year dt) (Datetime.month dt) (Datetime.day dt)).

(** [l.sort(key=...)] on keys of type [str]: the sort is stable and
    compares with [<], which on [str] is the order of the code points. *)
Fixpoint insert_by_str {A} (key : A → string) (x : A) (l : list A) : list A :=
  match l with
  | [] => [x]
  | y :: r =>
      if String.ltb (key x) (key y) then x :: l
      else y :: insert_by_str key x r
  end.

Definition sort_by_str {A} (key : A → string) (l : list A) : list A :=
  foldr (insert_by_str key) [] (rev l).

(** One turn of the loop over [all_res]:
    [reservations_map.setdefault(key, []).append(r.name)]. *)
Definition map_step (m : gmap string (list string)) (r : Reservation.t)
  : result (gmap string (list string)) :=
  key ← App.display_key (Reservation.date_iso r);
  Ok (<[key := default [] (m !! key) ++ [Reservation.name r]]> m).

Fixpoint map_loop (m : gmap string (list string)) (rows : list Reservation.t)
  : result (gmap string (list string)) :=
  match rows with
  | [] => Ok m
  | r :: rest =>
      m' ← map_step m r;
      map_loop m' rest
  end.

(** [a >= b] on two dates. *)
Definition date_ge (a b : Datetime.date) : bool :=
  (Datetime.year b <? Datetime.year a)
  || (Datetime.year a =? Datetime.year b)
     && ((Datetime.month b <? Datetime.month a)
         || (Datetime.month a =? Datetime.month b)
            && (Datetime.day b <=? Datetime.day a)).

(** [[f(x) for x in l]] with an [f] that may raise. *)
Fixpoint for_each {A B} (f : A → result B) (l : list A) : result (list B) :=
  match l with
  | [] => Ok []
  | x :: rest =>
      y ← f x;
      ys ← for_each f rest;
      Ok (y :: ys)
  end.

Section today.

Variable fromisoformat : string → option Datetime.date.
Variable tz_today : Datetime.date.

(** The condition of the comprehension of [first_open_for]; [and] stops
    at the first falsy operand. *)
Definition is_candidate (day_name : string) (r : ParamRow.t) : result bool :=
  if decide (ParamRow.jour r = day_name) then
    if ParamRow.open r then
      d ← or_ValueError (fromisoformat (ParamRow.date_iso r));
      Ok (date_ge d tz_today)
    else Ok false
  else Ok false.

Fixpoint candidates (day_name : string) (rows : list ParamRow.t)
  : result (list ParamRow.t) :=
  match rows with
  | [] => Ok []
  | r :: rest =>
      keep ← is_candidate day_name r;
      cs ← candidates day_name rest;
      Ok (if keep : bool then r :: cs else cs)
  end.

Definition first_open_for (rows : list ParamRow.t) (day_name : string)
  : result DayOut.t :=
  cs ← candidates day_name rows;
  match sort_by_str ParamRow.date_iso cs with
  | e :: _ =>
      key ← App.display_key (ParamRow.date_iso e);
      Ok {| DayOut.date := key; DayOut.jour := ParamRow.jour e;
            DayOut.menu := ParamRow.menu e; DayOut.open := true;
            DayOut.disabled := ParamRow.disabled e |}
  | [] =>
      s ← next_weekday_str tz_today day_name;
      Ok {| DayOut.date := s; DayOut.jour := day_name; DayOut.menu := "";
            DayOut.open := false; DayOut.disabled := false |}
  end.

Definition api_initial (db : DB) : result Out :=
  let rows := sort_by_str ParamRow.date_iso (params db) in
  reservations_map ← map_loop ∅ (reservations db);
  days_out ← for_each (first_open_for rows) wanted;
  Ok {| days := days_out; reservations_map := reservations_map |}.

End today.

End Initial.

(** The names [api_initial] lists under [key]: those of the reservations
    whose date has [key] as display form, in storage order. *)
Definition has_key (key : string) (r : Reservation.t) : bool :=
  match App.display_key (Reservation.date_iso r) with
  | Ok k => bool_decide (k = key)
  | Raise _ => false
  end.

Definition names_under (key : string) (rows : list Reservation.t)
  : list string :=
  Reservation.name <$> filter (λ r, has_key key r = true) rows.

(** A schedule entry that [first_open_for] keeps for [day_name]. *)
Definition upcoming (fromisoformat : string → option Datetime.date)
    (tz_today : Datetime.date) (day_name : string) (r : ParamRow.t) : Prop :=
  ParamRow.jour r = day_name ∧ ParamRow.open r = true
  ∧ ∃ d, fromisoformat (ParamRow.date_iso r) = Some d
         ∧ Initial.date_ge d tz_today = true.

(** A [fromisoformat] for the examples: the canonical form only. *)
Definition fromisoformat_canonical (s : string) : option Datetime.date :=
  if decide (dashed_shape s) then
    match parse_ymd "-" s with
    | Ok (y, m, d) => Datetime.mk_date y m d
    | Raise _ => None
    end
  else None.

(** Monday 17 March 2025. *)
Definition monday_17_march : Datetime.date :=
  {| Datetime.year := 2025; Datetime.month := 3; Datetime.day := 17 |}.

(** What a day of the answer of [api_initial] says, for the day name it
    was asked for: an open day is the entry of the schedule kept for that
    name that comes first in the order of the date texts; a day that is
    not open stands for a name with no entry kept, at the date
    [next_weekday_str] gives. *)
Definition shows_first_open (fromisoformat : string → option Datetime.date)
    (tz_today : Datetime.date) (db : DB) (day_name : string)
    (day : DayOut.t) : Prop :=
  DayOut.jour day = day_name
  ∧ if DayOut.open day then
      ∃ row, row ∈ params db
             ∧ upcoming fromisoformat tz_today day_name row
             ∧ App.display_key (ParamRow.date_iso row)
               = Ok (DayOut.date day)
             ∧ DayOut.menu day = ParamRow.menu row
             ∧ DayOut.disabled day = ParamRow.disabled row
             ∧ ∀ row', row' ∈ params db →
                       upcoming fromisoformat tz_today day_name row' →
                       String.ltb (ParamRow.date_iso row')
                         (ParamRow.date_iso row) = false
    else
      (∀ row, row ∈ params db →
              ¬ upcoming fromisoformat tz_today day_name row)
      ∧ Initial.next_weekday_str tz_today day_name = Ok (DayOut.date day)
      ∧ DayOut.menu day = "" ∧ DayOut.disabled day = false.

(** What [api_initial] answers on Monday 17 March 2025 for the store with
    the open Monday, and for that store with John Smith registered. *)
Definition no_days : Initial.Out :=
  {| Initial.days := []; Initial.reservations_map := ∅ |}.

Definition answer_of (r : result Initial.Out) : Initial.Out :=
  match r with
  | Ok out => out
  | Raise _ => no_days
  end.

Definition initial_open_monday : Initial.Out := Eval vm_compute in
  answer_of
    (Initial.api_initial fromisoformat_canonical monday_17_march
       db_open_monday).

Definition initial_john : Initial.Out := Eval vm_compute in
  answer_of
    (Initial.api_initial fromisoformat_canonical monday_17_march
       john_registered).

(** ** [app_sheets.py]: the add-on routes and the close

    The conventions are those of the module [Sheets].  Each row of an
    add-on request reads the clock for itself: [clock i] is the reading
    for the row of index [i].  The mail of [api_close] is sent, if at all,
    inside a [try] whose [except] passes, and writes nothing. *)

Module SheetsTill.

(** The body shared by the three [api_add_*] routes. *)
Definition api_add (env : Env) (clock : nat → string) (b : Sheets.Book)
    (inp : QtyIn) (type : string) (base beverage chocolate total : Z)
  : result (Sheets.Book * result CaisseOut) :=
  let iso := str_or (qty_dateIso inp) (today_iso env) in
  _ ← Sheets.assert_open b iso;
  let n := App.add_count inp in
  let rows :=
    (λ i, [iso; ""; type; cell_of_number env base;
           cell_of_number env beverage; cell_of_number env chocolate;
           cell_of_number env total; clock i]) <$> seq 0 n in
  let b' :=
    {| Sheets.Parametres := Sheets.Parametres b;
       Sheets.Reservations := Sheets.Reservations b;
       Sheets.Caisse := Sheets.Caisse b ++ rows |} in
  Ok (b', Sheets.api_caisse env b' (Some iso)).

Definition api_add_sandwich env clock b inp :=
  api_add env clock b inp "Sandwich" PRICE_SANDWICH 0 0 PRICE_SANDWICH.

Definition api_add_beverage env clock b inp :=
  api_add env clock b inp "Boisson" 0 PRICE_BOISSON 0 PRICE_BOISSON.

Definition api_add_chocolate env clock b inp :=
  api_add env clock b inp "Chocolat" 0 0 PRICE_CHOCOLAT PRICE_CHOCOLAT.

Definition api_close (env : Env) (b : Sheets.Book) (inp : CloseIn)
  : Sheets.Book :=
  let iso := str_or (close_dateIso inp) (today_iso env) in
  {| Sheets.Parametres := Sheets.Parametres b;
     Sheets.Reservations := Sheets.Reservations b;
     Sheets.Caisse :=
       Sheets.Caisse b ++
         [[iso; ""; "Closed"; cell_of_number env 0; cell_of_number env 0;
           cell_of_number env 0; cell_of_number env 0; utcnow_iso env]] |}.

(** A request served by the spreadsheet backend: the book before it and
    the book after it.  A request that raises before writing leaves no
    step. *)
Inductive step : Sheets.Book → Sheets.Book → Prop :=
| step_reserve env b inp b' answer :
    Sheets.api_reserve env b inp = Ok (b', answer) → step b b'
| step_unreserve env b inp b' answer :
    Sheets.api_unreserve env b inp = Ok (b', answer) → step b b'
| step_checkout env b inp b' out :
    Sheets.api_checkout env b inp = Ok (b', out) → step b b'
| step_add_sandwich env clock b inp b' out :
    api_add_sandwich env clock b inp = Ok (b', out) → step b b'
| step_add_beverage env clock b inp b' out :
    api_add_beverage env clock b inp = Ok (b', out) → step b b'
| step_add_chocolate env clock b inp b' out :
    api_add_chocolate env clock b inp = Ok (b', out) → step b b'
| step_close env b inp :
    step b (api_close env b inp).

End SheetsTill.

(** ** [app_sheets.py]: the route [/api/initial]

    The conventions are those of the modules [Sheets] and [Initial].  No
    exception of this route is caught outside the two [try] blocks of the
    source, and the route does not tell them apart: [None] stands for an
    exception, [ValueError] from [int] or [date.fromordinal], or
    [KeyError] from the table of day names. *)

Module SheetsInitial.

(** The dictionaries appended to [rows]. *)
Record Entry := {
  date_iso : string;
  jour : string;
  menu : string;
  open : bool;
  disabled : bool
}.

(** One turn of the loop over [pvals[1:]]: the entry appended, if any. *)
Definition entry_of (fromisoformat : string → option Datetime.date)
    (r : Sheets.row) : option Entry :=
  if decide (length r < 5)%nat then None
  else
    match fromisoformat (Sheets.cell r 0) with
    | Some _ =>
        Some {| date_iso := Sheets.cell r 0; jour := Sheets.cell r 1;
                menu := Sheets.cell r 2;
                open := Sheets.truthy (Sheets.cell r 3);
                disabled := Sheets.truthy (Sheets.cell r 4) |}
    | None => None
    end.

Definition entries (fromisoformat : string → option Datetime.date)
    (pvals : list Sheets.row) : list Entry :=
  omap (entry_of fromisoformat) (tail pvals).

(** One turn of the loop over [rvals]. *)
Definition reservation_step (m : gmap string (list string))
    (row : Sheets.row) : gmap string (list string) :=
  if decide (length row < 2)%nat then m
  else
    let iso := Sheets.cell row 0 in
    let name := Py.strip (Sheets.cell row 1) in
    if decide (iso = "" ∨ name = "") then m
    else
      match App.display_key iso with
      | Ok key => <[key := default [] (m !! key) ++ [name]]> m
      | Raise _ => m
      end.

Section today.

Variable fromisoformat : string → option Datetime.date.
Variable today : Datetime.date.

Definition is_candidate (day_name : string) (e : Entry) : option bool :=
  if decide (jour e = day_name) then
    if open e then
      d ← fromisoformat (date_iso e);
      Some (Initial.date_ge d today)
    else Some false
  else Some false.

Fixpoint candidates (day_name : string) (rows : list Entry)
  : option (list Entry) :=
  match rows with
  | [] => Some []
  | e :: rest =>
      keep ← is_candidate day_name e;
      cs ← candidates day_name rest;
      Some (if keep : bool then e :: cs else cs)
  end.

Definition first_open (rows : list Entry) (day_name : string)
  : option DayOut.t :=
  cand ← candidates day_name rows;
  match Initial.sort_by_str date_iso cand with
  | e :: _ =>
      match App.display_key (date_iso e) with
      | Ok key =>
          Some {| DayOut.date := key; DayOut.jour := day_name;
                  DayOut.menu := menu e; DayOut.open := true;
                  DayOut.disabled := disabled e |}
      | Raise _ => None
      end
  | [] =>
      wd ← Initial.mapping !! day_name;
      let delta :=
        let r := (wd - Datetime.weekday today) mod 7 in
        if decide (r = 0) then 7 else r in
      fut ← DateOrd.fromordinal (Datetime.toordinal today + delta);
      Some {| DayOut.date :=
                display_text (Datetime.year fut) (Datetime.month fut)
                  (Datetime.day fut);
              DayOut.jour := day_name; DayOut.menu := "";
              DayOut.open := false; DayOut.disabled := false |}
  end.

Definition api_initial (b : Sheets.Book) : option Initial.Out :=
  let rows := entries fromisoformat (Sheets.Parametres b) in
  days_out ← mapM (first_open rows) Initial.wanted;
  let reservations :=
    fold_left reservation_step (tail (Sheets.Reservations b)) ∅ in
  Some {| Initial.days := days_out;
          Initial.reservations_map := reservations |}.

End today.

End SheetsInitial.

(** The rows of the reservation sheet that [api_initial] of the
    spreadsheet backend lists under [key], and the names it lists. *)
Definition sheet_has_key (key : string) (row : Sheets.row) : bool :=
  bool_decide ((2 ≤ length row)%nat ∧ Sheets.cell row 0 ≠ ""
               ∧ Py.strip (Sheets.cell row 1) ≠ "")
  && match App.display_key (Sheets.cell row 0) with
     | Ok k => bool_decide (k = key)
     | Raise _ => false
     end.

Definition sheet_names_under (key : string) (rows : list Sheets.row)
  : list string :=
  (λ row, Py.strip (Sheets.cell row 1))
    <$> filter (λ row, sheet_has_key key row = true) rows.

(** An entry that [first_open] keeps for [day_name]. *)
Definition sheet_upcoming (fromisoformat : string → option Datetime.date)
    (today : Datetime.date) (day_name : string)
    (e : SheetsInitial.Entry) : Prop :=
  SheetsInitial.jour e = day_name ∧ SheetsInitial.open e = true
  ∧ ∃ d, fromisoformat (SheetsInitial.date_iso e) = Some d
         ∧ Initial.date_ge d today = true.

(** What a day of the answer says in the spreadsheet backend; compare
    [shows_first_open]. *)
Definition sheet_shows_first_open
    (fromisoformat : string → option Datetime.date)
    (today : Datetime.date) (b : Sheets.Book) (day_name : string)
    (day : DayOut.t) : Prop :=
  let rows := SheetsInitial.entries fromisoformat (Sheets.Parametres b) in
  DayOut.jour day = day_name
  ∧ if DayOut.open day then
      ∃ e, e ∈ rows
           ∧ sheet_upcoming fromisoformat today day_name e
           ∧ App.display_key (SheetsInitial.date_iso e)
             = Ok (DayOut.date day)
           ∧ DayOut.menu day = SheetsInitial.menu e
           ∧ DayOut.disabled day = SheetsInitial.disabled e
           ∧ ∀ e', e' ∈ rows →
                   sheet_upcoming fromisoformat today day_name e' →
                   String.ltb (SheetsInitial.date_iso e')
                     (SheetsInitial.date_iso e) = false
    else
      (∀ e, e ∈ rows → ¬ sheet_upcoming fromisoformat today day_name e)
      ∧ Initial.next_weekday_str today day_name = Ok (DayOut.date day)
      ∧ DayOut.menu day = "" ∧ DayOut.disabled day = false.

(** A book whose schedule opens Monday 17 March 2025 and whose
    reservation sheet has a row that cannot be read. *)
Definition book_open_monday : Sheets.Book :=
  {| Sheets.Parametres :=
       [ ["date_iso"; "jour"; "menu"; "open"; "disabled"];
         ["2025-03-17"; "Lundi"; "Gratin"; "TRUE"; ""] ];
     Sheets.Reservations :=
       [ ["date_iso"; "name"; "timestamp"];
         ["2025-03-17"; " Ada "; "2025-03-15T10:00:00"];
         ["lundi"; "Bob"; "2025-03-15T10:01:00"] ];
     Sheets.Caisse :=
       [ ["date"; "nom"; "type"; "base"; "boisson"; "chocolat"; "total";
          "timestamp"] ] |}.

Definition sheet_answer_of (r : option Initial.Out) : Initial.Out :=
  default no_days r.

Definition initial_book_open_monday : Initial.Out := Eval vm_compute in
  sheet_answer_of
    (SheetsInitial.api_initial fromisoformat_canonical monday_17_march
       book_open_monday).

(** * The reconciliation, in the words of the specification

    The definitions of this part follow the specification and call no
    function of the program; the functions of the program are compared
    with them. *)

(** ** The name normalizer: "trims, upper-cases, collapses runs of
    whitespace to single spaces" *)

(** The whitespace characters, by their codes: TAB, LF, VT, FF, CR, FS,
    GS, RS, US and the space. *)
Definition blank (c : ascii) : bool :=
  bool_decide (N_of_ascii c ∈ [9; 10; 11; 12; 13; 28; 29; 30; 31; 32]%N).

(** The letters, small and capital. *)
Definition letters : list (ascii * ascii) :=
  zip (list_ascii_of_string "abcdefghijklmnopqrstuvwxyz")
      (list_ascii_of_string "ABCDEFGHIJKLMNOPQRSTUVWXYZ").

Definition capital (c : ascii) : ascii :=
  match List.find (λ p, Ascii.eqb (fst p) c) letters with
  | Some p => snd p
  | None => c
  end.

(** Where the normalizer stands in the name: before its first character
    that is kept, right after a character kept, or in a run of whitespace
    that follows one. *)
Inductive place := Leading | Inside | Gap.

(** Whitespace before the first character kept and after the last one
    gives nothing (trimmed); a run of whitespace between two characters
    kept gives one space; every character kept is given as a capital. *)
Fixpoint normalize_from (p : place) (s : string) : string :=
  match s with
  | EmptyString => EmptyString
  | String c r =>
      if blank c then
        normalize_from (match p with Leading => Leading | _ => Gap end) r
      else
        let kept := String (capital c) (normalize_from Inside r) in
        match p with
        | Gap => String " " kept
        | _ => kept
        end
  end.

Definition normalize (name : string) : string := normalize_from Leading name.

(** ** The queue: "builds a multiset of normalized names that have a paid
    meal row for the date; walks the reservations in registration order;
    if the normalized name still has remaining paid credits, consume one
    credit and skip it; otherwise include it" *)

(** How many of [names] have the key [k]. *)
Definition occurrences (k : string) (names : list string) : Z :=
  Z.of_nat (length (filter (λ n, normalize n = k) names)).

(** The payer names of the meal rows of a date: the rows of the till of
    that date that are neither a closing marker nor an add-on. *)
Definition paid_names (db : DB) (iso : string) : list string :=
  TillRow.name <$>
    filter (λ r, TillRow.date_iso r = iso ∧ is_meal (TillRow.type r))
      (till db).

(** paid(k).  The empty key "never matches": no credit stands under it. *)
Definition credits_under (payers : list string) (k : string) : Z :=
  if decide (k = "") then 0 else occurrences k payers.

Definition paid_credits (db : DB) (iso k : string) : Z :=
  credits_under (paid_names db iso) k.

(** One credit less under [k]. *)
Definition consume (credits : string → Z) (k : string) : string → Z :=
  λ k', if decide (k' = k) then credits k' - 1 else credits k'.

(** The walk over the names in registration order. *)
Fixpoint walk (credits : string → Z) (names : list string) : list string :=
  match names with
  | [] => []
  | n :: rest =>
      if 0 <? credits (normalize n)
      then walk (consume credits (normalize n)) rest
      else n :: walk credits rest
  end.

(** The credits left after the walk over [names]. *)
Fixpoint credits_left (credits : string → Z) (names : list string)
  : string → Z :=
  match names with
  | [] => credits
  | n :: rest =>
      if 0 <? credits (normalize n)
      then credits_left (consume credits (normalize n)) rest
      else credits_left credits rest
  end.

(** The date has no closing marker in the till. *)
Definition not_closed (db : DB) (iso : string) : Prop :=
  Forall (λ r, ¬ (TillRow.date_iso r = iso ∧ TillRow.type r = "Closed"))
    (till db).

(** The date [GET /api/caisse] answers for: the one asked for when its
    text has 10 characters, today otherwise. *)
Definition answered_date (env : Env) (date : option string) : string :=
  match date with
  | Some d => if decide (String.length d = 10%nat) then d else today_iso env
  | None => today_iso env
  end.

(** The same for the spreadsheet: a row of the till sheet counts for a
    date when it has seven cells or more and the date in the first; a row
    of the reservation sheet when it has two cells or more, the date in
    the first and a name that is not blank in the second, of which the
    stripped text is taken. *)
Definition sheet_paid_names (b : Sheets.Book) (iso : string) : list string :=
  omap (λ r : Sheets.row,
          match r with
          | d :: n :: t :: _ :: _ :: _ :: _ :: _ =>
              if decide (d = iso ∧ is_meal t) then Some n else None
          | _ => None
          end) (tail (Sheets.Caisse b)).

Definition sheet_registered_names (b : Sheets.Book) (iso : string)
  : list string :=
  omap (λ r : Sheets.row,
          match r with
          | d :: n :: _ =>
              if decide (d = iso ∧ Py.strip n ≠ "") then Some (Py.strip n)
              else None
          | _ => None
          end) (tail (Sheets.Reservations b)).

Definition sheet_not_closed (b : Sheets.Book) (iso : string) : Prop :=
  Forall (λ r : Sheets.row,
            match r with
            | d :: _ :: t :: _ => ¬ (d = iso ∧ t = "Closed")
            | _ => True
            end) (tail (Sheets.Caisse b)).

(** ** The checkout: "appends the TillEntry, returns the refreshed Totals
    + remaining queue" *)

(** The number of meal rows of the till for a date. *)
Definition meal_count (db : DB) (iso : string) : Z :=
  Z.of_nat (length (paid_names db iso)).

(** The totals with one meal more. *)
Definition with_meal (t : Totals) (student beverage chocolate : bool)
    (cash : Z) : Totals :=
  {| menus := menus t + 1;
     eleves := eleves t + (if student then 1 else 0);
     profs := profs t + (if student then 0 else 1);
     sandwiches := sandwiches t;
     beverages := beverages t + (if beverage then 1 else 0);
     chocolates := chocolates t + (if chocolate then 1 else 0);
     amount := amount t + cash |}.

(** The label of a meal row. *)
Definition meal_label (student card : bool) : string :=
  match student, card with
  | true, true => "Eleve (CARD)"
  | true, false => "Eleve (CASH)"
  | false, true => "Prof (CARD)"
  | false, false => "Prof (CASH)"
  end.

(** The names of the days of the week, from Monday. *)
Definition day_names : list string :=
  ["Lundi"; "Mardi"; "Mercredi"; "Jeudi"; "Vendredi"; "Samedi"; "Dimanche"].

(** No row of the till is for the date. *)
Definition no_row_on (db : DB) (iso : string) : Prop :=
  Forall (λ r, TillRow.date_iso r ≠ iso) (till db).

(** A staff meal with a chocolate, paid by card, for Monday 17 March
    2025. *)
Definition staff_card_with_chocolate : CheckoutIn.t :=
  {| CheckoutIn.name := " Ada "; CheckoutIn.type := "prof";
     CheckoutIn.beverage := false; CheckoutIn.chocolate := true;
     CheckoutIn.dateIso := Some "2025-03-17"; CheckoutIn.method := "card" |}.

(** * The import of the administration page: [POST /admin/import]

    The two files are taken as [csv.DictReader] gives them, as the list
    of their rows: a row of the schedule file with its five fields, the
    defaults of [row.get] applied, and a row of the reservation file with
    its fields [date_iso] and [name].  A file that is not sent is [None].
    The import as modelled is the one that returns: a file that cannot be
    decoded or a row without the key [date_iso], [jour] or [name] raises
    before the commit, and nothing is stored. *)

Module ParamCsv.
Record t := {
  date_iso : string;
  jour : string;
  menu : string;
  open : string;
  disabled : string
}.
End ParamCsv.

Module Admin.

(** [x.lower() in ('1','true','vrai','yes')] *)
Definition truthy (x : string) : bool :=
  bool_decide (Py.lower x ∈ ["1"; "true"; "vrai"; "yes"]).

(** [s.add(ParamRow(...))] *)
Definition add_param (db : DB) (row : ParamCsv.t) : DB :=
  {| params :=
       params db ++
         [ {| ParamRow.id := next_id (ParamRow.id <$> params db);
              ParamRow.date_iso := ParamCsv.date_iso row;
              ParamRow.jour := ParamCsv.jour row;
              ParamRow.menu := ParamCsv.menu row;
              ParamRow.open := truthy (ParamCsv.open row);
              ParamRow.disabled := truthy (ParamCsv.disabled row) |} ];
     reservations := reservations db;
     till := till db |}.

(** [s.add(Reservation(date_iso=row['date_iso'], name=row['name']))] *)
Definition add_resa (db : DB) (row : string * string) : DB :=
  add_reservation db row.1 row.2.

Definition admin_import (db : DB) (params : option (list ParamCsv.t))
    (resas : option (list (string * string))) : DB :=
  let db1 :=
    match params with
    | Some rows => fold_left add_param rows db
    | None => db
    end in
  match resas with
  | Some rows => fold_left add_resa rows db1
  | None => db1
  end.

(** The requests that write to the store: those of the API, each with the
    environment of its moment, and the imports. *)
Inductive request :=
| Api (env : Env) (req : App.request)
| Import (params : option (list ParamCsv.t))
         (resas : option (list (string * string))).

Definition step (db : DB) (r : request) : DB :=
  match r with
  | Api env req => App.step env db req
  | Import params resas => admin_import db params resas
  end.

Definition run (db : DB) (rs : list request) : DB := fold_left step rs db.

End Admin.

(** The rows of a reservation file that are for a date, and their number
    over the imports of a run. *)
Definition rows_for (iso : string) (resas : option (list (string * string)))
  : list (string * string) :=
  filter (λ row, row.1 = iso) (default [] resas).

Definition imported (rs : list Admin.request) (iso : string) : nat :=
  sum_list_with
    (λ r, match r with
          | Admin.Import _ resas => length (rows_for iso resas)
          | Admin.Api _ _ => 0%nat
          end) rs.

(** A run of requests of the API, as a run of requests that write. *)
Definition api_run (reqs : list (Env * App.request)) : list Admin.request :=
  (λ er, Admin.Api er.1 er.2) <$> reqs.

(** Two rows imported for Monday 17 March 2025 and one for the Tuesday. *)
Definition import_three : Admin.request :=
  Admin.Import None
    (Some [("2025-03-17", "Grace"); ("2025-03-18", "Alan");
           ("2025-03-17", " Grace ")]).

(** ** The same date text on two days *)

Definition env_17_march : Env :=
  {| today_iso := "2025-03-17";
     fromisoformat_date := λ _, None;
     utcnow_iso := "2025-03-17T10:00:00";
     float_of_cell := λ _, None;
     cell_of_number := λ _, "" |}.

Definition env_18_march : Env :=
  {| today_iso := "2025-03-18";
     fromisoformat_date := λ _, None;
     utcnow_iso := "2025-03-18T10:00:00";
     float_of_cell := λ _, None;
     cell_of_number := λ _, "" |}.

(** ** A separator inside a dotted date text *)

(** The ten characters [1], US (code 31), [.03.2025]. *)
Definition day_with_separator : string :=
  String "1" (String (ascii_of_nat 31) ".03.2025").
(** * Properties *)

(** ** The model at work *)

Example norm_name_john : norm_name "  john   smith " = "JOHN SMITH".
Proof. reflexivity. Qed.

Example norm_name_blank : norm_name "   " = "".
Proof. reflexivity. Qed.

Example header_saturday : App.pretty_fr_header "2025-03-15" = Ok "Samedi 15.03".
Proof. reflexivity. Qed.

Example header_sunday_wraps :
  App.pretty_fr_header "2025-03-16" = Ok "Dimanche 16.03"
  ∧ Sheets.pretty_fr_header "2025-03-16" = Ok "Dimanche 16.03".
Proof. split; reflexivity. Qed.

Example header_not_a_date : App.pretty_fr_header "2023-02-29" = Raise ValueError.
Proof. reflexivity. Qed.

Example int_accepts : Py.int " +1_2 " = Some 12 ∧ Py.int "1__2" = None.
Proof. split; reflexivity. Qed.

(** ** Weekday labels *)

Lemma weekday_range dt : 0 ≤ Datetime.weekday dt < 7.
Proof. unfold Datetime.weekday. apply Z.mod_pos_bound. lia. Qed.

(** The remap of [app.py] on its Sunday-first table and the direct lookup
    of [app_sheets.py] on its Monday-first table pick the same name. *)
Lemma day_label_agree dt : App.day_label dt = Sheets.day_label dt.
Proof.
  unfold App.day_label, Sheets.day_label.
  pose proof (weekday_range dt) as Hw.
  set (w := Datetime.weekday dt) in *.
  assert (w = 0 ∨ w = 1 ∨ w = 2 ∨ w = 3 ∨ w = 4 ∨ w = 5 ∨ w = 6) as Hc by lia.
  destruct Hc as [-> | [-> | [-> | [-> | [-> | [-> | ->]]]]]]; reflexivity.
Qed.

Lemma pretty_with_ext f g iso :
  (∀ dt, f dt = g dt) → pretty_with f iso = pretty_with g iso.
Proof.
  intros Hfg. unfold pretty_with.
  destruct (parse_ymd "-" iso) as [[[y m] d] | e]; simpl; [| done].
  destruct (Datetime.mk_date y m d) as [dt |]; simpl; [| done].
  by rewrite Hfg.
Qed.

(** C9, as amended: the two [pretty_fr_header] return the same result on
    every input, so they name every weekday alike. *)
Theorem pretty_fr_header_variants_agree (iso : string) :
  App.pretty_fr_header iso = Sheets.pretty_fr_header iso.
Proof. apply pretty_with_ext, day_label_agree. Qed.

(** C9 as stated fails: no valid calendar date gets two different day
    names from the two backends. *)
Lemma no_date_with_different_labels :
  ¬ (∃ y m d dt, Datetime.mk_date y m d = Some dt
                 ∧ App.day_label dt ≠ Sheets.day_label dt).
Proof. intros (y & m & d & dt & _ & Hne). apply Hne, day_label_agree. Qed.

(** ** Totals *)

Lemma totals_step_menus_split acc name typ bev choc tot :
  menus_split acc.1 →
  menus_split (totals_step acc name typ bev choc tot).1.
Proof.
  destruct acc as [t pc]. unfold menus_split, totals_step. simpl. intros H.
  repeat case_decide; simpl; try lia.
  destruct (Py.contains _ _); lia.
Qed.

Lemma app_fold_menus_split rows acc :
  menus_split acc.1 → menus_split (fold_left App.row_step rows acc).1.
Proof.
  revert acc. induction rows as [| r rows IH]; intros acc H; simpl; [done |].
  apply IH. by apply totals_step_menus_split.
Qed.

Lemma sheets_loop_menus_split env iso vals acc acc' :
  menus_split acc.1 →
  Sheets.totals_loop env iso acc vals = Ok acc' →
  menus_split acc'.1.
Proof.
  revert acc. induction vals as [| r vals IH]; intros acc H; simpl.
  - by intros [= <-].
  - unfold Sheets.row_step at 1.
    case_decide; simpl; [by apply IH |].
    destruct (Sheets.float_or_0 env (Sheets.cell r 3)); simpl; [| done].
    destruct (Sheets.float_or_0 env (Sheets.cell r 4)); simpl; [| done].
    destruct (Sheets.float_or_0 env (Sheets.cell r 5)); simpl; [| done].
    destruct (Sheets.float_or_0 env (Sheets.cell r 6)); simpl; [| done].
    apply IH. by apply totals_step_menus_split.
Qed.

Lemma totals_step_counts acc name typ bev choc tot :
  let t := acc.1 in
  let t' := (totals_step acc name typ bev choc tot).1 in
  (is_meal typ →
     menus t' = menus t + 1
     ∧ (eleves t' = eleves t + 1 ∧ profs t' = profs t
        ∨ eleves t' = eleves t ∧ profs t' = profs t + 1))
  ∧ (¬ is_meal typ →
     menus t' = menus t ∧ eleves t' = eleves t ∧ profs t' = profs t).
Proof.
  destruct acc as [t pc]. unfold totals_step, is_meal. simpl.
  repeat case_decide; simpl; split; intros Hm; try tauto.
  destruct (Py.contains _ _); auto.
Qed.

(** C7: in every state of the till and for every date, [build_totals]
    returns [menus = eleves + profs]: a row counted as a menu adds one to
    [menus] and to exactly one of [eleves] and [profs], and no other row
    touches the three counters.  The spreadsheet variant returns the same
    equality whenever it returns. *)
Theorem build_totals_menus_eq_eleves_plus_profs :
  (∀ (db : DB) (iso : string),
     menus (App.build_totals db iso).1
     = eleves (App.build_totals db iso).1 + profs (App.build_totals db iso).1)
  ∧ (∀ acc (row : TillRow.t),
       let t := acc.1 in
       let t' := (App.row_step acc row).1 in
       (is_meal (TillRow.type row) →
          menus t' = menus t + 1
          ∧ (eleves t' = eleves t + 1 ∧ profs t' = profs t
             ∨ eleves t' = eleves t ∧ profs t' = profs t + 1))
       ∧ (¬ is_meal (TillRow.type row) →
          menus t' = menus t ∧ eleves t' = eleves t ∧ profs t' = profs t))
  ∧ (∀ (env : Env) (b : Sheets.Book) (iso : string) t paidCount,
       Sheets.build_totals env b iso = Ok (t, paidCount) →
       menus t = eleves t + profs t).
Proof.
  split; [| split].
  - intros db iso. by apply (app_fold_menus_split _ (Totals0, ∅)).
  - intros acc row. apply totals_step_counts.
  - intros env b iso t pc H.
    by apply (sheets_loop_menus_split env iso (tail (Sheets.Caisse b))
                (Totals0, ∅) (t, pc)).
Qed.

(** ** The till after an append *)

Lemma till_of_add db iso d name typ base bev choc tot :
  ∃ row,
    till (add_till_row db d name typ base bev choc tot) = till db ++ [row]
    ∧ TillRow.date_iso row = d ∧ TillRow.name row = name
    ∧ TillRow.type row = typ ∧ TillRow.base row = base
    ∧ TillRow.beverage row = bev ∧ TillRow.chocolate row = choc
    ∧ TillRow.total row = tot
    ∧ App.till_of (add_till_row db d name typ base bev choc tot) iso
      = App.till_of db iso ++ (if decide (d = iso) then [row] else []).
Proof.
  eexists. split; [reflexivity |]. do 7 (split; [reflexivity |]).
  unfold App.till_of. simpl. by rewrite filter_app.
Qed.

Lemma build_totals_add_same db iso name typ base bev choc tot :
  App.build_totals (add_till_row db iso name typ base bev choc tot) iso
  = totals_step (App.build_totals db iso) name typ bev choc tot.
Proof.
  destruct (till_of_add db iso iso name typ base bev choc tot)
    as (row & _ & _ & Hn & Ht & _ & Hb & Hc & Htot & Hof).
  unfold App.build_totals. rewrite Hof, decide_True by done.
  rewrite fold_left_app. simpl. unfold App.row_step at 1.
  by rewrite Hn, Ht, Hb, Hc, Htot.
Qed.

(** ** Person kinds *)



Lemma app_checkout_open env db inp :
  let iso := effective_date env (CheckoutIn.dateIso inp) in
  App.is_closed db iso = false →
  menus (App.build_totals db iso).1 < MAX_MENUS →
  App.api_checkout env db inp =
    let typ := Py.upper (App.or_else (CheckoutIn.type inp) "PROF") in
    let method := Py.upper (App.or_else (CheckoutIn.method inp) "CASH") in
    let base := if decide (typ = "ELEVE") then PRICE_ELEVE else PRICE_PROF in
    let bev := if CheckoutIn.beverage inp then PRICE_BOISSON else 0 in
    let choc := if CheckoutIn.chocolate inp then PRICE_CHOCOLAT else 0 in
    let db' :=
      add_till_row db iso
        (App.or_else (Py.strip (CheckoutIn.name inp)) "Anonyme")
        (String.append (if decide (typ = "ELEVE") then "Eleve" else "Prof")
           (if decide (method = "CARD") then " (CARD)" else " (CASH)"))
        base bev choc
        (if decide (method = "CARD") then bev + choc else base + bev + choc) in
    Ok (db', App.api_caisse env db' (Some iso)).
Proof.
  intros iso Hopen Hcap. unfold App.api_checkout, App.assert_open,
    App.assert_capacity. fold (effective_date env (CheckoutIn.dateIso inp)).
  fold iso. rewrite Hopen. simpl.
  rewrite (decide_False (P := MAX_MENUS ≤ _)) by lia. reflexivity.
Qed.


(** ** The date codec *)

Lemma app_to_iso_any_unfold env s :
  App.to_iso_any env s =
    let t := Py.strip s in
    if decide (t = "") then Ok (today_iso env)
    else if decide (dotted_shape t) then from_dotted t
    else if decide (dashed_shape t) then Ok t
    else Ok (parsed_or_today env t).
Proof.
  unfold App.to_iso_any, parsed_or_today. cbv zeta.
  repeat case_decide; try done. by destruct (fromisoformat_date env _).
Qed.

Lemma sheets_to_iso_any_unfold env s :
  Sheets.to_iso_any env s =
    let t := Py.strip s in
    if decide (dotted_shape t) then from_dotted t
    else if decide (dashed_shape t) then Ok t
    else Ok (parsed_or_today env t).
Proof.
  unfold Sheets.to_iso_any, parsed_or_today. cbv zeta.
  repeat case_decide; try done. by destruct (fromisoformat_date env _).
Qed.

Lemma from_dotted_fields t dd mm yyyy y m d :
  Py.split_on "." t = [dd; mm; yyyy] →
  Py.int yyyy = Some y → Py.int mm = Some m → Py.int dd = Some d →
  from_dotted t = Ok (iso_text y m d).
Proof. unfold from_dotted. by intros -> -> -> ->. Qed.

Lemma all_chars_impl (p q : ascii → bool) s :
  (∀ c, p c = true → q c = true) → all_chars p s = true → all_chars q s = true.
Proof.
  intros Hpq. induction s as [| c r IH]; simpl; [done |].
  rewrite !andb_true_iff. intros [? ?]. auto.
Qed.

Lemma append_String c a b :
  String.append (String c a) b = String c (String.append a b).
Proof. reflexivity. Qed.

Lemma append_empty_r s : String.append s "" = s.
Proof. induction s as [| c r IH]; [done |]. by rewrite append_String, IH. Qed.

Lemma append_assoc a b c :
  String.append (String.append a b) c = String.append a (String.append b c).
Proof.
  induction a as [| x r IH]; [done |]. by rewrite !append_String, IH.
Qed.

Lemma string_of_list_ascii_app l1 l2 :
  string_of_list_ascii (l1 ++ l2)
  = String.append (string_of_list_ascii l1) (string_of_list_ascii l2).
Proof.
  induction l1 as [| x l IH]; simpl; [done |]. by rewrite IH, append_String.
Qed.

Lemma all_chars_app p a b :
  all_chars p (String.append a b) = all_chars p a && all_chars p b.
Proof.
  induction a as [| c r IH]; [done |].
  rewrite append_String. simpl. by rewrite IH, andb_assoc.
Qed.

Lemma digit_is_plain c :
  is_digit c = true →
  Py.isspace c = false ∧ Ascii.eqb c "." = false ∧ Ascii.eqb c "-" = false.
Proof. by destruct c as [[] [] [] [] [] [] [] []]. Qed.

Lemma lstrip_id c r : Py.isspace c = false → Py.lstrip (String c r) = String c r.
Proof. simpl. by intros ->. Qed.

Lemma rstrip_id s :
  all_chars (λ c, negb (Py.isspace c)) s = true → Py.rstrip s = s.
Proof.
  induction s as [| c r IH]; simpl; [done |].
  rewrite andb_true_iff, negb_true_iff. intros [Hc Hr].
  rewrite (IH Hr), Hc. by destruct r.
Qed.

Lemma strip_id s :
  all_chars (λ c, negb (Py.isspace c)) s = true → Py.strip s = s.
Proof.
  intros H. unfold Py.strip. destruct s as [| c r]; [done |].
  pose proof H as H'. simpl in H'. apply andb_true_iff in H' as [Hc _].
  apply negb_true_iff in Hc. rewrite (lstrip_id c r Hc). by apply rstrip_id.
Qed.

Lemma split_on_go_field sep cur a rest :
  all_chars (λ c, negb (Ascii.eqb c sep)) a = true →
  Py.split_on_go sep cur (String.append a (String sep rest))
  = String.append (string_of_list_ascii (rev cur)) a
    :: Py.split_on_go sep [] rest.
Proof.
  revert cur. induction a as [| c r IH]; intros cur.
  - intros _. rewrite append_empty_r. simpl. by rewrite Ascii.eqb_refl.
  - simpl. rewrite andb_true_iff, negb_true_iff. intros [Hc Hr].
    rewrite Hc, (IH (c :: cur) Hr). f_equal.
    simpl. by rewrite string_of_list_ascii_app, append_assoc.
Qed.

Lemma split_on_go_last sep cur a :
  all_chars (λ c, negb (Ascii.eqb c sep)) a = true →
  Py.split_on_go sep cur a
  = [String.append (string_of_list_ascii (rev cur)) a].
Proof.
  revert cur. induction a as [| c r IH]; intros cur.
  - intros _. by rewrite append_empty_r.
  - simpl. rewrite andb_true_iff, negb_true_iff. intros [Hc Hr].
    rewrite Hc, (IH (c :: cur) Hr). f_equal.
    simpl. by rewrite string_of_list_ascii_app, append_assoc.
Qed.

Lemma split_on_three sep a b c :
  all_chars (λ x, negb (Ascii.eqb x sep)) a = true →
  all_chars (λ x, negb (Ascii.eqb x sep)) b = true →
  all_chars (λ x, negb (Ascii.eqb x sep)) c = true →
  Py.split_on sep
    (String.append a (String sep (String.append b (String sep c))))
  = [a; b; c].
Proof.
  intros Ha Hb Hc. unfold Py.split_on.
  rewrite (split_on_go_field sep [] a _ Ha).
  rewrite (split_on_go_field sep [] b _ Hb).
  by rewrite (split_on_go_last sep [] c Hc).
Qed.

Lemma exact_width_below (width : nat) (bound n : Z) :
  forallb (λ k, exact_width width (Z.of_nat k)) (seq 0 (Z.to_nat bound)) = true →
  0 ≤ n < bound → exact_width width n = true.
Proof.
  intros Hall Hn. rewrite forallb_forall in Hall.
  specialize (Hall (Z.to_nat n)). rewrite Z2Nat.id in Hall by lia.
  apply Hall, in_seq. lia.
Qed.

Lemma exact_width_2 n : 0 ≤ n ≤ 99 → exact_width 2 n = true.
Proof.
  intros Hn. apply (exact_width_below 2 100); [by vm_compute | lia].
Qed.

Lemma exact_width_4 n : 0 ≤ n ≤ 9999 → exact_width 4 n = true.
Proof.
  intros Hn. apply (exact_width_below 4 10000); [by vm_compute | lia].
Qed.

Lemma exact_width_facts w n :
  exact_width w n = true →
  all_chars is_digit (Py.format_0d w n) = true
  ∧ String.length (Py.format_0d w n) = w
  ∧ Py.int (Py.format_0d w n) = Some n.
Proof.
  unfold exact_width. rewrite !andb_true_iff, Nat.eqb_eq, bool_decide_eq_true.
  tauto.
Qed.

Lemma two_chars s :
  String.length s = 2%nat → ∃ a b, s = String a (String b "").
Proof. destruct s as [| a [| b [| ? ?]]]; try done. eauto. Qed.

Lemma digits_no_sep sep s :
  is_digit sep = false →
  all_chars is_digit s = true →
  all_chars (λ c, negb (Ascii.eqb c sep)) s = true.
Proof.
  intros Hsep. apply all_chars_impl. intros c Hc. apply negb_true_iff.
  destruct (Ascii.eqb_spec c sep) as [-> |]; [congruence | done].
Qed.

Lemma digits_no_space s :
  all_chars is_digit s = true →
  all_chars (λ c, negb (Py.isspace c)) s = true.
Proof.
  apply all_chars_impl. intros c Hc. apply negb_true_iff.
  by destruct (digit_is_plain c Hc).
Qed.

(** The display form of a date is read back to its canonical form, and
    the canonical form is rendered back to the display form. *)
Lemma display_round_trip env y m d :
  0 ≤ y ≤ 9999 → 0 ≤ m ≤ 99 → 0 ≤ d ≤ 99 →
  App.to_iso_any env (display_text y m d) = Ok (iso_text y m d)
  ∧ Sheets.to_iso_any env (display_text y m d) = Ok (iso_text y m d)
  ∧ App.display_key (iso_text y m d) = Ok (display_text y m d).
Proof.
  intros Hy Hm Hd.
  destruct (exact_width_facts 4 y (exact_width_4 y Hy)) as (Yd & Yl & Yi).
  destruct (exact_width_facts 2 m (exact_width_2 m Hm)) as (Md & Ml & Mi).
  destruct (exact_width_facts 2 d (exact_width_2 d Hd)) as (Dd & Dl & Di).
  assert (Hstrip : Py.strip (display_text y m d) = display_text y m d).
  { apply strip_id. unfold display_text.
    rewrite all_chars_app. simpl. rewrite all_chars_app. simpl.
    by rewrite !digits_no_space. }
  assert (Hshape : display_text y m d ≠ "" ∧ dotted_shape (display_text y m d)).
  { unfold display_text, dotted_shape.
    destruct (two_chars _ Dl) as (a & b & ->).
    destruct (two_chars _ Ml) as (c & e & ->).
    rewrite !append_String. simpl. by rewrite Yl. }
  assert (Hfrom : from_dotted (display_text y m d) = Ok (iso_text y m d)).
  { apply (from_dotted_fields _ (Py.format_0d 2 d) (Py.format_0d 2 m)
             (Py.format_0d 4 y)); try done.
    by apply split_on_three; apply digits_no_sep. }
  destruct Hshape as [Hne Hdot].
  split; [| split].
  - rewrite app_to_iso_any_unfold. cbv zeta. rewrite Hstrip.
    by rewrite decide_False, decide_True.
  - rewrite sheets_to_iso_any_unfold. cbv zeta. rewrite Hstrip.
    by rewrite decide_True.
  - unfold App.display_key, parse_ymd, iso_text.
    rewrite split_on_three by (by apply digits_no_sep).
    by rewrite Yi, Mi, Di.
Qed.

(** C8, as amended: [to_iso_any] returns without raising whenever the
    stripped input does not have the dotted shape: today's date for an
    empty input ([app.py]), the input itself when it has the dashed shape,
    and otherwise what [fromisoformat] parses or, failing that, today's
    date.  On a dotted input with three integer fields it returns them as
    yyyy-mm-dd; on the display form of a date it yields the canonical
    form, and rendering that back yields the display form again. *)
Theorem to_iso_any_cases (env : Env) (s : string) :
  let t := Py.strip s in
  (¬ dotted_shape t →
     App.to_iso_any env s
     = Ok (if decide (t = "") then today_iso env
           else if decide (dashed_shape t) then t
           else parsed_or_today env t)
     ∧ Sheets.to_iso_any env s
       = Ok (if decide (dashed_shape t) then t else parsed_or_today env t))
  ∧ (dotted_shape t →
     ∀ dd mm yyyy y m d,
       Py.split_on "." t = [dd; mm; yyyy] →
       Py.int yyyy = Some y → Py.int mm = Some m → Py.int dd = Some d →
       App.to_iso_any env s = Ok (iso_text y m d)
       ∧ Sheets.to_iso_any env s = Ok (iso_text y m d))
  ∧ (∀ y m d, 0 ≤ y ≤ 9999 → 0 ≤ m ≤ 99 → 0 ≤ d ≤ 99 →
       s = display_text y m d →
       App.to_iso_any env s = Ok (iso_text y m d)
       ∧ Sheets.to_iso_any env s = Ok (iso_text y m d)
       ∧ App.display_key (iso_text y m d) = Ok s)
  ∧ App.to_iso_any env "15.03.2025" = Ok "2025-03-15"
  ∧ Sheets.to_iso_any env "15.03.2025" = Ok "2025-03-15"
  ∧ App.display_key "2025-03-15" = Ok "15.03.2025".
Proof.
  intros t. split; [| split; [| split]].
  - intros Hnd. rewrite app_to_iso_any_unfold, sheets_to_iso_any_unfold.
    cbv zeta. fold t. rewrite !(decide_False (P := dotted_shape t)) by done.
    split; repeat case_decide; done.
  - intros Hd dd mm yyyy y m d Hsplit Hy Hm Hdd.
    rewrite app_to_iso_any_unfold, sheets_to_iso_any_unfold.
    cbv zeta. fold t. rewrite !(decide_True (P := dotted_shape t)) by done.
    rewrite (from_dotted_fields t dd mm yyyy y m d) by done.
    split; [| done]. case_decide as He; [| done].
    rewrite He in Hd. by destruct Hd.
  - intros y m d Hy Hm Hd ->. apply display_round_trip; done.
  - done.
Qed.

(** C8 as stated fails: a dotted text whose fields are not numbers makes
    [to_iso_any] raise, and a dotted text with numbers that are no date is
    converted to a text that is no date. *)
Lemma to_iso_any_raises_on_dotted_letters :
  App.to_iso_any env_15_march "ab.cd.efgh" = Raise ValueError
  ∧ Sheets.to_iso_any env_15_march "ab.cd.efgh" = Raise ValueError
  ∧ App.to_iso_any env_15_march "99.99.2025" = Ok "2025-99-99"
  ∧ Datetime.mk_date 2025 99 99 = None.
Proof. done. Qed.

(** ** Registration *)

Lemma head_filter_None {A} (P : A → Prop) `{∀ x, Decision (P x)} (l : list A) :
  head (filter P l) = None ↔ ∀ x, x ∈ l → ¬ P x.
Proof.
  induction l as [| a l IH]; simpl.
  - split; [intros _ x Hx; by apply elem_of_nil in Hx | done].
  - rewrite filter_cons. case_decide as Ha; simpl.
    + split; [done |]. intros Hall. exfalso. apply (Hall a); [left | done].
    + rewrite IH. split.
      * intros Hall x Hx. apply elem_of_cons in Hx as [-> | Hx]; auto.
      * intros Hall x Hx. apply Hall. by right.
Qed.

Lemma open_for_registration_head db iso :
  head (filter (λ p, ParamRow.date_iso p = iso ∧ ParamRow.open p = true)
          (params db)) = None
  ↔ ¬ open_for_registration db iso.
Proof.
  rewrite head_filter_None. unfold open_for_registration.
  rewrite Exists_exists. split.
  - intros Hall (p & Hp & Hd). by apply (Hall p Hp).
  - intros Hno p Hp Hd. apply Hno. eauto.
Qed.

Lemma next_id_above ids x : x ∈ ids → x < next_id ids.
Proof.
  unfold next_id. induction ids as [| a ids IH]; simpl.
  - intros H. by apply elem_of_nil in H.
  - intros H. apply elem_of_cons in H as [-> | H]; [lia |].
    specialize (IH H). lia.
Qed.

Lemma app_reserve_cases env db inp iso :
  App.to_iso_any env (reserve_dateStr inp) = Ok iso →
  App.api_reserve env db inp =
    if decide (open_for_registration db iso) then
      if decide (40 ≤ Z.of_nat (length (live_reservations db iso))) then
        Raise (HTTPException 400 (QuotaReached (reserve_dateStr inp)))
      else
        Ok (add_reservation db iso (Py.strip (reserve_name inp)),
            Confirmed (reserve_name inp) (reserve_dateStr inp))
    else Raise (HTTPException 400 (DayNotOpen (reserve_dateStr inp))).
Proof.
  intros Hiso. unfold App.api_reserve. rewrite Hiso. simpl.
  fold (live_reservations db iso).
  destruct (decide (open_for_registration db iso)) as [Ho | Hno].
  - rewrite decide_False; [done |].
    intros Hnone. by apply open_for_registration_head in Hnone.
  - rewrite decide_True; [done |]. by apply open_for_registration_head.
Qed.

Lemma live_after_add db iso name :
  live_reservations (add_reservation db iso name) iso
  = live_reservations db iso
    ++ [ {| Reservation.id := next_id (Reservation.id <$> reservations db);
            Reservation.date_iso := iso;
            Reservation.name := name |} ].
Proof.
  unfold live_reservations. simpl. rewrite filter_app. f_equal.
  rewrite filter_cons, filter_nil. simpl. by rewrite decide_True.
Qed.

(** C4: a registration is refused with "day not open" when the date has
    no open schedule entry, with "quota reached" when the date already has
    40 reservations or more, and accepted otherwise; the 40th registration
    of an open date appends its row, under a key larger than every key in
    the table, after the 39 rows the date has.  The spreadsheet variant
    takes the same three branches. *)
Theorem reserve_day_quota_and_append :
  (∀ (env : Env) (db : DB) (inp : ReserveIn) (iso : string),
     App.to_iso_any env (reserve_dateStr inp) = Ok iso →
     (¬ open_for_registration db iso →
        App.api_reserve env db inp
        = Raise (HTTPException 400 (DayNotOpen (reserve_dateStr inp))))
     ∧ (open_for_registration db iso →
        (40 ≤ length (live_reservations db iso))%nat →
        App.api_reserve env db inp
        = Raise (HTTPException 400 (QuotaReached (reserve_dateStr inp))))
     ∧ (open_for_registration db iso →
        (length (live_reservations db iso) < 40)%nat →
        ∃ db' r,
          App.api_reserve env db inp
          = Ok (db', Confirmed (reserve_name inp) (reserve_dateStr inp))
          ∧ reservations db' = reservations db ++ [r]
          ∧ params db' = params db ∧ till db' = till db
          ∧ Reservation.date_iso r = iso
          ∧ Reservation.name r = Py.strip (reserve_name inp)
          ∧ (∀ x, x ∈ reservations db → Reservation.id x < Reservation.id r)
          ∧ live_reservations db' iso = live_reservations db iso ++ [r]))
  ∧ (∀ (env : Env) (b : Sheets.Book) (inp : ReserveIn) (iso : string),
       Sheets.to_iso_any env (reserve_dateStr inp) = Ok iso →
       (Sheets.is_open b iso = false →
          Sheets.api_reserve env b inp
          = Raise (HTTPException 400 (DayNotOpen (reserve_dateStr inp))))
       ∧ (Sheets.is_open b iso = true → (40 ≤ sheet_live_count b iso)%nat →
          Sheets.api_reserve env b inp
          = Raise (HTTPException 400 (QuotaReached (reserve_dateStr inp))))
       ∧ (Sheets.is_open b iso = true → (sheet_live_count b iso < 40)%nat →
          Sheets.api_reserve env b inp
          = Ok ({| Sheets.Parametres := Sheets.Parametres b;
                   Sheets.Reservations :=
                     Sheets.Reservations b ++
                       [[iso; Py.strip (reserve_name inp); utcnow_iso env]];
                   Sheets.Caisse := Sheets.Caisse b |},
                Confirmed (reserve_name inp) (reserve_dateStr inp)))).
Proof.
  split.
  - intros env db inp iso Hiso.
    rewrite (app_reserve_cases env db inp iso Hiso).
    split; [| split].
    + intros Hno. by rewrite decide_False.
    + intros Ho Hfull. rewrite decide_True by done.
      by rewrite decide_True by lia.
    + intros Ho Hroom. rewrite decide_True by done.
      rewrite decide_False by lia.
      eexists _, _. split; [reflexivity |].
      split; [reflexivity |]. split; [reflexivity |]. split; [reflexivity |].
      split; [reflexivity |]. split; [reflexivity |]. split.
      * intros x Hx. simpl. apply next_id_above.
        apply list_elem_of_fmap. eauto.
      * apply live_after_add.
  - intros env b inp iso Hiso. unfold Sheets.api_reserve. rewrite Hiso. simpl.
    fold (sheet_live_count b iso). unfold MAX_RESAS.
    split; [| split].
    + by intros ->.
    + intros -> Hfull. simpl. by rewrite decide_True by lia.
    + intros -> Hroom. simpl. by rewrite decide_False by lia.
Qed.

(** ** Unregistration *)

Lemma first_match_None target rows :
  App.first_match target rows = None
  ↔ ∀ r, r ∈ rows → ¬ same_stripped target r.
Proof.
  unfold same_stripped. induction rows as [| a rows IH]; simpl.
  - split; [intros _ r Hr; by apply elem_of_nil in Hr | done].
  - case_decide as Ha.
    + split; [done |]. intros Hall. exfalso. apply (Hall a); [left | done].
    + rewrite IH. split.
      * intros Hall r Hr. apply elem_of_cons in Hr as [-> | Hr]; auto.
      * intros Hall r Hr. apply Hall. by right.
Qed.

Lemma first_match_first target pre r post :
  (∀ x, x ∈ pre → ¬ same_stripped target x) →
  same_stripped target r →
  App.first_match target (pre ++ r :: post) = Some r.
Proof.
  unfold same_stripped. intros Hpre Hr.
  induction pre as [| a pre IH]; simpl.
  - by rewrite decide_True.
  - rewrite decide_False; [| apply Hpre; left].
    apply IH. intros x Hx. apply Hpre. by right.
Qed.

Lemma filter_comm {A} (P Q : A → Prop)
    `{∀ x, Decision (P x)} `{∀ x, Decision (Q x)} (l : list A) :
  filter P (filter Q l) = filter Q (filter P l).
Proof.
  induction l as [| a l IH]; [done |].
  rewrite !filter_cons.
  destruct (decide (Q a)), (decide (P a)); rewrite ?filter_cons;
    repeat case_decide; try done; by rewrite IH.
Qed.

Lemma sorted_keys_filter (P : Reservation.t → Prop)
    `{∀ x, Decision (P x)} (l : list Reservation.t) :
  StronglySorted Z.lt (Reservation.id <$> l) →
  StronglySorted Z.lt (Reservation.id <$> filter P l).
Proof.
  induction l as [| a l IH]; simpl; [done |].
  intros Hs. apply StronglySorted_inv in Hs as [Hl Ha].
  rewrite filter_cons. case_decide; [| by apply IH].
  simpl. constructor; [by apply IH |].
  rewrite Forall_forall in *. intros k Hk. apply Ha.
  apply list_elem_of_fmap in Hk as (x & -> & Hx).
  apply list_elem_of_fmap. exists x. split; [done |].
  by apply list_elem_of_filter in Hx as [_ ?].
Qed.

Lemma sorted_keys_drop_one pre r post :
  StronglySorted Z.lt (Reservation.id <$> (pre ++ r :: post)) →
  filter (λ x, Reservation.id x ≠ Reservation.id r) (pre ++ r :: post)
  = pre ++ post.
Proof.
  induction pre as [| a pre IH]; simpl; intros Hs;
    apply StronglySorted_inv in Hs as [Hl Ha]; rewrite filter_cons.
  - rewrite decide_False by (intros Hne; by apply Hne).
    clear Hl. induction post as [| b post IHp]; [done |].
    simpl in Ha. apply Forall_cons in Ha as [Hb Ha].
    rewrite filter_cons, decide_True by lia. f_equal. by apply IHp.
  - rewrite decide_True; [f_equal; by apply IH |].
    rewrite Forall_forall in Ha.
    assert (Reservation.id a < Reservation.id r); [| lia].
    apply Ha. rewrite fmap_app. apply elem_of_app. right. simpl. left.
Qed.

Lemma app_unreserve_cases env db inp iso :
  App.to_iso_any env (unreserve_dateStr inp) = Ok iso →
  App.api_unreserve env db inp =
    match App.first_match (Py.strip (unreserve_name inp))
            (live_reservations db iso) with
    | Some r =>
        Ok (delete_reservation db r, Unregistered (unreserve_dateStr inp))
    | None =>
        Raise (HTTPException 400
                 (NoReservationFound (Py.strip (unreserve_name inp))
                    (unreserve_dateStr inp)))
    end.
Proof. intros Hiso. unfold App.api_unreserve. by rewrite Hiso. Qed.

Lemma live_after_delete db r iso :
  live_reservations (delete_reservation db r) iso
  = filter (λ x, Reservation.id x ≠ Reservation.id r)
      (live_reservations db iso).
Proof. unfold live_reservations. simpl. apply filter_comm. Qed.

Lemma sheets_find_row_None iso name i rows :
  Sheets.find_row iso name i rows = None
  ↔ ∀ r, r ∈ rows → ¬ sheet_row_matches iso name r.
Proof.
  unfold sheet_row_matches. revert i.
  induction rows as [| a rows IH]; intros i; simpl.
  - split; [intros _ r Hr; by apply elem_of_nil in Hr | done].
  - case_decide as Ha.
    + split; [done |]. intros Hall. exfalso. apply (Hall a); [left | done].
    + rewrite IH. split.
      * intros Hall r Hr. apply elem_of_cons in Hr as [-> | Hr]; auto.
      * intros Hall r Hr. apply Hall. by right.
Qed.

Lemma sheets_find_row_first iso name i pre r post :
  (∀ x, x ∈ pre → ¬ sheet_row_matches iso name x) →
  sheet_row_matches iso name r →
  Sheets.find_row iso name i (pre ++ r :: post) = Some (i + length pre)%nat.
Proof.
  unfold sheet_row_matches. intros Hpre Hr. revert i.
  induction pre as [| a pre IH]; intros i; simpl.
  - rewrite decide_True by done. f_equal. lia.
  - rewrite decide_False; [| apply Hpre; left].
    rewrite IH; [f_equal; lia |]. intros x Hx. apply Hpre. by right.
Qed.

(** C5, as amended: unregistration compares stripped names, exactly (no
    change of case, inner whitespace kept).  It fails with "not found" iff
    no reservation of the date has the requested stripped name; otherwise
    it deletes the first such reservation in key order and nothing else.
    After registering ["  john   smith "], unregistering ["john   smith"]
    succeeds. *)
Theorem unreserve_first_stripped_match :
  (∀ (env : Env) (db : DB) (inp : UnreserveIn) (iso : string),
     App.to_iso_any env (unreserve_dateStr inp) = Ok iso →
     let target := Py.strip (unreserve_name inp) in
     (App.api_unreserve env db inp
      = Raise (HTTPException 400
                 (NoReservationFound target (unreserve_dateStr inp)))
      ↔ ∀ r, r ∈ live_reservations db iso → ¬ same_stripped target r)
     ∧ (∀ pre r post,
          keys_ascending db →
          live_reservations db iso = pre ++ r :: post →
          (∀ x, x ∈ pre → ¬ same_stripped target x) →
          same_stripped target r →
          ∃ db',
            App.api_unreserve env db inp
            = Ok (db', Unregistered (unreserve_dateStr inp))
            ∧ live_reservations db' iso = pre ++ post
            ∧ (∀ x, x ∈ reservations db'
                    ↔ x ∈ reservations db
                      ∧ Reservation.id x ≠ Reservation.id r)
            ∧ params db' = params db ∧ till db' = till db
            ∧ keys_ascending db'))
  ∧ (∀ (env : Env) (b : Sheets.Book) (inp : UnreserveIn) (iso : string)
       (header : Sheets.row) (rows : list Sheets.row),
       Sheets.to_iso_any env (unreserve_dateStr inp) = Ok iso →
       Sheets.Reservations b = header :: rows →
       let name := Py.strip (unreserve_name inp) in
       (Sheets.api_unreserve env b inp
        = Raise (HTTPException 400
                   (NoReservationFound name (unreserve_dateStr inp)))
        ↔ ∀ r, r ∈ rows → ¬ sheet_row_matches iso name r)
       ∧ (∀ pre r post,
            rows = pre ++ r :: post →
            (∀ x, x ∈ pre → ¬ sheet_row_matches iso name x) →
            sheet_row_matches iso name r →
            Sheets.api_unreserve env b inp
            = Ok ({| Sheets.Parametres := Sheets.Parametres b;
                     Sheets.Reservations := header :: pre ++ post;
                     Sheets.Caisse := Sheets.Caisse b |},
                  Unregistered (unreserve_dateStr inp))))
  ∧ App.api_unreserve env_15_march john_registered
      {| unreserve_name := " john   smith";
         unreserve_dateStr := "17.03.2025" |}
    = Ok (db_open_monday, Unregistered "17.03.2025").
Proof.
  split; [| split].
  - intros env db inp iso Hiso target.
    rewrite (app_unreserve_cases env db inp iso Hiso). fold target. split.
    + rewrite <- first_match_None.
      destruct (App.first_match target _); [split; discriminate | done].
    + intros pre r post Hkeys Hlive Hpre Hr.
      rewrite Hlive, (first_match_first target pre r post Hpre Hr).
      eexists. split; [reflexivity |].
      assert (Hs : StronglySorted Z.lt (Reservation.id <$> (pre ++ r :: post))).
      { rewrite <- Hlive. by apply sorted_keys_filter. }
      split; [by rewrite live_after_delete, Hlive, sorted_keys_drop_one |].
      split; [intros x; simpl; by rewrite list_elem_of_filter, (comm and) |].
      split; [done |]. split; [done |].
      unfold keys_ascending. simpl. by apply sorted_keys_filter.
  - intros env b inp iso header rows Hiso Hrows name.
    unfold Sheets.api_unreserve. rewrite Hiso, Hrows. simpl. fold name. split.
    + rewrite <- (sheets_find_row_None iso name 2 rows).
      destruct (Sheets.find_row iso name 2 rows); [split; discriminate | done].
    + intros pre r post -> Hpre Hr.
      rewrite (sheets_find_row_first iso name 2 pre r post Hpre Hr).
      do 2 f_equal. unfold Sheets.delete_rows. simpl. f_equal.
      rewrite take_app_length. do 2 f_equal.
      rewrite (cons_middle r pre post), app_assoc.
      apply drop_app_length'. rewrite length_app. simpl. lia.
  - done.
Qed.

(** C5 as stated fails: the match is not on normalized names.  After
    registering ["  john   smith "], unregistering ["JOHN SMITH"] is
    refused although both names have the same normalized key. *)
Lemma unreserve_normalized_name_refused :
  norm_name "  john   smith " = norm_name "JOHN SMITH"
  ∧ App.api_unreserve env_15_march john_registered
      {| unreserve_name := "JOHN SMITH"; unreserve_dateStr := "17.03.2025" |}
    = Raise (HTTPException 400 (NoReservationFound "JOHN SMITH" "17.03.2025"))
  ∧ reservations john_registered
    = [ {| Reservation.id := 1; Reservation.date_iso := "2025-03-17";
           Reservation.name := "john   smith" |} ].
Proof. done. Qed.

(** ** Payer names *)

Lemma lstrip_head s :
  Py.lstrip s = "" ∨ ∃ c r, Py.lstrip s = String c r ∧ Py.isspace c = false.
Proof.
  induction s as [| c r IH]; simpl; [by left |].
  destruct (Py.isspace c) eqn:Hc; [done |]. right. eauto.
Qed.

Lemma rstrip_head c r :
  Py.isspace c = false → ∃ r', Py.rstrip (String c r) = String c r'.
Proof. simpl. intros ->. destruct (Py.rstrip r); eauto. Qed.

Lemma strip_head s :
  Py.strip s ≠ "" → ∃ c r, Py.strip s = String c r ∧ Py.isspace c = false.
Proof.
  unfold Py.strip. intros Hne.
  destruct (lstrip_head s) as [He | (c & r & He & Hc)]; rewrite He in *;
    [done |].
  destruct (rstrip_head c r Hc) as [r' ->]. eauto.
Qed.

Lemma strip_of_head c r :
  Py.isspace c = false → ∃ r', Py.strip (String c r) = String c r'.
Proof.
  intros Hc. unfold Py.strip. rewrite (lstrip_id c r Hc).
  by apply rstrip_head.
Qed.

Lemma upper_char_not_space c :
  Py.isspace c = false → Py.isspace (Py.upper_char c) = false.
Proof. by destruct c as [[] [] [] [] [] [] [] []]. Qed.

Lemma split_go_word cur s :
  cur ≠ [] → ∃ w ws, Py.split_go cur s = w :: ws ∧ w ≠ "".
Proof.
  assert (Hw : ∀ l : list ascii, l ≠ [] → string_of_list_ascii (rev l) ≠ "").
  { intros l Hl He. apply Hl.
    apply (f_equal list_ascii_of_string) in He.
    rewrite list_ascii_of_string_of_list_ascii in He. simpl in He.
    destruct l as [| a l]; [done |]. simpl in He.
    by apply app_eq_nil in He as [_ ?]. }
  revert cur. induction s as [| c r IH]; intros cur Hcur; simpl.
  - destruct cur; [done |]. eexists _, _. split; [done |]. by apply Hw.
  - destruct (Py.isspace c).
    + destruct cur; [done |]. eexists _, _. split; [done |]. by apply Hw.
    + by apply IH.
Qed.

Lemma join_word sep w ws : w ≠ "" → Py.join sep (w :: ws) ≠ "".
Proof. destruct w; [done |]. intros _. by destruct ws. Qed.

Lemma norm_name_of_head c r :
  Py.isspace c = false → norm_name (String c r) ≠ "".
Proof.
  intros Hc. unfold norm_name.
  destruct (strip_of_head c r Hc) as [r' ->].
  change (Py.upper (String c r'))
    with (String (Py.upper_char c) (Py.upper r')).
  unfold Py.split.
  change (Py.split_go [] (String (Py.upper_char c) (Py.upper r')))
    with (if Py.isspace (Py.upper_char c) then Py.split_go [] (Py.upper r')
          else Py.split_go [Py.upper_char c] (Py.upper r')).
  rewrite (upper_char_not_space c Hc).
  destruct (split_go_word [Py.upper_char c] (Py.upper r')) as (w & ws & -> & Hw);
    [done |].
  by apply join_word.
Qed.

(** The payer name a checkout stores never has the empty key. *)
Lemma stored_payer_named name :
  norm_name (App.or_else (Py.strip name) "Anonyme") ≠ "".
Proof.
  unfold App.or_else. case_decide as He; [done |].
  destruct (strip_head name He) as (c & r & -> & Hc).
  by apply norm_name_of_head.
Qed.

(** ** Closing *)

Lemma is_closed_true db iso :
  App.is_closed db iso = true
  ↔ ∃ r, r ∈ till db ∧ TillRow.date_iso r = iso ∧ TillRow.type r = "Closed".
Proof.
  unfold App.is_closed. rewrite bool_decide_eq_true. split.
  - intros Hne. destruct (head _) as [r |] eqn:Hh; [| done].
    apply head_Some_elem_of in Hh.
    apply list_elem_of_filter in Hh as [[Hd Ht] Hr]. eauto.
  - intros (r & Hr & Hd & Ht) Hnone.
    rewrite head_filter_None in Hnone. by apply (Hnone r Hr).
Qed.

Lemma is_closed_mono db db' iso extra :
  till db' = till db ++ extra →
  App.is_closed db iso = true → App.is_closed db' iso = true.
Proof.
  intros Htill. rewrite !is_closed_true. intros (r & Hr & H).
  exists r. split; [| done]. rewrite Htill. apply elem_of_app. by left.
Qed.

Lemma app_checkout_closed env db inp :
  App.is_closed db (effective_date env (CheckoutIn.dateIso inp)) = true →
  App.api_checkout env db inp
  = Raise (HTTPException 400
             (TillClosed (effective_date env (CheckoutIn.dateIso inp)))).
Proof.
  intros Hc. unfold App.api_checkout, App.assert_open.
  fold (effective_date env (CheckoutIn.dateIso inp)). by rewrite Hc.
Qed.

Lemma app_add_closed env db inp type base bev choc tot :
  App.is_closed db (effective_date env (qty_dateIso inp)) = true →
  App.api_add env db inp type base bev choc tot
  = Raise (HTTPException 400
             (TillClosed (effective_date env (qty_dateIso inp)))).
Proof.
  intros Hc. unfold App.api_add, App.assert_open.
  fold (effective_date env (qty_dateIso inp)). by rewrite Hc.
Qed.

(** What a checkout that succeeds has done. *)
Lemma app_checkout_Ok env db inp db' out :
  App.api_checkout env db inp = Ok (db', out) →
  let iso := effective_date env (CheckoutIn.dateIso inp) in
  App.is_closed db iso = false
  ∧ menus (App.build_totals db iso).1 < MAX_MENUS
  ∧ ∃ row, till db' = till db ++ [row] ∧ TillRow.date_iso row = iso
           ∧ params db' = params db ∧ reservations db' = reservations db
           ∧ TillRow.name row
             = App.or_else (Py.strip (CheckoutIn.name inp)) "Anonyme".
Proof.
  intros H iso. unfold App.api_checkout, App.assert_open,
    App.assert_capacity in H.
  fold (effective_date env (CheckoutIn.dateIso inp)) in H. fold iso in H.
  destruct (App.is_closed db iso); [done |]. simpl in H.
  destruct (decide (MAX_MENUS ≤ _)) as [Hfull | Hroom] in H.
  { simpl in H. by destruct (App.pretty_fr_header iso). }
  simpl in H. injection H as <- _.
  split; [done |]. split; [lia |]. eexists. by repeat split.
Qed.

Lemma iter_add_till n db iso type base bev choc tot :
  let db' := Nat.iter n
               (λ d, add_till_row d iso "" type base bev choc tot) db in
  params db' = params db ∧ reservations db' = reservations db
  ∧ ∃ extra,
      till db' = till db ++ extra ∧ length extra = n
      ∧ Forall (λ r, TillRow.date_iso r = iso ∧ TillRow.type r = type
                     ∧ TillRow.name r = "" ∧ TillRow.beverage r = bev
                     ∧ TillRow.chocolate r = choc ∧ TillRow.total r = tot)
          extra.
Proof.
  induction n as [| n IH]; simpl.
  - split; [done |]. split; [done |]. exists []. by rewrite app_nil_r.
  - destruct IH as (Hp & Hr & extra & Ht & Hl & Hall).
    split; [done |]. split; [done |].
    eexists (extra ++ [_]). split; [by rewrite Ht, <- app_assoc |].
    split; [rewrite length_app; simpl; lia |].
    apply Forall_app. split; [done |]. by repeat constructor.
Qed.

Lemma app_add_Ok env db inp type base bev choc tot db' out :
  App.api_add env db inp type base bev choc tot = Ok (db', out) →
  let iso := effective_date env (qty_dateIso inp) in
  App.is_closed db iso = false
  ∧ db' = Nat.iter (App.add_count inp)
            (λ d, add_till_row d iso "" type base bev choc tot) db.
Proof.
  intros H iso. unfold App.api_add, App.assert_open in H.
  fold (effective_date env (qty_dateIso inp)) in H. fold iso in H.
  destruct (App.is_closed db iso); [done |]. simpl in H.
  by injection H as <- _.
Qed.

(** Undo the [after] of a route: either it raised and the store is as it
    was, or it returned a new store. *)
Ltac route_result Hres :=
  match goal with
  | |- context [App.after _ ?r] =>
      destruct r as [[? ?] | ?] eqn:Hres; simpl
  end.

Lemma app_add_appends env db inp type base bev choc tot :
  ¬ is_meal type →
  ∃ extra,
    till (App.after db (App.api_add env db inp type base bev choc tot))
    = till db ++ extra
    ∧ Forall (written_row db) extra.
Proof.
  intros Hty. route_result Hres; [| exists []; by rewrite app_nil_r].
  apply app_add_Ok in Hres as [Hopen ->].
  destruct (iter_add_till (App.add_count inp) db
              (effective_date env (qty_dateIso inp)) type base bev choc tot)
    as (_ & _ & extra & Ht & _ & Hall).
  exists extra. split; [done |].
  eapply Forall_impl; [exact Hall |]. intros r (Hd & Hr & _). right.
  rewrite Hd, Hr. done.
Qed.

(** What a request appends to the till. *)
Lemma step_appends env db req :
  ∃ extra,
    till (App.step env db req) = till db ++ extra
    ∧ Forall (written_row db) extra.
Proof.
  assert (Hsame : ∃ extra, till db = till db ++ extra
                           ∧ Forall (written_row db) extra).
  { exists []. by rewrite app_nil_r. }
  destruct req as [inp | inp | inp | inp | inp | inp | inp]; simpl.
  - route_result Hres; [| done]. unfold App.api_reserve in Hres.
    destruct (App.to_iso_any env _); simpl in Hres; [| done].
    repeat case_decide; try done. by injection Hres as <- _.
  - route_result Hres; [| done]. unfold App.api_unreserve in Hres.
    destruct (App.to_iso_any env _); simpl in Hres; [| done].
    destruct (App.first_match _ _); [| done]. by injection Hres as <- _.
  - route_result Hres; [| done].
    apply app_checkout_Ok in Hres as (Hopen & _ & row & Ht & Hd & _ & _ & Hn).
    exists [row]. split; [done |]. constructor; [| done]. right.
    rewrite Hd, Hn. split; [done |]. intros _. apply stored_payer_named.
  - apply app_add_appends. unfold is_meal. tauto.
  - apply app_add_appends. unfold is_meal. tauto.
  - apply app_add_appends. unfold is_meal. tauto.
  - eexists [_]. split; [reflexivity |]. constructor; [| done].
    left. by repeat split.
Qed.

(** Once a date is closed, a request adds nothing to the till of that
    date but closing markers. *)
Lemma step_till_when_closed env db req iso :
  App.is_closed db iso = true →
  ∃ extra,
    till (App.step env db req) = till db ++ extra
    ∧ Forall (λ r, TillRow.date_iso r = iso → closing_marker r) extra.
Proof.
  intros Hc. destruct (step_appends env db req) as (extra & Ht & Hall).
  exists extra. split; [done |]. eapply Forall_impl; [exact Hall |].
  intros r [Hm | [Hopen _]] Hd; [done | congruence].
Qed.

Lemma run_till_when_closed db reqs iso :
  App.is_closed db iso = true →
  App.is_closed (App.run db reqs) iso = true
  ∧ ∃ extra,
      till (App.run db reqs) = till db ++ extra
      ∧ Forall (λ r, TillRow.date_iso r = iso → closing_marker r) extra.
Proof.
  revert db. induction reqs as [| [env req] reqs IH]; intros db Hc; simpl.
  - split; [done |]. exists []. by rewrite app_nil_r.
  - destruct (step_till_when_closed env db req iso Hc) as (e1 & Ht1 & Hall1).
    pose proof (is_closed_mono db _ iso e1 Ht1 Hc) as Hc1.
    destruct (IH _ Hc1) as (Hc2 & e2 & Ht2 & Hall2).
    split; [done |]. exists (e1 ++ e2).
    split; [by rewrite Ht2, Ht1, <- app_assoc |]. by apply Forall_app.
Qed.

Lemma closing_markers_keep_totals iso extra acc :
  Forall (λ r, TillRow.date_iso r = iso → closing_marker r) extra →
  fold_left App.row_step (filter (λ r, TillRow.date_iso r = iso) extra) acc
  = acc.
Proof.
  induction extra as [| r extra IH]; [done |].
  intros Hall. apply Forall_cons in Hall as [Hr Hall].
  rewrite filter_cons. case_decide as Hd; [| by apply IH].
  simpl. destruct (Hr Hd) as (Ht & _). unfold App.row_step at 2.
  unfold totals_step. destruct acc as [t pc]. rewrite Ht.
  rewrite decide_True by done. by apply IH.
Qed.

(** C3, as amended: once the till of a date holds a closing marker the
    date stays closed through every run of requests; checkouts and add-ons
    for that date are refused and change nothing; whatever a run appends
    to the till of that date is closing markers only, which leave the
    totals as they were.  Registration and unregistration do not consult
    the marker. *)
Theorem closed_till_is_sealed (db : DB) (iso : string) :
  App.is_closed db iso = true →
  (∀ reqs, App.is_closed (App.run db reqs) iso = true)
  ∧ (∀ env inp,
       effective_date env (CheckoutIn.dateIso inp) = iso →
       App.api_checkout env db inp = Raise (HTTPException 400 (TillClosed iso))
       ∧ App.step env db (App.Checkout inp) = db)
  ∧ (∀ env inp,
       effective_date env (qty_dateIso inp) = iso →
       App.api_add_sandwich env db inp
       = Raise (HTTPException 400 (TillClosed iso))
       ∧ App.api_add_beverage env db inp
         = Raise (HTTPException 400 (TillClosed iso))
       ∧ App.api_add_chocolate env db inp
         = Raise (HTTPException 400 (TillClosed iso))
       ∧ App.step env db (App.AddSandwich inp) = db
       ∧ App.step env db (App.AddBeverage inp) = db
       ∧ App.step env db (App.AddChocolate inp) = db)
  ∧ (∀ reqs, ∃ extra,
       App.till_of (App.run db reqs) iso = App.till_of db iso ++ extra
       ∧ Forall closing_marker extra
       ∧ App.build_totals (App.run db reqs) iso = App.build_totals db iso).
Proof.
  intros Hc. split; [| split; [| split]].
  - intros reqs. by apply run_till_when_closed.
  - intros env inp <-. simpl. by rewrite app_checkout_closed.
  - intros env inp <-. simpl.
    unfold App.api_add_sandwich, App.api_add_beverage, App.api_add_chocolate.
    by rewrite !app_add_closed.
  - intros reqs.
    destruct (run_till_when_closed db reqs iso Hc) as (_ & extra & Ht & Hall).
    exists (filter (λ r, TillRow.date_iso r = iso) extra).
    unfold App.build_totals, App.till_of. rewrite Ht, filter_app.
    split; [done |]. split.
    + apply Forall_forall. intros r Hr.
      apply list_elem_of_filter in Hr as [Hd Hr].
      rewrite Forall_forall in Hall. by apply Hall.
    + rewrite fold_left_app. by apply closing_markers_keep_totals.
Qed.

(** C3 as stated fails: on a closed date whose schedule entry is still
    open, a registration and an unregistration are both accepted and
    change the reservation table. *)
Lemma closed_date_still_takes_registrations :
  App.is_closed monday_closed "2025-03-17" = true
  ∧ (∃ db' answer,
       App.api_reserve env_15_march monday_closed
         {| reserve_name := "late comer"; reserve_dateStr := "17.03.2025" |}
       = Ok (db', answer)
       ∧ length (reservations db') = 2%nat
       ∧ length (reservations monday_closed) = 1%nat)
  ∧ (∃ db' answer,
       App.api_unreserve env_15_march monday_closed
         {| unreserve_name := "john   smith";
            unreserve_dateStr := "17.03.2025" |}
       = Ok (db', answer)
       ∧ reservations db' = []).
Proof. split; [done |]. split; eexists _, _; by split. Qed.

(** ** Checkout *)

Lemma app_caisse_open env db iso :
  String.length iso = 10%nat →
  App.is_closed db iso = false →
  App.api_caisse env db (Some iso)
  = {| out_date := iso; closed := false;
       names := remaining_queue db iso;
       totals := (App.build_totals db iso).1 |}.
Proof.
  intros Hlen Hopen. unfold App.api_caisse, App.caisse_date.
  rewrite decide_True by (split; [by destruct iso | done]).
  rewrite Hopen. unfold remaining_queue, queue_loop.
  destruct (App.build_totals db iso) as [t pc]. simpl.
  by destruct (fold_left queue_step _ _).
Qed.

Lemma app_caisse_closed env db iso :
  String.length iso = 10%nat →
  App.is_closed db iso = true →
  App.api_caisse env db (Some iso)
  = {| out_date := iso; closed := true; names := [];
       totals := (App.build_totals db iso).1 |}.
Proof.
  intros Hlen Hc. unfold App.api_caisse, App.caisse_date.
  rewrite decide_True by (split; [by destruct iso | done]).
  by rewrite Hc.
Qed.

Lemma is_closed_false db iso :
  App.is_closed db iso = false
  ↔ ∀ r, r ∈ till db → TillRow.date_iso r = iso → TillRow.type r ≠ "Closed".
Proof.
  rewrite <- not_true_iff_false, is_closed_true. split.
  - intros Hno r Hr Hd Ht. apply Hno. eauto.
  - intros Hall (r & Hr & Hd & Ht). by apply (Hall r Hr Hd).
Qed.

Lemma is_closed_add_row db iso d name typ base bev choc tot :
  typ ≠ "Closed" →
  App.is_closed (add_till_row db d name typ base bev choc tot) iso
  = App.is_closed db iso.
Proof.
  intros Hty. destruct (App.is_closed db iso) eqn:Hc.
  - by eapply (is_closed_mono db); [reflexivity |].
  - rewrite is_closed_false in *. intros r Hr Hd. simpl in Hr.
    apply elem_of_app in Hr as [Hr | Hr]; [by apply Hc |].
    apply list_elem_of_singleton in Hr as ->. done.
Qed.

Lemma checkout_label_not_Closed (typ method : string) :
  String.append (if decide (typ = "ELEVE") then "Eleve" else "Prof")
    (if decide (method = "CARD") then " (CARD)" else " (CASH)") ≠ "Closed".
Proof. by repeat case_decide. Qed.

Lemma app_checkout_full env db inp :
  let iso := effective_date env (CheckoutIn.dateIso inp) in
  App.is_closed db iso = false →
  MAX_MENUS ≤ menus (App.build_totals db iso).1 →
  App.api_checkout env db inp
  = Raise (match App.pretty_fr_header iso with
           | Ok header => HTTPException 400 (MenuLimitReached header)
           | Raise e => e
           end).
Proof.
  intros iso Hopen Hfull. unfold App.api_checkout, App.assert_open,
    App.assert_capacity. fold (effective_date env (CheckoutIn.dateIso inp)).
  fold iso. rewrite Hopen. simpl.
  rewrite (decide_True (P := MAX_MENUS ≤ _)) by done.
  by destruct (App.pretty_fr_header iso).
Qed.

Lemma is_closed_after_close env db inp :
  App.is_closed (App.api_close env db inp)
    (effective_date env (close_dateIso inp)) = true.
Proof.
  apply is_closed_true. eexists. split; [| split].
  - unfold App.api_close. simpl. apply elem_of_app. right. left.
  - done.
  - done.
Qed.

Lemma effective_date_Some env iso :
  String.length iso = 10%nat → effective_date env (Some iso) = iso.
Proof. by destruct iso. Qed.

Lemma empty_till_open db iso :
  App.till_of db iso = [] →
  App.is_closed db iso = false ∧ App.build_totals db iso = (Totals0, ∅).
Proof.
  intros Hempty. split.
  - apply is_closed_false. intros r Hr Hd _.
    assert (r ∈ App.till_of db iso) as Hin by by apply list_elem_of_filter.
    rewrite Hempty in Hin. by apply elem_of_nil in Hin.
  - unfold App.build_totals. by rewrite Hempty.
Qed.

Lemma remaining_queue_no_reservation db iso :
  live_reservations db iso = [] → remaining_queue db iso = [].
Proof.
  unfold remaining_queue, App.ordered. fold (live_reservations db iso).
  by intros ->.
Qed.

(** ** The paid counts *)

Lemma totals_step_paid acc name typ bev choc tot :
  (totals_step acc name typ bev choc tot).2
  = if decide (is_meal typ) then count_paid acc.2 name else acc.2.
Proof.
  destruct acc as [t pc]. unfold totals_step, is_meal.
  repeat case_decide; simpl; try done; tauto.
Qed.

Lemma app_fold_paid rows acc :
  (fold_left App.row_step rows acc).2
  = fold_left count_paid
      (TillRow.name <$> filter (λ r, is_meal (TillRow.type r)) rows) acc.2.
Proof.
  revert acc. induction rows as [| r rows IH]; intros acc; simpl; [done |].
  rewrite IH, filter_cons. unfold App.row_step.
  rewrite totals_step_paid. by case_decide.
Qed.

Lemma build_totals_paid db iso :
  (App.build_totals db iso).2 = fold_left count_paid (meal_payers db iso) ∅.
Proof. unfold App.build_totals. by rewrite app_fold_paid. Qed.

Lemma count_key_nil k : count_key k [] = 0.
Proof. done. Qed.

Lemma count_key_cons k n names :
  count_key k (n :: names)
  = (if decide (norm_name n = k) then 1 else 0) + count_key k names.
Proof.
  unfold count_key. rewrite filter_cons. case_decide; simpl; lia.
Qed.

Lemma count_key_app k l1 l2 :
  count_key k (l1 ++ l2) = count_key k l1 + count_key k l2.
Proof. unfold count_key. rewrite filter_app, length_app. lia. Qed.

Lemma count_key_nonneg k names : 0 ≤ count_key k names.
Proof. unfold count_key. lia. Qed.

Lemma credit_count_paid pc name k :
  credit (count_paid pc name) k
  = credit pc k
    + (if decide (norm_name name = k ∧ k ≠ "") then 1 else 0).
Proof.
  unfold count_paid, credit. case_decide as Hk.
  - rewrite decide_False; [lia | intros [? ?]; congruence].
  - destruct (decide (norm_name name = k)) as [<- | Hne].
    + rewrite lookup_insert_eq, decide_True by done. simpl. lia.
    + rewrite lookup_insert_ne by done.
      rewrite decide_False; [lia | by intros [? ?]].
Qed.

Lemma credit_fold_count_paid payers pc k :
  credit (fold_left count_paid payers pc) k
  = credit pc k + (if decide (k = "") then 0 else count_key k payers).
Proof.
  revert pc. induction payers as [| n payers IH]; intros pc; simpl.
  - rewrite count_key_nil. case_decide; lia.
  - rewrite IH, credit_count_paid, count_key_cons.
    repeat case_decide; try lia; tauto.
Qed.

Lemma count_key_empty_named names :
  Forall (λ n, norm_name n ≠ "") names → count_key "" names = 0.
Proof.
  induction 1 as [| n names Hn _ IH]; [done |].
  rewrite count_key_cons, IH. by rewrite decide_False.
Qed.

(** ** The queue *)

Lemma queue_fold_acc names pl rem :
  fold_left queue_step names (pl, rem)
  = ((queue_loop pl names).1, rem ++ (queue_loop pl names).2).
Proof.
  unfold queue_loop. revert pl rem.
  induction names as [| n names IH]; intros pl rem; simpl.
  - by rewrite app_nil_r.
  - fold (credit pl (norm_name n)).
    destruct (0 <? credit pl (norm_name n)).
    + by rewrite IH.
    + rewrite (IH pl (rem ++ [n])), (IH pl [n]). simpl.
      by rewrite <- app_assoc.
Qed.

Lemma queue_loop_cons pl n rest :
  queue_loop pl (n :: rest)
  = if 0 <? credit pl (norm_name n)
    then queue_loop (<[norm_name n := credit pl (norm_name n) - 1]> pl) rest
    else ((queue_loop pl rest).1, n :: (queue_loop pl rest).2).
Proof.
  unfold queue_loop at 1. simpl. fold (credit pl (norm_name n)).
  destruct (0 <? credit pl (norm_name n)); [done |].
  by rewrite queue_fold_acc.
Qed.

Lemma credit_insert pl k v k' :
  credit (<[k := v]> pl) k' = if decide (k = k') then v else credit pl k'.
Proof.
  unfold credit. case_decide as Hk.
  - subst. by rewrite lookup_insert_eq.
  - by rewrite lookup_insert_ne.
Qed.

Section fifo.

(** The credits the walk starts with, per key. *)
Variable paid_of : string → Z.

(** The loop and the description agree, and the credits left at the end
    are what was paid and not matched by a reservation. *)
Lemma queue_loop_fifo names pl seen :
  (∀ k, credit pl k = Z.max 0 (paid_of k - count_key k seen)) →
  (queue_loop pl names).2 = fifo_queue paid_of seen names
  ∧ ∀ k, credit (queue_loop pl names).1 k
         = Z.max 0 (paid_of k - count_key k (seen ++ names)).
Proof.
  revert pl seen. induction names as [| n names IH]; intros pl seen Hpl.
  - split; [done |]. intros k. by rewrite app_nil_r.
  - rewrite queue_loop_cons. simpl fifo_queue.
    pose proof (Hpl (norm_name n)) as Hn.
    assert (Hnext : ∀ pl',
              (∀ k, credit pl' k
                    = Z.max 0 (paid_of k - count_key k (seen ++ [n]))) →
              (queue_loop pl' names).2 = fifo_queue paid_of (seen ++ [n]) names
              ∧ ∀ k, credit (queue_loop pl' names).1 k
                     = Z.max 0 (paid_of k - count_key k (seen ++ n :: names))).
    { intros pl' Hpl'. destruct (IH pl' (seen ++ [n]) Hpl') as [Hq Hc].
      split; [done |]. intros k. by rewrite Hc, <- app_assoc. }
    destruct (Z.ltb_spec 0 (credit pl (norm_name n))) as [Hpos | Hzero].
    + rewrite (proj2 (Z.ltb_lt _ _)) by lia. simpl.
      apply Hnext. intros k. rewrite credit_insert, count_key_app,
        count_key_cons, count_key_nil.
      case_decide as Hk; [subst k; lia |]. rewrite Hpl. lia.
    + rewrite (proj2 (Z.ltb_ge _ _)) by lia. simpl.
      destruct (Hnext pl) as [Hq Hc].
      { intros k. rewrite Hpl, count_key_app, count_key_cons, count_key_nil.
        case_decide as Hk; [subst k; lia | f_equal; lia]. }
      split; [by rewrite Hq | done].
Qed.

Lemma fifo_queue_sublist seen names :
  fifo_queue paid_of seen names `sublist_of` names.
Proof.
  revert seen. induction names as [| n names IH]; intros seen; simpl.
  - done.
  - destruct (_ <? _); simpl.
    + by apply sublist_cons.
    + by apply sublist_skip.
Qed.

Lemma fifo_queue_count seen names k :
  count_key k (fifo_queue paid_of seen names)
  = Z.max 0 (count_key k seen + count_key k names
             - Z.max (count_key k seen) (paid_of k)).
Proof.
  revert seen. induction names as [| n names IH]; intros seen; simpl.
  - rewrite !count_key_nil. lia.
  - rewrite count_key_app, IH, count_key_app, !count_key_cons, !count_key_nil.
    pose proof (count_key_nonneg k seen). pose proof (count_key_nonneg k names).
    destruct (decide (norm_name n = k)) as [Hk | Hne].
    + subst k.
      destruct (Z.ltb_spec (count_key (norm_name n) seen)
                  (paid_of (norm_name n)));
        rewrite ?count_key_cons, ?count_key_nil, ?decide_True by done; lia.
    + destruct (_ <? _);
        rewrite ?count_key_cons, ?count_key_nil, ?decide_False by done; lia.
Qed.

End fifo.

(** ** Registration order *)

Lemma insert_by_perm {A} (key : A → Z) x l : insert_by key x l ≡ₚ x :: l.
Proof.
  induction l as [| y l IH]; simpl; [done |].
  destruct (key x <? key y); [done |]. rewrite IH. apply Permutation_swap.
Qed.

Lemma order_by_snoc {A} (key : A → Z) l x :
  order_by key (l ++ [x]) = insert_by key x (order_by key l).
Proof. unfold order_by. by rewrite rev_app_distr. Qed.

Lemma order_by_perm {A} (key : A → Z) l : order_by key l ≡ₚ l.
Proof.
  induction l as [| x l IH] using rev_ind; [done |].
  rewrite order_by_snoc, insert_by_perm, IH.
  by rewrite Permutation_app_comm.
Qed.

Lemma insert_by_sorted {A} (key : A → Z) x l :
  StronglySorted Z.le (key <$> l) →
  StronglySorted Z.le (key <$> insert_by key x l).
Proof.
  induction l as [| y l IH]; simpl; intros Hs.
  - by repeat constructor.
  - apply StronglySorted_inv in Hs as [Hl Hy].
    destruct (Z.ltb_spec (key x) (key y)) as [Hlt | Hge]; simpl.
    + constructor; [by constructor |].
      constructor; [lia |]. eapply Forall_impl; [exact Hy |].
      intros k Hk. simpl in Hk. lia.
    + constructor; [by apply IH |].
      rewrite Forall_forall in *. intros k Hk.
      apply list_elem_of_fmap in Hk as (z & -> & Hz).
      rewrite insert_by_perm in Hz.
      apply elem_of_cons in Hz as [-> | Hz]; [done |].
      apply Hy, list_elem_of_fmap. eauto.
Qed.

Lemma order_by_sorted {A} (key : A → Z) l :
  StronglySorted Z.le (key <$> order_by key l).
Proof.
  induction l as [| x l IH] using rev_ind; [constructor |].
  rewrite order_by_snoc. by apply insert_by_sorted.
Qed.

Lemma insert_by_last {A} (key : A → Z) x l :
  Forall (λ y, key y ≤ key x) l → insert_by key x l = l ++ [x].
Proof.
  induction 1 as [| y l Hy _ IH]; simpl; [done |].
  rewrite (proj2 (Z.ltb_ge _ _)) by lia. by rewrite IH.
Qed.

Lemma order_by_ascending {A} (key : A → Z) l :
  StronglySorted Z.lt (key <$> l) → order_by key l = l.
Proof.
  induction l as [| x l IH] using rev_ind; [done |].
  intros Hs. rewrite order_by_snoc.
  rewrite fmap_app in Hs. simpl in Hs.
  assert (Hl : StronglySorted Z.lt (key <$> l)
               ∧ Forall (λ y, key y ≤ key x) l).
  { clear IH. induction l as [| y l IHl]; simpl in *.
    - split; constructor.
    - apply StronglySorted_inv in Hs as [Hs Hy].
      destruct (IHl Hs) as [Hs' Hall]. split.
      + constructor; [done |].
        rewrite Forall_app in Hy. by destruct Hy.
      + constructor; [| done].
        rewrite Forall_app, Forall_singleton in Hy. lia. }
  destruct Hl as [Hs' Hall]. rewrite (IH Hs'). by apply insert_by_last.
Qed.

Lemma ordered_is_registration_order db iso :
  App.ordered db iso ≡ₚ live_reservations db iso
  ∧ StronglySorted Z.le (Reservation.id <$> App.ordered db iso)
  ∧ (keys_ascending db → App.ordered db iso = live_reservations db iso).
Proof.
  unfold App.ordered. fold (live_reservations db iso).
  split; [apply order_by_perm |]. split; [apply order_by_sorted |].
  intros Hk. apply order_by_ascending. by apply sorted_keys_filter.
Qed.

(** ** What the requests keep true of the store *)

Lemma meal_payers_app db db' iso extra :
  till db' = till db ++ extra →
  meal_payers db' iso
  = meal_payers db iso
    ++ (TillRow.name <$>
          filter (λ r, is_meal (TillRow.type r))
            (filter (λ r, TillRow.date_iso r = iso) extra)).
Proof.
  intros Ht. unfold meal_payers, App.till_of.
  by rewrite Ht, !filter_app, fmap_app.
Qed.

Lemma step_till_payers env db req :
  ∃ extra,
    till (App.step env db req) = till db ++ extra
    ∧ Forall (λ r, is_meal (TillRow.type r) → norm_name (TillRow.name r) ≠ "")
        extra.
Proof.
  destruct (step_appends env db req) as (extra & Ht & Hall).
  exists extra. split; [done |]. eapply Forall_impl; [exact Hall |].
  intros r [(Hty & _) | [_ Hn]] Hm; [| by apply Hn].
  rewrite Hty in Hm. unfold is_meal in Hm. tauto.
Qed.

(** Every request keeps the payer names of the meal rows non-empty. *)
Lemma step_keeps_payers_named env db req iso :
  payers_named db iso → payers_named (App.step env db req) iso.
Proof.
  unfold payers_named. intros Hn.
  destruct (step_till_payers env db req) as (extra & Ht & Hall).
  rewrite (meal_payers_app db _ iso extra Ht). apply Forall_app.
  split; [done |]. apply Forall_fmap, Forall_forall. intros r Hr.
  apply list_elem_of_filter in Hr as [Hm Hr].
  apply list_elem_of_filter in Hr as [_ Hr].
  rewrite Forall_forall in Hall. by apply Hall.
Qed.

Lemma run_keeps_payers_named db reqs iso :
  payers_named db iso → payers_named (App.run db reqs) iso.
Proof.
  revert db. induction reqs as [| [env req] reqs IH]; intros db Hn; [done |].
  simpl. by apply IH, step_keeps_payers_named.
Qed.

Lemma empty_till_payers_named db iso : till db = [] → payers_named db iso.
Proof.
  intros He. unfold payers_named, meal_payers, App.till_of. rewrite He.
  constructor.
Qed.

Lemma sorted_snoc_next ids :
  StronglySorted Z.lt ids → StronglySorted Z.lt (ids ++ [next_id ids]).
Proof.
  intros Hs. assert (Hall : Forall (λ x, x < next_id ids) ids).
  { apply Forall_forall. intros x Hx. by apply next_id_above. }
  revert Hall. generalize (next_id ids). intros k.
  induction Hs as [| x ids Hs IH Hx]; intros Hall; simpl.
  - by repeat constructor.
  - apply Forall_cons in Hall as [Hxk Hall].
    constructor; [by apply IH |]. apply Forall_app. split; [done |].
    by constructor.
Qed.

(** Every request keeps the keys of the reservation table ascending. *)
Lemma step_keeps_keys_ascending env db req :
  keys_ascending db → keys_ascending (App.step env db req).
Proof.
  unfold keys_ascending. intros Hk.
  assert (Hadd : ∀ inp type base bev choc tot,
            reservations
              (App.after db (App.api_add env db inp type base bev choc tot))
            = reservations db).
  { intros inp type base bev choc tot. route_result Hres; [| done].
    apply app_add_Ok in Hres as [_ ->].
    by destruct (iter_add_till (App.add_count inp) db
                   (effective_date env (qty_dateIso inp)) type base bev choc tot)
      as (_ & -> & _). }
  destruct req as [inp | inp | inp | inp | inp | inp | inp]; simpl.
  - route_result Hres; [| done]. unfold App.api_reserve in Hres.
    destruct (App.to_iso_any env _); simpl in Hres; [| done].
    repeat case_decide; try done. injection Hres as <- _. simpl.
    rewrite fmap_app. simpl. by apply sorted_snoc_next.
  - route_result Hres; [| done]. unfold App.api_unreserve in Hres.
    destruct (App.to_iso_any env _); simpl in Hres; [| done].
    destruct (App.first_match _ _); [| done]. injection Hres as <- _.
    simpl. by apply sorted_keys_filter.
  - route_result Hres; [| done].
    by apply app_checkout_Ok in Hres as (_ & _ & row & _ & _ & _ & -> & _).
  - unfold App.api_add_sandwich. by rewrite Hadd.
  - unfold App.api_add_beverage. by rewrite Hadd.
  - unfold App.api_add_chocolate. by rewrite Hadd.
  - done.
Qed.

(** ** The remaining queue *)

Lemma fifo_queue_ext c1 c2 seen names :
  (∀ k, c1 k = c2 k) → fifo_queue c1 seen names = fifo_queue c2 seen names.
Proof.
  intros Hc. revert seen. induction names as [| n names IH]; intros seen;
    simpl; [done |]. by rewrite Hc, IH.
Qed.

Lemma credits_of_named payers k :
  Forall (λ n, norm_name n ≠ "") payers →
  credits_of payers k = count_key k payers.
Proof.
  intros Hn. unfold credits_of. case_decide as Hk; [| done].
  subst k. by rewrite count_key_empty_named.
Qed.

Lemma credits_of_nonneg payers k : 0 ≤ credits_of payers k.
Proof. unfold credits_of. case_decide; [done | apply count_key_nonneg]. Qed.

(** The loop started with the dictionary built from [payers]. *)
Lemma queue_loop_from_payers payers names :
  let pc := fold_left count_paid payers ∅ in
  (queue_loop pc names).2 = fifo_queue (credits_of payers) [] names
  ∧ (∀ i k, credit (queue_loop pc (take i names)).1 k
            = Z.max 0 (credits_of payers k - count_key k (take i names)))
  ∧ (queue_loop pc names).2 `sublist_of` names
  ∧ (∀ k, count_key k (queue_loop pc names).2
          = Z.max 0 (count_key k names - credits_of payers k)).
Proof.
  intros pc.
  assert (Hpc : ∀ k, credit pc k
                     = Z.max 0 (credits_of payers k - count_key k [])).
  { intros k. unfold pc. rewrite credit_fold_count_paid, count_key_nil.
    unfold credit at 1. rewrite lookup_empty. simpl.
    pose proof (credits_of_nonneg payers k). unfold credits_of in *.
    case_decide; lia. }
  destruct (queue_loop_fifo (credits_of payers) names pc [] Hpc) as [Hq _].
  split; [done |]. split.
  { intros i k.
    by destruct (queue_loop_fifo (credits_of payers) (take i names) pc [] Hpc)
      as [_ ->]. }
  rewrite Hq. split; [apply fifo_queue_sublist |].
  intros k. rewrite fifo_queue_count, count_key_nil.
  pose proof (credits_of_nonneg payers k). lia.
Qed.

Lemma sheets_loop_paid env iso vals acc acc' :
  Sheets.totals_loop env iso acc vals = Ok acc' →
  acc'.2
  = fold_left count_paid
      ((λ r, Sheets.cell r 1) <$>
         filter (λ r : Sheets.row,
                   ¬ ((length r < 7)%nat ∨ Sheets.cell r 0 ≠ iso)
                   ∧ is_meal (Sheets.cell r 2)) vals)
      acc.2.
Proof.
  revert acc. induction vals as [| r vals IH]; intros acc; simpl.
  - by intros [= <-].
  - rewrite filter_cons. unfold Sheets.row_step at 1.
    destruct (decide ((length r < 7)%nat ∨ Sheets.cell r 0 ≠ iso)) as [Hs | Hk].
    + simpl. rewrite decide_False by tauto. apply IH.
    + destruct (Sheets.float_or_0 env (Sheets.cell r 3)); simpl; [| done].
      destruct (Sheets.float_or_0 env (Sheets.cell r 4)); simpl; [| done].
      destruct (Sheets.float_or_0 env (Sheets.cell r 5)); simpl; [| done].
      destruct (Sheets.float_or_0 env (Sheets.cell r 6)); simpl; [| done].
      intros Hrest. rewrite (IH _ Hrest), totals_step_paid.
      destruct (decide (is_meal (Sheets.cell r 2))) as [Hm | Hm].
      * by rewrite decide_True by tauto.
      * by rewrite decide_False by tauto.
Qed.

Lemma sheets_ordered_named b iso :
  Forall (λ n, norm_name n ≠ "") (Sheets.ordered b iso).
Proof.
  unfold Sheets.ordered. apply Forall_fmap, Forall_forall. intros r Hr.
  apply list_elem_of_filter in Hr as [(_ & _ & Hne) _]. simpl.
  destruct (strip_head _ Hne) as (c & rest & -> & Hc).
  by apply norm_name_of_head.
Qed.

Lemma remaining_queue_fifo db iso :
  remaining_queue db iso
  = fifo_queue (credits_of (meal_payers db iso)) [] (registered_names db iso).
Proof.
  unfold remaining_queue. rewrite build_totals_paid.
  fold (registered_names db iso).
  by destruct (queue_loop_from_payers (meal_payers db iso)
                 (registered_names db iso)) as [-> _].
Qed.

Lemma fifo_queue_ext_on c1 c2 seen names :
  (∀ n, n ∈ names → c1 (norm_name n) = c2 (norm_name n)) →
  fifo_queue c1 seen names = fifo_queue c2 seen names.
Proof.
  revert seen. induction names as [| n names IH]; intros seen Hc; simpl;
    [done |].
  rewrite (Hc n) by left. f_equal. apply IH. intros x Hx. apply Hc. by right.
Qed.

(** C6, as amended: a walk-in checkout is stored under the payer name
    "Anonyme", whose key is ANONYME and not the empty key.  It leaves the
    remaining queue of every other date as it was, and that of its own
    date too whenever no reservation of the date has the key ANONYME. *)
Theorem walk_in_checkout_and_queue
    (env : Env) (db db' : DB) (inp : CheckoutIn.t) (out : CaisseOut) :
  let iso := effective_date env (CheckoutIn.dateIso inp) in
  walk_in inp →
  App.api_checkout env db inp = Ok (db', out) →
  (∃ row, till db' = till db ++ [row]
          ∧ TillRow.name row = "Anonyme"
          ∧ norm_name (TillRow.name row) = "ANONYME")
  ∧ reservations db' = reservations db
  ∧ (∀ d, d ≠ iso → remaining_queue db' d = remaining_queue db d)
  ∧ ((∀ n, n ∈ registered_names db iso → norm_name n ≠ "ANONYME") →
     remaining_queue db' iso = remaining_queue db iso).
Proof.
  intros iso Hwalk Hres.
  apply app_checkout_Ok in Hres
    as (Hopen & Hroom & row & Ht & Hd & _ & Hr & Hn).
  fold iso in Hd.
  assert (Hname : TillRow.name row = "Anonyme").
  { rewrite Hn. by destruct Hwalk as [-> | ->]. }
  assert (Hregs : ∀ d, registered_names db' d = registered_names db d).
  { intros d. unfold registered_names, App.ordered. by rewrite Hr. }
  split; [exists row; by rewrite Hname |]. split; [done |].
  pose proof (λ d, meal_payers_app db db' d [row] Ht) as Hpay.
  split.
  - intros d Hne. rewrite !remaining_queue_fifo, Hregs, Hpay.
    rewrite (filter_cons _ row), decide_False by congruence.
    by rewrite filter_nil, app_nil_r.
  - intros Hnone. rewrite !remaining_queue_fifo, Hregs, Hpay.
    apply fifo_queue_ext_on. intros n Hin. specialize (Hnone n Hin).
    unfold credits_of. case_decide; [done |].
    rewrite count_key_app.
    assert (Hz : count_key (norm_name n)
                   (TillRow.name <$>
                      filter (λ r, is_meal (TillRow.type r))
                        (filter (λ r, TillRow.date_iso r = iso) [row])) = 0).
    { rewrite (filter_cons _ row), decide_True, filter_nil by done.
      rewrite (filter_cons _ row), filter_nil.
      case_decide; simpl; [| done].
      rewrite count_key_cons, count_key_nil, Hname, decide_False; [done |].
      intros He. apply Hnone. by rewrite <- He. }
    rewrite Hz. lia.
Qed.

(** C6 as stated fails: with a reservation under the name "Anonyme", a
    walk-in checkout with a blank name takes that reservation off the
    queue. *)
Lemma walk_in_consumes_anonyme_reservation :
  walk_in blank_walk_in
  ∧ names (App.api_caisse env_15_march anonyme_registered (Some "2025-03-17"))
    = ["Anonyme"]
  ∧ ∃ db' out,
      App.api_checkout env_15_march anonyme_registered blank_walk_in
      = Ok (db', out)
      ∧ names out = []
      ∧ names (App.api_caisse env_15_march db' (Some "2025-03-17")) = [].
Proof.
  split; [by left |]. split; [by vm_compute |].
  eexists _, _. split; [by vm_compute |]. split; by vm_compute.
Qed.

(** * The properties at work on concrete stores *)

(** The closed Monday stays closed and refuses a checkout. *)
Lemma closed_till_is_sealed_witness :
  App.is_closed monday_closed "2025-03-17" = true
  ∧ (∀ reqs, App.is_closed (App.run monday_closed reqs) "2025-03-17" = true)
  ∧ App.step env_15_march monday_closed (checkout_monday "john smith" "ELEVE")
    = monday_closed.
Proof.
  assert (Hc : App.is_closed monday_closed "2025-03-17" = true)
    by (vm_compute; reflexivity).
  destruct (closed_till_is_sealed monday_closed "2025-03-17" Hc)
    as (Hrun & Hco & _).
  split; [exact Hc |]. split; [exact Hrun |].
  apply (Hco env_15_march). reflexivity.
Defined.

(** The 40th registration of the open Monday. *)
Lemma reserve_day_quota_and_append_witness :
  length (live_reservations thirty_nine_registered "2025-03-17") = 39%nat
  ∧ ∃ db' r,
      App.api_reserve env_15_march thirty_nine_registered
        {| reserve_name := "Grace"; reserve_dateStr := "17.03.2025" |}
      = Ok (db', Confirmed "Grace" "17.03.2025")
      ∧ reservations db' = reservations thirty_nine_registered ++ [r]
      ∧ params db' = params thirty_nine_registered
      ∧ till db' = till thirty_nine_registered
      ∧ Reservation.date_iso r = "2025-03-17"
      ∧ Reservation.name r = "Grace"
      ∧ (∀ x, x ∈ reservations thirty_nine_registered
              → Reservation.id x < Reservation.id r)
      ∧ live_reservations db' "2025-03-17"
        = live_reservations thirty_nine_registered "2025-03-17" ++ [r].
Proof.
  split; [vm_compute; reflexivity |].
  apply (proj2 (proj2 (proj1 reserve_day_quota_and_append env_15_march
                         thirty_nine_registered
                         {| reserve_name := "Grace";
                            reserve_dateStr := "17.03.2025" |}
                         "2025-03-17" eq_refl))).
  - unfold open_for_registration. apply (bool_decide_unpack _).
    vm_compute. exact I.
  - vm_compute. lia.
Defined.

(** John is unregistered under his stripped name. *)
Lemma unreserve_first_stripped_match_witness :
  ∃ db',
    App.api_unreserve env_15_march john_registered
      {| unreserve_name := "john   smith  ";
         unreserve_dateStr := "17.03.2025" |}
    = Ok (db', Unregistered "17.03.2025")
    ∧ live_reservations db' "2025-03-17" = [] ++ []
    ∧ (∀ x, x ∈ reservations db'
            ↔ x ∈ reservations john_registered ∧ Reservation.id x ≠ 1)
    ∧ params db' = params john_registered
    ∧ till db' = till john_registered
    ∧ keys_ascending db'.
Proof.
  apply (proj2 (proj1 unreserve_first_stripped_match env_15_march
                  john_registered
                  {| unreserve_name := "john   smith  ";
                     unreserve_dateStr := "17.03.2025" |}
                  "2025-03-17" eq_refl)
           []
           {| Reservation.id := 1; Reservation.date_iso := "2025-03-17";
              Reservation.name := "john   smith" |}
           []).
  - repeat constructor.
  - reflexivity.
  - intros x Hx. by apply elem_of_nil in Hx.
  - reflexivity.
Defined.

(** A blank walk-in leaves John on the queue. *)
Lemma walk_in_checkout_and_queue_witness :
  remaining_queue
    (App.step env_15_march john_registered (App.Checkout blank_walk_in))
    "2025-03-17"
  = remaining_queue john_registered "2025-03-17".
Proof.
  refine (proj2 (proj2 (proj2
    (walk_in_checkout_and_queue env_15_march john_registered
       (App.step env_15_march john_registered (App.Checkout blank_walk_in))
       blank_walk_in
       (App.api_caisse env_15_march
          (App.step env_15_march john_registered (App.Checkout blank_walk_in))
          (Some "2025-03-17"))
       _ _))) _).
  - left. reflexivity.
  - vm_compute. reflexivity.
  - intros n Hn. vm_compute in Hn.
    apply list_elem_of_singleton in Hn as ->. vm_compute. discriminate.
Defined.

(** One staff meal on the spreadsheet. *)
Lemma build_totals_menus_eq_eleves_plus_profs_witness :
  ∃ t paidCount,
    Sheets.build_totals env_15_march book_one_meal "2025-03-17"
    = Ok (t, paidCount)
    ∧ menus t = eleves t + profs t ∧ profs t = 1.
Proof.
  eexists _, _. split; [vm_compute; reflexivity |]. split; [| reflexivity].
  apply (proj2 (proj2 build_totals_menus_eq_eleves_plus_profs) env_15_march
           book_one_meal "2025-03-17" _ (<["ADA" := 1]> ∅)).
  vm_compute. reflexivity.
Defined.

(** Free text, a canonical date and a display date. *)
Lemma to_iso_any_cases_witness :
  App.to_iso_any env_15_march "  next monday " = Ok "2025-03-15"
  ∧ Sheets.to_iso_any env_15_march "2025-03-17" = Ok "2025-03-17"
  ∧ App.to_iso_any env_15_march "17.03.2025" = Ok (iso_text 2025 3 17).
Proof.
  split; [| split].
  - apply (proj1 (proj1 (to_iso_any_cases env_15_march "  next monday ")
                    ltac:(vm_compute; intros [H _]; discriminate))).
  - apply (proj2 (proj1 (to_iso_any_cases env_15_march "2025-03-17")
                    ltac:(vm_compute; intros [_ [H _]]; discriminate))).
  - apply (proj1 (proj1 (proj2 (proj2 (to_iso_any_cases env_15_march
                                         "17.03.2025")))
                    2025 3 17 ltac:(lia) ltac:(lia) ltac:(lia) eq_refl)).
Defined.


(** * Further properties of the code *)

(** ** How a checkout and a registration move the queue *)

Lemma app_checkout_row env db inp db' out :
  App.api_checkout env db inp = Ok (db', out) →
  let iso := effective_date env (CheckoutIn.dateIso inp) in
  ∃ label base bev choc tot,
    db' = add_till_row db iso
            (App.or_else (Py.strip (CheckoutIn.name inp)) "Anonyme")
            label base bev choc tot
    ∧ out = App.api_caisse env db' (Some iso)
    ∧ is_meal label
    ∧ (Py.contains "eleve" (Py.lower label) = true ∧ base = 800
       ∨ Py.contains "eleve" (Py.lower label) = false ∧ base = 1200)
    ∧ (bev = 0 ∨ bev = 200) ∧ (choc = 0 ∨ choc = 150)
    ∧ (tot = bev + choc ∨ tot = base + bev + choc).
Proof.
  intros Hres iso. pose proof Hres as Hok.
  apply app_checkout_Ok in Hok as (Hopen & Hroom & _).
  rewrite (app_checkout_open env db inp Hopen Hroom) in Hres.
  cbv zeta in Hres. fold iso in Hres. injection Hres as <- <-.
  eexists _, _, _, _, _. split; [reflexivity |]. split; [reflexivity |].
  unfold is_meal, PRICE_ELEVE, PRICE_PROF, PRICE_BOISSON, PRICE_CHOCOLAT.
  repeat split; repeat case_decide; try discriminate;
    try (destruct (CheckoutIn.beverage inp); tauto);
    try (destruct (CheckoutIn.chocolate inp); tauto); tauto || auto.
Qed.

Lemma fifo_queue_beyond c c' k0 seen names :
  (∀ k, k ≠ k0 → c' k = c k) →
  c k0 ≤ count_key k0 seen → c' k0 ≤ count_key k0 seen →
  fifo_queue c' seen names = fifo_queue c seen names.
Proof.
  intros Hother. revert seen.
  induction names as [| n names IH]; intros seen Hc Hc'; simpl; [done |].
  assert (Hnext : fifo_queue c' (seen ++ [n]) names
                  = fifo_queue c (seen ++ [n]) names).
  { pose proof (count_key_nonneg k0 [n]).
    apply IH; rewrite count_key_app; lia. }
  rewrite Hnext. f_equal.
  destruct (decide (norm_name n = k0)) as [-> | Hne].
  - rewrite (proj2 (Z.ltb_ge _ _)) by lia.
    by rewrite (proj2 (Z.ltb_ge _ _)) by lia.
  - by rewrite Hother.
Qed.

Lemma fifo_queue_one_more c c' k0 seen names :
  (∀ k, c' k = c k + (if decide (k = k0) then 1 else 0)) →
  count_key k0 seen ≤ c k0 →
  fifo_queue c' seen names = remove_first_key k0 (fifo_queue c seen names).
Proof.
  intros Hc'. revert seen.
  induction names as [| n names IH]; intros seen Hseen; simpl; [done |].
  destruct (decide (norm_name n = k0)) as [Hk | Hne].
  - rewrite Hc', Hk, decide_True by done.
    destruct (Z.ltb_spec (count_key k0 seen) (c k0)) as [Hlt | Hge].
    + rewrite (proj2 (Z.ltb_lt _ _)) by lia. simpl. apply IH.
      rewrite count_key_app, count_key_cons, count_key_nil, decide_True by done.
      lia.
    + rewrite (proj2 (Z.ltb_lt _ _)) by lia. simpl.
      rewrite decide_True by done.
      apply (fifo_queue_beyond c c' k0).
      * intros k Hkne. rewrite Hc'. rewrite decide_False by done. lia.
      * rewrite count_key_app. pose proof (count_key_nonneg k0 [n]). lia.
      * rewrite Hc', decide_True by done.
        rewrite count_key_app, count_key_cons, count_key_nil, decide_True
          by done. lia.
  - rewrite Hc', decide_False by done. rewrite Z.add_0_r.
    destruct (_ <? _); simpl.
    + apply IH. rewrite count_key_app, count_key_cons, count_key_nil.
      rewrite decide_False by done. lia.
    + rewrite decide_False by done. f_equal. apply IH.
      rewrite count_key_app, count_key_cons, count_key_nil.
      rewrite decide_False by done. lia.
Qed.

Lemma credits_of_snoc payers p k :
  norm_name p ≠ "" →
  credits_of (payers ++ [p]) k
  = credits_of payers k + (if decide (k = norm_name p) then 1 else 0).
Proof.
  intros Hp. unfold credits_of.
  rewrite count_key_app, count_key_cons, count_key_nil.
  destruct (decide (k = "")) as [-> | Hk].
  - rewrite decide_False; [lia | congruence].
  - destruct (decide (norm_name p = k)) as [<- | Hne].
    + rewrite decide_True by done. lia.
    + rewrite decide_False by congruence. lia.
Qed.

Lemma meal_payers_add_meal db iso name label base bev choc tot :
  is_meal label →
  meal_payers (add_till_row db iso name label base bev choc tot) iso
  = meal_payers db iso ++ [name].
Proof.
  intros Hm.
  destruct (till_of_add db iso iso name label base bev choc tot)
    as (row & Ht & Hd & Hn & Hty & _).
  rewrite (meal_payers_app db _ iso [row] Ht).
  rewrite (filter_cons _ row), decide_True, filter_nil by done.
  rewrite (filter_cons _ row), decide_True, filter_nil by (by rewrite Hty).
  simpl. by rewrite Hn.
Qed.

(** X1: a checkout that is accepted takes off the queue of its date the
    first waiting reservation whose normalized name is the payer's, and
    nothing else; when nobody of that name waits the queue stays as it
    is. *)
Theorem checkout_serves_first_waiting
    (env : Env) (db db' : DB) (inp : CheckoutIn.t) (out : CaisseOut) :
  let iso := effective_date env (CheckoutIn.dateIso inp) in
  App.api_checkout env db inp = Ok (db', out) →
  remaining_queue db' iso
  = remove_first_key (payer_key inp) (remaining_queue db iso)
  ∧ (String.length iso = 10%nat →
     names out = remove_first_key (payer_key inp) (remaining_queue db iso)).
Proof.
  intros iso Hres. pose proof Hres as Hok.
  apply app_checkout_Ok in Hok as (Hopen & _ & _).
  apply app_checkout_row in Hres
    as (label & base & bev & choc & tot & -> & -> & Hm & _).
  fold iso in Hopen |- *.
  assert (Hq : remaining_queue
                 (add_till_row db iso
                    (App.or_else (Py.strip (CheckoutIn.name inp)) "Anonyme")
                    label base bev choc tot) iso
               = remove_first_key (payer_key inp) (remaining_queue db iso)).
  { rewrite !remaining_queue_fifo.
    rewrite meal_payers_add_meal by done.
    unfold registered_names, App.ordered. simpl.
    apply fifo_queue_one_more.
    - intros k. apply credits_of_snoc, stored_payer_named.
    - rewrite count_key_nil. apply credits_of_nonneg. }
  split; [exact Hq |]. intros Hlen.
  rewrite app_caisse_open; [exact Hq | done |].
  rewrite is_closed_add_row; [done |]. unfold is_meal in Hm. tauto.
Qed.

(** John Smith waits on the open Monday until his meal is paid. *)
Lemma checkout_serves_first_waiting_witness :
  remaining_queue john_registered "2025-03-17" = ["john   smith"]
  ∧ remaining_queue john_served "2025-03-17" = [].
Proof.
  split; [vm_compute; reflexivity |].
  assert (H : App.api_checkout env_15_march john_registered
                {| CheckoutIn.name := "john smith";
                   CheckoutIn.type := "ELEVE";
                   CheckoutIn.beverage := false;
                   CheckoutIn.chocolate := false;
                   CheckoutIn.dateIso := Some "2025-03-17";
                   CheckoutIn.method := "CASH" |}
              = Ok (john_served,
                    App.api_caisse env_15_march john_served
                      (Some "2025-03-17")))
    by (vm_compute; reflexivity).
  etransitivity;
    [ exact (proj1 (checkout_serves_first_waiting env_15_march
                      john_registered john_served _ _ H))
    | vm_compute; reflexivity ].
Defined.

Lemma app_reserve_Ok env db inp iso db' answer :
  App.to_iso_any env (reserve_dateStr inp) = Ok iso →
  App.api_reserve env db inp = Ok (db', answer) →
  open_for_registration db iso
  ∧ (length (live_reservations db iso) < 40)%nat
  ∧ db' = add_reservation db iso (Py.strip (reserve_name inp)).
Proof.
  intros Hiso Hres. rewrite (app_reserve_cases env db inp iso Hiso) in Hres.
  repeat case_decide; try done. injection Hres as <- _.
  split; [done |]. split; [lia | done].
Qed.

Lemma live_after_add_other db iso d name :
  d ≠ iso →
  live_reservations (add_reservation db iso name) d = live_reservations db d.
Proof.
  intros Hne. unfold live_reservations. simpl. rewrite filter_app.
  rewrite (filter_cons _ _ []), decide_False, filter_nil by (simpl; congruence).
  by rewrite app_nil_r.
Qed.

Lemma ordered_after_add db iso name :
  App.ordered (add_reservation db iso name) iso
  = App.ordered db iso
    ++ [ {| Reservation.id := next_id (Reservation.id <$> reservations db);
            Reservation.date_iso := iso;
            Reservation.name := name |} ].
Proof.
  unfold App.ordered. fold (live_reservations (add_reservation db iso name) iso).
  fold (live_reservations db iso).
  rewrite live_after_add, order_by_snoc. apply insert_by_last.
  apply Forall_forall. intros y Hy. rewrite order_by_perm in Hy.
  apply list_elem_of_filter in Hy as [_ Hy]. simpl.
  apply Z.lt_le_incl, next_id_above, list_elem_of_fmap. eauto.
Qed.

Lemma fifo_queue_snoc c seen names n :
  fifo_queue c seen (names ++ [n])
  = fifo_queue c seen names
    ++ (if count_key (norm_name n) (seen ++ names) <? c (norm_name n)
        then [] else [n]).
Proof.
  revert seen. induction names as [| x names IH]; intros seen; simpl.
  - by rewrite !app_nil_r.
  - rewrite IH, <- !app_assoc. simpl. reflexivity.
Qed.

(** X2: a registration that is accepted puts the stripped name at the end
    of the queue of its date, unless a meal paid under its key is still
    unmatched, in which case the queue stays as it is; the queues of the
    other dates do not move. *)
Theorem reserve_joins_queue
    (env : Env) (db db' : DB) (inp : ReserveIn) (answer : text)
    (iso : string) :
  App.to_iso_any env (reserve_dateStr inp) = Ok iso →
  App.api_reserve env db inp = Ok (db', answer) →
  let n := Py.strip (reserve_name inp) in
  remaining_queue db' iso
  = remaining_queue db iso
    ++ (if registered db iso (norm_name n)
           <? credits_of (meal_payers db iso) (norm_name n)
        then [] else [n])
  ∧ ∀ d, d ≠ iso → remaining_queue db' d = remaining_queue db d.
Proof.
  intros Hiso Hres n.
  destruct (app_reserve_Ok env db inp iso db' answer Hiso Hres)
    as (_ & _ & ->). fold n. split.
  - rewrite !remaining_queue_fifo.
    assert (Hp : meal_payers (add_reservation db iso n) iso
                 = meal_payers db iso) by done.
    rewrite Hp. unfold registered_names at 1.
    rewrite ordered_after_add, fmap_app. simpl.
    fold (registered_names db iso). by rewrite fifo_queue_snoc.
  - intros d Hne. unfold remaining_queue, App.ordered.
    fold (live_reservations (add_reservation db iso n) d).
    by rewrite live_after_add_other.
Qed.

(** The first registration for the open Monday is the whole queue. *)
Lemma reserve_joins_queue_witness :
  remaining_queue john_registered "2025-03-17" = [] ++ ["john   smith"].
Proof.
  assert (Hiso : App.to_iso_any env_15_march "17.03.2025" = Ok "2025-03-17")
    by (vm_compute; reflexivity).
  assert (H : App.api_reserve env_15_march db_open_monday
                {| reserve_name := "  john   smith ";
                   reserve_dateStr := "17.03.2025" |}
              = Ok (john_registered,
                    Confirmed "  john   smith " "17.03.2025"))
    by (vm_compute; reflexivity).
  exact (proj1 (reserve_joins_queue env_15_march db_open_monday
                  john_registered
                  {| reserve_name := "  john   smith ";
                     reserve_dateStr := "17.03.2025" |}
                  _ "2025-03-17" Hiso H)).
Defined.

(** ** Quota and capacity along runs *)

Lemma filter_none {A} (P : A → Prop) `{∀ x, Decision (P x)} (l : list A) :
  Forall (λ x, ¬ P x) l → filter P l = [].
Proof.
  induction 1 as [| x l Hx _ IH]; [done |].
  by rewrite filter_cons, decide_False.
Qed.

Lemma fold_menus_count rows acc :
  menus (fold_left App.row_step rows acc).1
  = menus acc.1
    + Z.of_nat (length (filter (λ r, is_meal (TillRow.type r)) rows)).
Proof.
  revert acc. induction rows as [| r rows IH]; intros acc; simpl; [lia |].
  rewrite IH, filter_cons. unfold App.row_step.
  destruct (totals_step_counts acc (TillRow.name r) (TillRow.type r)
              (TillRow.beverage r) (TillRow.chocolate r) (TillRow.total r))
    as [Hmeal Hother].
  case_decide as Hm.
  - destruct (Hmeal Hm) as [-> _]. simpl length. lia.
  - destruct (Hother Hm) as [-> _]. lia.
Qed.

Lemma menus_count db iso :
  menus (App.build_totals db iso).1 = Z.of_nat (length (meal_payers db iso)).
Proof.
  unfold App.build_totals, meal_payers. rewrite fold_menus_count, length_fmap.
  simpl. lia.
Qed.

Lemma step_menus env db req iso :
  menus (App.build_totals (App.step env db req) iso).1
  ≤ Z.max (menus (App.build_totals db iso).1) 45.
Proof.
  assert (Hadd : ∀ inp type base bev choc tot,
            ¬ is_meal type →
            menus (App.build_totals
                     (App.after db
                        (App.api_add env db inp type base bev choc tot)) iso).1
            ≤ Z.max (menus (App.build_totals db iso).1) 45).
  { intros inp type base bev choc tot Hty. route_result Hres; [| lia].
    apply app_add_Ok in Hres as [_ ->].
    destruct (iter_add_till (App.add_count inp) db
                (effective_date env (qty_dateIso inp)) type base bev choc tot)
      as (_ & _ & extra & Ht & _ & Hall).
    rewrite !menus_count, (meal_payers_app db _ iso extra Ht).
    assert (Hnone : filter (λ r, is_meal (TillRow.type r))
                      (filter (λ r, TillRow.date_iso r = iso) extra) = []).
    { apply filter_none, Forall_forall. intros r Hr.
      apply list_elem_of_filter in Hr as [_ Hr].
      rewrite Forall_forall in Hall. destruct (Hall r Hr) as (_ & -> & _).
      done. }
    rewrite Hnone, app_nil_r. lia. }
  destruct req as [inp | inp | inp | inp | inp | inp | inp]; simpl.
  - route_result Hres; [| lia]. unfold App.api_reserve in Hres.
    destruct (App.to_iso_any env _); simpl in Hres; [| done].
    repeat case_decide; try done. injection Hres as <- _.
    unfold App.build_totals, App.till_of. simpl. lia.
  - route_result Hres; [| lia]. unfold App.api_unreserve in Hres.
    destruct (App.to_iso_any env _); simpl in Hres; [| done].
    destruct (App.first_match _ _); [| done]. injection Hres as <- _.
    unfold App.build_totals, App.till_of. simpl. lia.
  - route_result Hres; [| lia]. pose proof Hres as Hok.
    apply app_checkout_Ok in Hok as (_ & Hroom & _).
    apply app_checkout_row in Hres
      as (label & base & bev & choc & tot & -> & _ & Hm & _).
    destruct (till_of_add db iso (effective_date env (CheckoutIn.dateIso inp))
                (App.or_else (Py.strip (CheckoutIn.name inp)) "Anonyme")
                label base bev choc tot)
      as (row & Ht & _ & _ & _ & _ & _ & _ & _ & Hof).
    rewrite !menus_count, (meal_payers_app db _ iso [row] Ht).
    rewrite length_app, length_fmap.
    destruct (decide (effective_date env (CheckoutIn.dateIso inp) = iso))
      as [<- | Hne].
    + rewrite menus_count in Hroom. unfold MAX_MENUS in Hroom.
      pose proof (length_filter (λ r, is_meal (TillRow.type r))
                    (filter (λ r, TillRow.date_iso r
                                  = effective_date env (CheckoutIn.dateIso inp))
                       [row])) as Hl1.
      pose proof (length_filter
                    (λ r, TillRow.date_iso r
                          = effective_date env (CheckoutIn.dateIso inp))
                    [row]) as Hl2.
      simpl in Hl2. lia.
    + assert (Hnone : filter (λ r, TillRow.date_iso r = iso) [row] = []).
      { apply filter_none. constructor; [| done].
        destruct (till_of_add db iso
                    (effective_date env (CheckoutIn.dateIso inp))
                    (App.or_else (Py.strip (CheckoutIn.name inp)) "Anonyme")
                    label base bev choc tot) as (row' & Ht' & Hd' & _).
        rewrite Ht in Ht'. apply app_inv_head in Ht'. injection Ht' as ->.
        congruence. }
      rewrite Hnone. simpl. lia.
  - apply Hadd. unfold is_meal. tauto.
  - apply Hadd. unfold is_meal. tauto.
  - apply Hadd. unfold is_meal. tauto.
  - rewrite !menus_count.
    rewrite (meal_payers_app db (App.api_close env db inp) iso [_] eq_refl).
    assert (Hnone : ∀ l : list TillRow.t,
              Forall (λ r, TillRow.type r = "Closed") l →
              filter (λ r, is_meal (TillRow.type r))
                (filter (λ r, TillRow.date_iso r = iso) l) = []).
    { intros l Hl. apply filter_none, Forall_forall. intros r Hr.
      apply list_elem_of_filter in Hr as [_ Hr].
      rewrite Forall_forall in Hl. rewrite (Hl r Hr). unfold is_meal. tauto. }
    rewrite Hnone by (by constructor). rewrite app_nil_r. lia.
Qed.

Lemma step_live env db req iso :
  (length (live_reservations (App.step env db req) iso)
   ≤ Nat.max (length (live_reservations db iso)) 40)%nat.
Proof.
  assert (Hadd : ∀ inp type base bev choc tot,
            reservations
              (App.after db (App.api_add env db inp type base bev choc tot))
            = reservations db).
  { intros inp type base bev choc tot. route_result Hres; [| done].
    apply app_add_Ok in Hres as [_ ->].
    by destruct (iter_add_till (App.add_count inp) db
                   (effective_date env (qty_dateIso inp)) type base bev choc tot)
      as (_ & -> & _). }
  destruct req as [inp | inp | inp | inp | inp | inp | inp]; simpl.
  - route_result Hres; [| lia].
    destruct (App.to_iso_any env (reserve_dateStr inp)) as [iso0 | e] eqn:Hiso;
      [| by unfold App.api_reserve in Hres; rewrite Hiso in Hres].
    destruct (app_reserve_Ok env db inp iso0 _ _ Hiso Hres)
      as (_ & Hroom & Hdb).
    rewrite Hdb. destruct (decide (iso = iso0)) as [Heq | Hne].
    + rewrite Heq, live_after_add, length_app. simpl. lia.
    + rewrite live_after_add_other by done. lia.
  - route_result Hres; [| lia]. unfold App.api_unreserve in Hres.
    destruct (App.to_iso_any env _); simpl in Hres; [| done].
    destruct (App.first_match _ _) as [hit |]; [| done].
    injection Hres as <- _. rewrite live_after_delete.
    pose proof (length_filter
                  (λ x, Reservation.id x ≠ Reservation.id hit)
                  (live_reservations db iso)). lia.
  - route_result Hres; [| lia].
    apply app_checkout_Ok in Hres as (_ & _ & row & _ & _ & _ & Hr & _).
    unfold live_reservations. rewrite Hr. lia.
  - unfold live_reservations, App.api_add_sandwich. rewrite Hadd. lia.
  - unfold live_reservations, App.api_add_beverage. rewrite Hadd. lia.
  - unfold live_reservations, App.api_add_chocolate. rewrite Hadd. lia.
  - unfold live_reservations. simpl. lia.
Qed.

(** ** The import and the quota *)

Lemma import_params_reservations rows db :
  reservations (fold_left Admin.add_param rows db) = reservations db
  ∧ till (fold_left Admin.add_param rows db) = till db.
Proof.
  revert db. induction rows as [| row rows IH]; intros db; [done |].
  simpl. destruct (IH (Admin.add_param db row)) as [-> ->]. done.
Qed.

Lemma import_resas_live rows db iso :
  Reservation.name <$> live_reservations (fold_left Admin.add_resa rows db) iso
  = (Reservation.name <$> live_reservations db iso)
    ++ (snd <$> filter (λ row, row.1 = iso) rows).
Proof.
  revert db. induction rows as [| [d n] rows IH]; intros db; simpl.
  - by rewrite app_nil_r.
  - rewrite IH.
    change (Admin.add_resa db (d, n)) with (add_reservation db d n).
    rewrite filter_cons. simpl.
    destruct (decide (d = iso)) as [-> | Hne].
    + rewrite live_after_add, fmap_app, <- app_assoc. done.
    + by rewrite live_after_add_other by done.
Qed.

Lemma import_resas_till rows db :
  till (fold_left Admin.add_resa rows db) = till db
  ∧ params (fold_left Admin.add_resa rows db) = params db.
Proof.
  revert db. induction rows as [| row rows IH]; intros db; [done |].
  simpl. destruct (IH (Admin.add_resa db row)) as [-> ->]. done.
Qed.

Lemma import_live db params resas iso :
  Reservation.name <$> live_reservations (Admin.admin_import db params resas) iso
  = (Reservation.name <$> live_reservations db iso)
    ++ (snd <$> rows_for iso resas).
Proof.
  unfold Admin.admin_import, rows_for.
  set (db1 := match params with
              | Some rows => fold_left Admin.add_param rows db
              | None => db
              end).
  assert (H1 : live_reservations db1 iso = live_reservations db iso).
  { unfold db1, live_reservations. destruct params as [rows |]; [| done].
    by destruct (import_params_reservations rows db) as [-> _]. }
  destruct resas as [rows |]; simpl.
  - by rewrite import_resas_live, H1.
  - by rewrite H1, app_nil_r.
Qed.

Lemma import_till db params resas :
  till (Admin.admin_import db params resas) = till db.
Proof.
  unfold Admin.admin_import.
  destruct resas as [rows |], params as [prows |];
    rewrite ?(proj1 (import_resas_till _ _)),
      ?(proj2 (import_params_reservations _ _)); done.
Qed.

Lemma import_length db params resas iso :
  length (live_reservations (Admin.admin_import db params resas) iso)
  = (length (live_reservations db iso) + length (rows_for iso resas))%nat.
Proof.
  pose proof (f_equal length (import_live db params resas iso)) as H.
  by rewrite length_app, !length_fmap in H.
Qed.

(** X3: no run of requests of the API takes the reservations of a date
    above the quota of 40: a date has at most as many reservations after
    the run as before it, or at most 40.  The import of the
    administration page checks no quota: it adds, after the reservations
    of a date, one reservation for each row of its reservation file that
    is for the date, under the name of the row as it is.  So a run of
    requests of the API and of imports leaves a date with at most 40
    reservations, or as many as before, and the rows imported for the
    date on top. *)
Theorem run_keeps_quota :
  (∀ (db : DB) (reqs : list (Env * App.request)) (iso : string),
     (length (live_reservations (App.run db reqs) iso)
      ≤ Nat.max (length (live_reservations db iso)) 40)%nat)
  ∧ (∀ (db : DB) (params : option (list ParamCsv.t))
       (resas : option (list (string * string))) (iso : string),
       Reservation.name
         <$> live_reservations (Admin.admin_import db params resas) iso
       = (Reservation.name <$> live_reservations db iso)
         ++ (snd <$> rows_for iso resas))
  ∧ (∀ (db : DB) (rs : list Admin.request) (iso : string),
       (length (live_reservations (Admin.run db rs) iso)
        ≤ Nat.max (length (live_reservations db iso)) 40
          + imported rs iso)%nat)
  ∧ (∀ (db : DB) (reqs : list (Env * App.request)),
       Admin.run db (api_run reqs) = App.run db reqs
       ∧ ∀ iso, imported (api_run reqs) iso = 0%nat).
Proof.
  assert (Hmixed : ∀ (db : DB) (rs : list Admin.request) (iso : string),
            (length (live_reservations (Admin.run db rs) iso)
             ≤ Nat.max (length (live_reservations db iso)) 40
               + imported rs iso)%nat).
  { intros db rs iso. revert db.
    induction rs as [| r rs IH]; intros db; simpl; [lia |].
    specialize (IH (Admin.step db r)).
    fold (Admin.run (Admin.step db r) rs) in IH.
    fold (imported rs iso).
    destruct r as [env req | params resas]; simpl in *.
    - pose proof (step_live env db req iso). lia.
    - rewrite import_length in IH. lia. }
  assert (Hapi : ∀ (db : DB) (reqs : list (Env * App.request)),
            Admin.run db (api_run reqs) = App.run db reqs
            ∧ ∀ iso, imported (api_run reqs) iso = 0%nat).
  { intros db reqs. split.
    - revert db. induction reqs as [| [env req] reqs IH]; intros db;
        [done |]. simpl. apply IH.
    - intros iso. induction reqs as [| [env req] reqs IH]; [done |].
      simpl. exact IH. }
  split; [| split; [apply import_live | split; [exact Hmixed | exact Hapi]]].
  intros db reqs iso. destruct (Hapi db reqs) as [<- Hz].
  pose proof (Hmixed db (api_run reqs) iso) as H. rewrite Hz in H. lia.
Qed.

(** After thirty-nine registrations the import takes Monday 17 March 2025
    to forty-one reservations. *)
Lemma run_keeps_quota_witness :
  length (live_reservations thirty_nine_registered "2025-03-17") = 39%nat
  ∧ drop 39 (Reservation.name
               <$> live_reservations
                     (Admin.run thirty_nine_registered [import_three])
                     "2025-03-17")
    = ["Grace"; " Grace "].
Proof.
  split; [vm_compute; reflexivity |].
  change (Admin.run thirty_nine_registered [import_three])
    with (Admin.admin_import thirty_nine_registered None
            (Some [("2025-03-17", "Grace"); ("2025-03-18", "Alan");
                   ("2025-03-17", " Grace ")])).
  rewrite (proj1 (proj2 run_keeps_quota)). vm_compute. reflexivity.
Defined.

(** X4: no run of requests takes the menus counted for a date above the
    capacity of 45: the count after the run is at most the count before
    it, or at most 45; and the count is the number of meal rows of the
    date. *)
Theorem run_keeps_capacity (db : DB) (reqs : list (Env * App.request))
    (iso : string) :
  menus (App.build_totals (App.run db reqs) iso).1
  ≤ Z.max (menus (App.build_totals db iso).1) 45
  ∧ menus (App.build_totals (App.run db reqs) iso).1
    = Z.of_nat (length (meal_payers (App.run db reqs) iso)).
Proof.
  split; [| apply menus_count].
  revert db. induction reqs as [| [env req] reqs IH]; intros db; simpl.
  - lia.
  - specialize (IH (App.step env db req)).
    fold (App.run (App.step env db req) reqs) in *.
    pose proof (step_menus env db req iso). lia.
Qed.

(** ** The add-on routes *)

Lemma add_count_max inp : Z.of_nat (App.add_count inp) = Z.max 1 (qty inp).
Proof. unfold App.add_count. case_decide; lia. Qed.

Lemma iter_add_totals n db iso type base bev choc tot :
  App.build_totals
    (Nat.iter n (λ d, add_till_row d iso "" type base bev choc tot) db) iso
  = Nat.iter n (λ a, totals_step a "" type bev choc tot)
      (App.build_totals db iso).
Proof.
  induction n as [| n IH]; [done |]. simpl.
  by rewrite build_totals_add_same, IH.
Qed.

Lemma iter_add_on (a : add_on) n type bev choc t pc :
  (a, type) ∈ [(Sandwich, "Sandwich"); (Beverage, "Boisson");
               (Chocolate, "Chocolat")] →
  ∃ t', Nat.iter n (λ acc, totals_step acc "" type bev choc (add_on_price a))
          (t, pc) = (t', pc)
        ∧ add_on_counter a t' = add_on_counter a t + Z.of_nat n
        ∧ amount t' = amount t + add_on_price a * Z.of_nat n
        ∧ menus t' = menus t ∧ eleves t' = eleves t ∧ profs t' = profs t
        ∧ ∀ b, b ≠ a → add_on_counter b t' = add_on_counter b t.
Proof.
  intros Hin.
  apply elem_of_cons in Hin as [[= -> ->] | Hin];
    [| apply elem_of_cons in Hin as [[= -> ->] | Hin];
       [| apply elem_of_cons in Hin as [[= -> ->] | Hin];
          [| by apply elem_of_nil in Hin]]];
    (induction n as [| n (t' & Hi & Hc & Ha & Hm & He & Hp & Ho)];
     [ exists t; simpl; repeat split; try lia; done
     | rewrite Nat.iter_succ, Hi; eexists; split; [reflexivity |];
       unfold add_on_price, PRICE_SANDWICH, PRICE_BOISSON, PRICE_CHOCOLAT
         in *;
       cbn [add_on_counter add_amount menus eleves profs sandwiches
            beverages chocolates amount] in *;
       repeat split; try lia;
       intros [] Hb; try done;
       cbn [add_on_counter add_amount menus eleves profs sandwiches
            beverages chocolates amount];
       apply (Ho _ Hb) ]).
Qed.

(** X5: an add-on route that succeeds writes [max(1, qty)] rows, so a
    quantity of zero or below still sells one item; for the date, the
    counter of the item grows by that number and the amount by that
    number of unit prices, while the other counters, the menus and the
    waiting list stay as they were, and no reservation is touched. *)
Theorem add_on_sells_at_least_one (env : Env) (db db' : DB) (inp : QtyIn)
    (out : CaisseOut) (a : add_on) :
  add_on_route a env db inp = Ok (db', out) →
  let iso := effective_date env (qty_dateIso inp) in
  let n := Z.max 1 (qty inp) in
  let t := (App.build_totals db iso).1 in
  let t' := (App.build_totals db' iso).1 in
  Z.of_nat (length (till db')) = Z.of_nat (length (till db)) + n
  ∧ add_on_counter a t' = add_on_counter a t + n
  ∧ amount t' = amount t + add_on_price a * n
  ∧ (∀ b, b ≠ a → add_on_counter b t' = add_on_counter b t)
  ∧ menus t' = menus t ∧ eleves t' = eleves t ∧ profs t' = profs t
  ∧ remaining_queue db' iso = remaining_queue db iso
  ∧ reservations db' = reservations db.
Proof.
  intros Hres iso n t t'.
  assert (∃ type base bev choc,
            App.api_add env db inp type base bev choc (add_on_price a)
            = Ok (db', out)
            ∧ (a, type) ∈ [(Sandwich, "Sandwich"); (Beverage, "Boisson");
                           (Chocolate, "Chocolat")])
    as (type & base & bev & choc & Hadd & Hin).
  { destruct a; simpl in Hres.
    - exists "Sandwich", PRICE_SANDWICH, 0, 0. split; [done |]. set_solver.
    - exists "Boisson", 0, PRICE_BOISSON, 0. split; [done |]. set_solver.
    - exists "Chocolat", 0, 0, PRICE_CHOCOLAT. split; [done |]. set_solver. }
  apply app_add_Ok in Hadd as [_ Hdb]. fold iso in Hdb.
  destruct (iter_add_till (App.add_count inp) db iso type base bev choc
              (add_on_price a))
    as (_ & Hr & extra & Ht & Hl & _).
  rewrite <- Hdb in Hr, Ht.
  pose proof (iter_add_totals (App.add_count inp) db iso type base bev choc
                (add_on_price a)) as Htot.
  rewrite <- Hdb in Htot.
  destruct (App.build_totals db iso) as [t0 pc] eqn:Hb0.
  destruct (iter_add_on a (App.add_count inp) type bev choc t0 pc Hin)
    as (t1 & Hi & Hc & Ha & Hm & He & Hp & Ho).
  rewrite Hi in Htot.
  assert (Ht' : t' = t1) by (unfold t'; by rewrite Htot).
  assert (Ht0 : t = t0) by done.
  rewrite Ht', Ht0. unfold n. rewrite <- add_count_max.
  split; [rewrite Ht, length_app; lia |].
  do 6 (split; [done |]). split; [| done].
  unfold remaining_queue, App.ordered. by rewrite Htot, Hb0, Hr.
Qed.

(** A quantity of zero sells one sandwich on the open Monday. *)
Lemma add_on_sells_at_least_one_witness :
  add_on_route Sandwich env_15_march db_open_monday
    {| qty := 0; qty_dateIso := Some "2025-03-17" |}
  = Ok (no_quantity_sandwich,
        App.api_caisse env_15_march no_quantity_sandwich (Some "2025-03-17"))
  ∧ Z.of_nat (length (till no_quantity_sandwich))
    = Z.of_nat (length (till db_open_monday)) + 1.
Proof.
  assert (H : add_on_route Sandwich env_15_march db_open_monday
                {| qty := 0; qty_dateIso := Some "2025-03-17" |}
              = Ok (no_quantity_sandwich,
                    App.api_caisse env_15_march no_quantity_sandwich
                      (Some "2025-03-17")))
    by (vm_compute; reflexivity).
  split; [exact H |].
  exact (proj1 (add_on_sells_at_least_one env_15_march db_open_monday
                  no_quantity_sandwich _ _ Sandwich H)).
Defined.

(** ** One date at a time *)

Lemma is_closed_till_of db iso :
  App.is_closed db iso
  = bool_decide
      (head (filter (λ r, TillRow.type r = "Closed") (App.till_of db iso))
       ≠ None).
Proof.
  unfold App.is_closed, App.till_of. rewrite list_filter_filter.
  by rewrite (list_filter_iff
                (λ r, TillRow.date_iso r = iso ∧ TillRow.type r = "Closed")
                (λ r, TillRow.type r = "Closed" ∧ TillRow.date_iso r = iso))
    by (intros r; tauto).
Qed.

Lemma api_caisse_local env db db' date :
  App.till_of db' (App.caisse_date env date)
  = App.till_of db (App.caisse_date env date) →
  live_reservations db' (App.caisse_date env date)
  = live_reservations db (App.caisse_date env date) →
  App.api_caisse env db' date = App.api_caisse env db date.
Proof.
  intros Ht Hl. unfold App.api_caisse.
  rewrite !is_closed_till_of, Ht.
  unfold App.build_totals, App.ordered, live_reservations in *.
  by rewrite Ht, Hl.
Qed.

Lemma sorted_keys_inj (l : list Reservation.t) x y :
  StronglySorted Z.lt (Reservation.id <$> l) →
  x ∈ l → y ∈ l → Reservation.id x = Reservation.id y → x = y.
Proof.
  induction l as [| a l IH]; simpl; intros Hs Hx Hy Hid.
  - by apply elem_of_nil in Hx.
  - apply StronglySorted_inv in Hs as [Hl Ha].
    rewrite Forall_fmap, Forall_forall in Ha.
    apply elem_of_cons in Hx as [-> | Hx];
      apply elem_of_cons in Hy as [-> | Hy]; [done | | | by apply IH].
    + specialize (Ha _ Hy). simpl in Ha. lia.
    + specialize (Ha _ Hx). simpl in Ha. lia.
Qed.

Lemma filter_all {A} (P : A → Prop) `{∀ x, Decision (P x)} (l : list A) :
  Forall P l → filter P l = l.
Proof.
  induction 1 as [| x l Hx _ IH]; [done |].
  by rewrite filter_cons, decide_True, IH.
Qed.

Lemma first_match_elem target rows r :
  App.first_match target rows = Some r → r ∈ rows.
Proof.
  induction rows as [| a rows IH]; simpl; [done |].
  case_decide; [intros [= ->]; left | right; by apply IH].
Qed.

Lemma step_leaves_other_dates env db req d :
  keys_ascending db →
  request_date env req ≠ Some d →
  App.till_of (App.step env db req) d = App.till_of db d
  ∧ live_reservations (App.step env db req) d = live_reservations db d.
Proof.
  intros Hk Hd.
  assert (Hadd : ∀ inp type base bev choc tot,
            effective_date env (qty_dateIso inp) ≠ d →
            App.till_of
              (App.after db (App.api_add env db inp type base bev choc tot)) d
            = App.till_of db d
            ∧ live_reservations
                (App.after db (App.api_add env db inp type base bev choc tot))
                d
              = live_reservations db d).
  { intros inp type base bev choc tot Hne. route_result Hres; [| done].
    apply app_add_Ok in Hres as [_ ->].
    destruct (iter_add_till (App.add_count inp) db
                (effective_date env (qty_dateIso inp)) type base bev choc tot)
      as (_ & Hr & extra & Ht & _ & Hall).
    unfold App.till_of, live_reservations. rewrite Hr, Ht, filter_app.
    rewrite (filter_none _ extra), app_nil_r; [done |].
    eapply Forall_impl; [exact Hall |]. intros r (Hr' & _). congruence. }
  destruct req as [inp | inp | inp | inp | inp | inp | inp]; simpl in *.
  - route_result Hres; [| done].
    destruct (App.to_iso_any env (reserve_dateStr inp)) as [iso0 | e] eqn:Hiso;
      [| by unfold App.api_reserve in Hres; rewrite Hiso in Hres].
    destruct (app_reserve_Ok env db inp iso0 _ _ Hiso Hres) as (_ & _ & ->).
    split; [done |]. apply live_after_add_other. congruence.
  - route_result Hres; [| done].
    destruct (App.to_iso_any env (unreserve_dateStr inp)) as [iso0 | e]
      eqn:Hiso;
      [| by unfold App.api_unreserve in Hres; rewrite Hiso in Hres].
    rewrite (app_unreserve_cases env db inp iso0 Hiso) in Hres.
    destruct (App.first_match _ _) as [hit |] eqn:Hm; [| done].
    injection Hres as <- _. split; [done |].
    rewrite live_after_delete. apply first_match_elem in Hm.
    unfold live_reservations in *.
    apply list_elem_of_filter in Hm as [Hdate Hin].
    apply filter_all. apply Forall_forall. intros x Hx Heq.
    apply list_elem_of_filter in Hx as [Hxd Hxin].
    apply (sorted_keys_inj _ _ _ Hk Hxin Hin) in Heq. congruence.
  - route_result Hres; [| done].
    apply app_checkout_Ok in Hres as (_ & _ & row & Ht & Hrd & _ & Hr & _).
    unfold App.till_of, live_reservations. rewrite Hr, Ht, filter_app.
    rewrite (filter_cons _ row), decide_False, filter_nil, app_nil_r;
      [done | congruence].
  - apply Hadd. congruence.
  - apply Hadd. congruence.
  - apply Hadd. congruence.
  - split; [| done]. unfold App.api_close.
    fold (effective_date env (close_dateIso inp)).
    destruct (till_of_add db d (effective_date env (close_dateIso inp)) ""
                "Closed" 0 0 0 0) as (row & _ & _ & _ & _ & _ & _ & _ & _ & ->).
    rewrite decide_False by congruence. apply app_nil_r.
Qed.

(** X6: a run of requests none of which works on the date [d] leaves the
    till rows and the reservations of [d] as they were, so the till shows
    for [d] what it showed before: requests for one date never change what
    is counted, queued or closed for another.  The primary keys of the
    reservations are taken to be unique, as the sequence makes them. *)
Theorem run_leaves_other_dates (db : DB) (reqs : list (Env * App.request))
    (d : string) :
  keys_ascending db →
  Forall (λ er, request_date er.1 er.2 ≠ Some d) reqs →
  App.till_of (App.run db reqs) d = App.till_of db d
  ∧ live_reservations (App.run db reqs) d = live_reservations db d
  ∧ ∀ env date,
      App.caisse_date env date = d →
      App.api_caisse env (App.run db reqs) date = App.api_caisse env db date.
Proof.
  intros Hk Hall.
  assert (Hrun : App.till_of (App.run db reqs) d = App.till_of db d
                 ∧ live_reservations (App.run db reqs) d
                   = live_reservations db d).
  { revert db Hk. induction Hall as [| [env req] reqs Hd _ IH]; intros db Hk;
      [done |]. simpl in *.
    destruct (step_leaves_other_dates env db req d Hk Hd) as [Ht Hl].
    destruct (IH (App.step env db req)) as [Ht' Hl'];
      [by apply step_keeps_keys_ascending |].
    fold (App.run (App.step env db req) reqs) in *.
    split; congruence. }
  destruct Hrun as [Ht Hl]. split; [done |]. split; [done |].
  intros env date <-. by apply api_caisse_local.
Qed.

(** A registration and a sale for Monday leave Tuesday as it was. *)
Lemma run_leaves_other_dates_witness :
  App.till_of
    (App.run db_open_monday
       [ (env_15_march, reserve_monday "Ada");
         (env_15_march, checkout_monday "Ada" "PROF") ]) "2025-03-18"
  = App.till_of db_open_monday "2025-03-18".
Proof.
  refine (proj1 (run_leaves_other_dates db_open_monday _ "2025-03-18" _ _)).
  - unfold keys_ascending. simpl. constructor.
  - repeat constructor; vm_compute; discriminate.
Defined.

(** ** The amount in the till *)

Lemma row_step_amount acc r :
  priced r →
  extras_amount acc.1 ≤ amount acc.1
                      ≤ extras_amount acc.1 + meals_amount acc.1 →
  let t' := (App.row_step acc r).1 in
  extras_amount t' ≤ amount t' ≤ extras_amount t' + meals_amount t'.
Proof.
  destruct acc as [t pc].
  unfold priced, App.row_step, totals_step, extras_amount, meals_amount,
    PRICE_ELEVE, PRICE_PROF, PRICE_SANDWICH, PRICE_BOISSON, PRICE_CHOCOLAT.
  simpl. intros Hp Hacc.
  repeat case_decide; simpl; try lia.
  destruct Hp as (Hb & Hc & Ht).
  destruct (Py.contains _ _); destruct Hb as [Hb | Hb];
    destruct Hc as [Hc | Hc]; rewrite Hb, Hc in *; simpl; lia.
Qed.

Lemma fold_amount rows acc :
  Forall priced rows →
  extras_amount acc.1 ≤ amount acc.1
                      ≤ extras_amount acc.1 + meals_amount acc.1 →
  let t' := (fold_left App.row_step rows acc).1 in
  extras_amount t' ≤ amount t' ≤ extras_amount t' + meals_amount t'.
Proof.
  intros Hall. revert acc.
  induction Hall as [| r rows Hr _ IH]; intros acc Hacc; simpl; [done |].
  apply IH. by apply row_step_amount.
Qed.

Lemma step_priced env db req :
  Forall priced (till db) → Forall priced (till (App.step env db req)).
Proof.
  intros Hp.
  assert (Hadd : ∀ inp type base bev choc tot,
            (type, tot) ∈ [("Sandwich", PRICE_SANDWICH);
                           ("Boisson", PRICE_BOISSON);
                           ("Chocolat", PRICE_CHOCOLAT)] →
            Forall priced
              (till (App.after db
                       (App.api_add env db inp type base bev choc tot)))).
  { intros inp type base bev choc tot Hin. route_result Hres; [| done].
    apply app_add_Ok in Hres as [_ ->].
    destruct (iter_add_till (App.add_count inp) db
                (effective_date env (qty_dateIso inp)) type base bev choc tot)
      as (_ & _ & extra & -> & _ & Hall).
    apply Forall_app. split; [done |].
    eapply Forall_impl; [exact Hall |].
    intros r (_ & Hty & _ & _ & _ & Htot). unfold priced. rewrite Hty, Htot.
    repeat (apply elem_of_cons in Hin as [[= -> ->] | Hin]; [done |]).
    by apply elem_of_nil in Hin. }
  destruct req as [inp | inp | inp | inp | inp | inp | inp]; simpl.
  - route_result Hres; [| done]. unfold App.api_reserve in Hres.
    destruct (App.to_iso_any env _); simpl in Hres; [| done].
    repeat case_decide; try done. by injection Hres as <- _.
  - route_result Hres; [| done]. unfold App.api_unreserve in Hres.
    destruct (App.to_iso_any env _); simpl in Hres; [| done].
    destruct (App.first_match _ _); [| done]. by injection Hres as <- _.
  - route_result Hres; [| done].
    apply app_checkout_row in Hres
      as (label & base & bev & choc & tot & -> & _ & Hm & Hbase & Hb & Hc
          & Ht).
    simpl. apply Forall_app. split; [done |]. constructor; [| done].
    unfold priced, is_meal, PRICE_ELEVE, PRICE_PROF, PRICE_BOISSON,
      PRICE_CHOCOLAT in *. simpl.
    rewrite !decide_False by tauto.
    destruct Hbase as [[-> ->] | [-> ->]]; tauto.
  - apply Hadd. set_solver.
  - apply Hadd. set_solver.
  - apply Hadd. set_solver.
  - apply Forall_app. split; [done |]. by constructor.
Qed.

(** X7: in a store whose till rows are priced as the routes price them,
    and after any run of requests on it, the amount counted for a date
    lies between the price of the add-ons, beverages and chocolates
    counted (every meal paid by card) and that price plus the price of
    the meals counted (every meal paid in cash). *)
Theorem amount_between_card_and_cash (db : DB)
    (reqs : list (Env * App.request)) (iso : string) :
  Forall priced (till db) →
  let t := (App.build_totals (App.run db reqs) iso).1 in
  extras_amount t ≤ amount t ≤ extras_amount t + meals_amount t.
Proof.
  intros Hp.
  assert (Hrun : Forall priced (till (App.run db reqs))).
  { revert db Hp. induction reqs as [| [env req] reqs IH]; intros db Hp;
      [done |].
    simpl. apply IH. by apply step_priced. }
  unfold App.build_totals. apply fold_amount; [| done].
  unfold App.till_of. rewrite Forall_forall in Hrun |- *.
  intros r Hr. apply list_elem_of_filter in Hr as [_ Hr]. by apply Hrun.
Qed.

(** One student served in cash on the open Monday: 8.00 lies between 0
    and 8.00. *)
Lemma amount_between_card_and_cash_witness :
  0 ≤ amount (App.build_totals john_served "2025-03-17").1 ≤ 800.
Proof.
  exact (amount_between_card_and_cash john_registered
           [(env_15_march, checkout_monday "john smith" "ELEVE")]
           "2025-03-17" (Forall_nil_2 priced)).
Defined.

(** ** The key of a name *)

Lemma isspace_upper c : Py.isspace (Py.upper_char c) = Py.isspace c.
Proof. by destruct c as [[] [] [] [] [] [] [] []]. Qed.

Lemma upper_char_idem c : Py.upper_char (Py.upper_char c) = Py.upper_char c.
Proof. by destruct c as [[] [] [] [] [] [] [] []]. Qed.

Lemma upper_lower_char c : Py.upper_char (Py.lower_char c) = Py.upper_char c.
Proof. by destruct c as [[] [] [] [] [] [] [] []]. Qed.

Lemma upper_idem s : Py.upper (Py.upper s) = Py.upper s.
Proof.
  unfold Py.upper. induction s as [| c r IH]; simpl; [done |].
  by rewrite upper_char_idem, IH.
Qed.

Lemma upper_lower s : Py.upper (Py.lower s) = Py.upper s.
Proof.
  unfold Py.upper, Py.lower. induction s as [| c r IH]; simpl; [done |].
  by rewrite upper_lower_char, IH.
Qed.

Lemma split_lstrip s : Py.split (Py.lstrip s) = Py.split s.
Proof.
  unfold Py.split. induction s as [| c r IH]; simpl; [done |].
  destruct (Py.isspace c) eqn:Hc; [done |]. simpl. by rewrite Hc.
Qed.

Lemma split_go_rstrip cur s :
  Py.split_go cur (Py.rstrip s) = Py.split_go cur s.
Proof.
  revert cur. induction s as [| c r IH]; intros cur; [done |].
  change (Py.rstrip (String c r))
    with (match Py.rstrip r with
          | EmptyString =>
              if Py.isspace c then EmptyString else String c EmptyString
          | r' => String c r'
          end).
  destruct (Py.rstrip r) as [| c' r'] eqn:Hr.
  - destruct (Py.isspace c) eqn:Hc; simpl; rewrite Hc, <- IH; [| done].
    by destruct cur.
  - simpl. destruct (Py.isspace c); rewrite <- !IH; done.
Qed.

Lemma split_strip s : Py.split (Py.strip s) = Py.split s.
Proof.
  unfold Py.strip, Py.split at 1. rewrite split_go_rstrip.
  apply split_lstrip.
Qed.

Lemma map_chars_of_list f l :
  Py.map_chars f (string_of_list_ascii l) = string_of_list_ascii (map f l).
Proof. induction l as [| c l IH]; simpl; [done |]. by rewrite IH. Qed.

Lemma split_go_upper cur s :
  Py.split_go (map Py.upper_char cur) (Py.upper s)
  = Py.upper <$> Py.split_go cur s.
Proof.
  assert (Hw : ∀ l, string_of_list_ascii (rev (map Py.upper_char l))
                    = Py.upper (string_of_list_ascii (rev l))).
  { intros l. unfold Py.upper. by rewrite map_chars_of_list, map_rev. }
  revert cur. induction s as [| c r IH]; intros cur.
  - destruct cur as [| a cur]; [done |]. simpl Py.split_go.
    change (string_of_list_ascii
              (rev (map Py.upper_char cur) ++ [Py.upper_char a]))
      with (string_of_list_ascii (rev (map Py.upper_char (a :: cur)))).
    by rewrite Hw.
  - change (Py.upper (String c r))
      with (String (Py.upper_char c) (Py.upper r)).
    simpl Py.split_go. rewrite isspace_upper.
    destruct (Py.isspace c).
    + destruct cur as [| a cur]; [apply (IH []) |].
      change (map Py.upper_char (a :: cur))
        with (Py.upper_char a :: map Py.upper_char cur).
      cbv iota.
      change (Py.split_go [] (Py.upper r))
        with (Py.split_go (map Py.upper_char []) (Py.upper r)).
      rewrite (IH []).
      change (Py.upper_char a :: map Py.upper_char cur)
        with (map Py.upper_char (a :: cur)).
      by rewrite Hw.
    + apply (IH (c :: cur)).
Qed.

Lemma split_upper s : Py.split (Py.upper s) = Py.upper <$> Py.split s.
Proof. apply (split_go_upper []). Qed.

Lemma of_list_not_empty (l : list ascii) :
  l ≠ [] → string_of_list_ascii l ≠ "".
Proof. by destruct l. Qed.

Lemma all_chars_of_list p l :
  all_chars p (string_of_list_ascii l) = forallb p l.
Proof. induction l as [| c l IH]; simpl; [done |]. by rewrite IH. Qed.

Lemma split_go_words cur s :
  forallb (λ c, negb (Py.isspace c)) cur = true →
  Forall is_word (Py.split_go cur s).
Proof.
  assert (Hw : ∀ l, l ≠ [] →
                 forallb (λ c, negb (Py.isspace c)) l = true →
                 is_word (string_of_list_ascii (rev l))).
  { intros l Hl Hall. split.
    - apply of_list_not_empty. intros He. apply Hl.
      by rewrite <- (rev_involutive l), He.
    - rewrite all_chars_of_list. rewrite forallb_forall in *.
      intros x Hx. apply Hall. by apply in_rev. }
  revert cur. induction s as [| c r IH]; intros cur Hcur; simpl.
  - destruct cur as [| a cur]; [constructor |].
    constructor; [| constructor]. by apply (Hw (a :: cur)).
  - destruct (Py.isspace c) eqn:Hc.
    + destruct cur as [| a cur]; [by apply IH |].
      constructor; [by apply (Hw (a :: cur)) | by apply IH].
    + apply IH. simpl. by rewrite Hc.
Qed.

Lemma split_go_field cur w rest :
  all_chars (λ c, negb (Py.isspace c)) w = true →
  Py.split_go cur (String.append w rest)
  = Py.split_go (rev (list_ascii_of_string w) ++ cur) rest.
Proof.
  revert cur. induction w as [| c w IH]; intros cur; [done |].
  simpl all_chars. rewrite andb_true_iff, negb_true_iff. intros [Hc Hw].
  rewrite append_String. simpl Py.split_go. rewrite Hc, (IH _ Hw).
  simpl. by rewrite <- app_assoc.
Qed.

Lemma split_go_one w :
  is_word w → Py.split_go [] w = [w].
Proof.
  intros [Hne Hw]. rewrite <- (append_empty_r w) at 1.
  rewrite (split_go_field [] w "" Hw), app_nil_r. simpl.
  rewrite rev_involutive, string_of_list_ascii_of_string.
  destruct (rev (list_ascii_of_string w)) as [| a l] eqn:Hr; [| done].
  exfalso. apply Hne.
  rewrite <- (string_of_list_ascii_of_string w),
    <- (rev_involutive (list_ascii_of_string w)), Hr. done.
Qed.

Lemma split_join ws :
  Forall is_word ws → Py.split (Py.join " " ws) = ws.
Proof.
  unfold Py.split. induction 1 as [| w ws Hw Hall IH]; [done |].
  destruct ws as [| v ws]; [by apply split_go_one |].
  change (Py.join " " (w :: v :: ws))
    with (String.append w (String.append " " (Py.join " " (v :: ws)))).
  destruct Hw as [Hne Hw].
  rewrite (split_go_field [] w _ Hw), app_nil_r.
  change (String.append " " (Py.join " " (v :: ws)))
    with (String " " (Py.join " " (v :: ws))).
  set (j := Py.join " " (v :: ws)) in *.
  simpl Py.split_go. rewrite IH.
  destruct (rev (list_ascii_of_string w)) as [| a l] eqn:Hr.
  - exfalso. apply Hne.
    rewrite <- (string_of_list_ascii_of_string w),
      <- (rev_involutive (list_ascii_of_string w)), Hr. done.
  - rewrite <- Hr, rev_involutive, string_of_list_ascii_of_string. done.
Qed.

Lemma upper_words ws :
  Forall is_word ws → Forall is_word (Py.upper <$> ws).
Proof.
  intros Hall. apply Forall_fmap. eapply Forall_impl; [exact Hall |].
  intros w [Hne Hw]. split.
  - by destruct w.
  - unfold Py.upper. clear Hne. induction w as [| c r IH]; [done |].
    simpl in *. apply andb_true_iff in Hw as [Hc Hr].
    by rewrite isspace_upper, Hc, IH.
Qed.

Lemma norm_name_words s :
  norm_name s = Py.join " " (Py.upper <$> Py.split s).
Proof. unfold norm_name. by rewrite split_upper, split_strip. Qed.

Lemma split_norm_name s :
  Py.split (norm_name s) = Py.upper <$> Py.split s.
Proof.
  rewrite norm_name_words. apply split_join, upper_words.
  by apply (split_go_words []).
Qed.

(** X8: the key of a name is its words in upper case joined by single
    spaces; taking the key again changes nothing, and neither does
    stripping the name or changing its case beforehand. *)
Theorem norm_name_idempotent (s : string) :
  norm_name s = Py.join " " (Py.upper <$> Py.split s)
  ∧ norm_name (norm_name s) = norm_name s
  ∧ norm_name (Py.strip s) = norm_name s
  ∧ norm_name (Py.upper s) = norm_name s
  ∧ norm_name (Py.lower s) = norm_name s.
Proof.
  split; [apply norm_name_words |].
  assert (Hup : ∀ ws : list string,
            Py.upper <$> (Py.upper <$> ws) = Py.upper <$> ws).
  { intros ws. rewrite <- list_fmap_compose. apply list_fmap_ext.
    intros _ w _. apply upper_idem. }
  split; [| split; [| split]].
  - rewrite (norm_name_words (norm_name s)), split_norm_name, Hup.
    symmetry. apply norm_name_words.
  - by rewrite !norm_name_words, split_strip.
  - by rewrite !norm_name_words, split_upper, Hup.
  - rewrite !norm_name_words, <- !split_upper. by rewrite upper_lower.
Qed.

(** X9: two names have the same key exactly when they have the same words
    up to case, whatever whitespace surrounds or separates the words. *)
Theorem same_key_iff_same_words (a b : string) :
  norm_name a = norm_name b
  ↔ Py.upper <$> Py.split a = Py.upper <$> Py.split b.
Proof.
  split.
  - intros H. by rewrite <- !split_norm_name, H.
  - intros H. by rewrite !norm_name_words, H.
Qed.

(** ** Dates from ordinals *)

Lemma days_before_year_decomp q n100 n4 n1 :
  0 ≤ n100 ≤ 3 → 0 ≤ n4 ≤ 24 → 0 ≤ n1 ≤ 3 →
  Datetime.days_before_year (400 * q + 100 * n100 + 4 * n4 + n1 + 1)
  = 146097 * q + 36524 * n100 + 1461 * n4 + 365 * n1.
Proof.
  intros H100 H4 H1. unfold Datetime.days_before_year.
  cbv zeta. Z.div_mod_to_equations. lia.
Qed.

Lemma is_leap_decomp q n100 n4 n1 :
  0 ≤ n100 ≤ 3 → 0 ≤ n4 ≤ 24 → 0 ≤ n1 ≤ 3 →
  Datetime.is_leap (400 * q + 100 * n100 + 4 * n4 + n1 + 1)
  = (n1 =? 3) && (negb (n4 =? 24) || (n100 =? 3)).
Proof.
  intros H100 H4 H1. unfold Datetime.is_leap.
  destruct (Z.eqb_spec n1 3), (Z.eqb_spec n4 24), (Z.eqb_spec n100 3);
    simpl;
    repeat match goal with
           | |- context [?a mod ?b =? 0] =>
               destruct (Z.eqb_spec (a mod b) 0)
           end; simpl; try reflexivity; exfalso;
    Z.div_mod_to_equations; lia.
Qed.

Lemma month_of_day y e (L : bool) :
  Datetime.is_leap y = L → 0 ≤ e ≤ 364 →
  let month := Z.shiftr (e + 50) 5 in
  let preceding :=
    nth (Z.to_nat month) DateOrd.DAYS_BEFORE_MONTH 0
    + (if (2 <? month) && L then 1 else 0) in
  let md :=
    if e <? preceding then
      (month - 1,
       e - (preceding
            - (nth (Z.to_nat (month - 1)) DateOrd.DAYS_IN_MONTH 0
               + (if (month - 1 =? 2) && L then 1 else 0))) + 1)
    else (month, e - preceding + 1) in
  1 ≤ md.1 ≤ 12 ∧ 1 ≤ md.2 ≤ Datetime.days_in_month y md.1
  ∧ Datetime.days_before_month y md.1 + md.2 = e + 1.
Proof.
  intros HL He. cbv zeta. rewrite Z.shiftr_div_pow2 by lia.
  change (2 ^ 5) with 32.
  assert (Hm : ∃ k, (e + 50) / 32 = Z.of_nat k ∧ (1 ≤ k ≤ 12)%nat).
  { exists (Z.to_nat ((e + 50) / 32)).
    assert (1 ≤ (e + 50) / 32 ≤ 12) by (Z.div_mod_to_equations; lia).
    split; lia. }
  destruct Hm as (k & Hk & Hk12).
  assert (Hr : 32 * Z.of_nat k ≤ e + 50 < 32 * Z.of_nat k + 32)
    by (rewrite <- Hk; Z.div_mod_to_equations; lia).
  rewrite Hk. clear Hk.
  unfold Datetime.days_in_month, Datetime.days_before_month.
  assert (Hc : (k = 1 ∨ k = 2 ∨ k = 3 ∨ k = 4 ∨ k = 5 ∨ k = 6 ∨ k = 7
                ∨ k = 8 ∨ k = 9 ∨ k = 10 ∨ k = 11 ∨ k = 12)%nat) by lia.
  clear Hk12.
  repeat (destruct Hc as [Hc | Hc]); subst k;
    destruct L; rewrite ?HL;
    cbn [nth Z.to_nat Z.of_nat DateOrd.DAYS_BEFORE_MONTH
         DateOrd.DAYS_IN_MONTH];
    simpl;
    match goal with
    | |- context [e <? ?p] => destruct (Z.ltb_spec e p)
    end; cbn [fst snd]; simpl; rewrite ?HL; simpl; lia.
Qed.

Lemma ord2ymd_correct n :
  1 ≤ n ≤ 3652059 →
  ∃ y m d,
    DateOrd.ord2ymd n = (y, m, d)
    ∧ Datetime.check_date_fields y m d = true
    ∧ Datetime.ymd2ord y m d = n.
Proof.
  intros Hn. unfold DateOrd.ord2ymd.
  change DateOrd.DI400Y with 146097. change DateOrd.DI100Y with 36524.
  change DateOrd.DI4Y with 1461. cbv zeta.
  pose proof (Z.div_mod (n - 1) 146097 ltac:(lia)) as E400.
  pose proof (Z.mod_pos_bound (n - 1) 146097 ltac:(lia)) as B400.
  set (q := (n - 1) / 146097) in *. set (a := (n - 1) mod 146097) in *.
  pose proof (Z.div_mod a 36524 ltac:(lia)) as E100.
  pose proof (Z.mod_pos_bound a 36524 ltac:(lia)) as B100.
  set (n100 := a / 36524) in *. set (b := a mod 36524) in *.
  pose proof (Z.div_mod b 1461 ltac:(lia)) as E4.
  pose proof (Z.mod_pos_bound b 1461 ltac:(lia)) as B4.
  set (n4 := b / 1461) in *. set (c := b mod 1461) in *.
  pose proof (Z.div_mod c 365 ltac:(lia)) as E1.
  pose proof (Z.mod_pos_bound c 365 ltac:(lia)) as B1.
  set (n1 := c / 365) in *. set (e := c mod 365) in *.
  clearbody q a n100 b n4 c n1 e.
  assert (Hq : 0 ≤ q ≤ 24) by lia.
  assert (H100 : 0 ≤ n100 ≤ 4) by lia.
  assert (H4 : 0 ≤ n4 ≤ 24) by lia.
  assert (H1 : 0 ≤ n1 ≤ 4) by lia.
  assert (Hlast : ∀ k4 k100,
            0 ≤ k100 ≤ 3 → 0 ≤ k4 ≤ 24 → (k4 = 24 → k100 = 3) →
            400 * q + 100 * k100 + 4 * k4 + 3 + 1 ≤ 9999 →
            n = 146097 * q + 36524 * k100 + 1461 * k4 + 1461 →
            Datetime.check_date_fields
              (400 * q + 100 * k100 + 4 * k4 + 3 + 1) 12 31 = true
            ∧ Datetime.ymd2ord (400 * q + 100 * k100 + 4 * k4 + 3 + 1) 12 31
              = n).
  { intros k4 k100 Hk100 Hk4 Hk Hy ->.
    unfold Datetime.check_date_fields, Datetime.ymd2ord,
      Datetime.days_in_month, Datetime.days_before_month.
    rewrite days_before_year_decomp, is_leap_decomp by lia.
    assert (Hl : (3 =? 3) && (negb (k4 =? 24) || (k100 =? 3)) = true).
    { destruct (Z.eqb_spec k4 24), (Z.eqb_spec k100 3); simpl; try done.
      lia. }
    rewrite Hl. simpl. split; [| lia].
    rewrite !andb_true_iff, !Z.leb_le. lia. }
  destruct (Z.eqb_spec n1 4) as [-> | Hn1]; simpl orb.
  { eexists _, _, _. split; [reflexivity |].
    replace (q * 400 + 1 + (n100 * 100 + n4 * 4 + 4) - 1)
      with (400 * q + 100 * n100 + 4 * n4 + 3 + 1) by lia.
    apply Hlast; lia. }
  destruct (Z.eqb_spec n100 4) as [-> | Hn100].
  { eexists _, _, _. split; [reflexivity |].
    replace (q * 400 + 1 + (4 * 100 + n4 * 4 + n1) - 1)
      with (400 * q + 100 * 3 + 4 * 24 + 3 + 1) by lia.
    apply Hlast; lia. }
  set (y := q * 400 + 1 + (n100 * 100 + n4 * 4 + n1)).
  set (L := (n1 =? 3) && (negb (n4 =? 24) || (n100 =? 3))).
  assert (Hy : y = 400 * q + 100 * n100 + 4 * n4 + n1 + 1) by (unfold y; lia).
  assert (HL : Datetime.is_leap y = L)
    by (rewrite Hy; apply is_leap_decomp; lia).
  assert (Hd : Datetime.days_before_year y
               = 146097 * q + 36524 * n100 + 1461 * n4 + 365 * n1)
    by (rewrite Hy; apply days_before_year_decomp; lia).
  assert (Hy9 : 1 ≤ y ≤ 9999) by lia.
  pose proof (month_of_day y e L HL ltac:(lia)) as Hmd. cbv zeta in Hmd.
  match goal with
  | |- context [e <? ?p] => destruct (e <? p)
  end; cbn [fst snd] in Hmd; destruct Hmd as (Hm & Hday & Hsum);
    (eexists _, _, _; split; [reflexivity |]; split;
     [ unfold Datetime.check_date_fields;
       rewrite !andb_true_iff, !Z.leb_le; lia
     | unfold Datetime.ymd2ord; rewrite Hd; lia ]).
Qed.

Lemma fromordinal_toordinal n :
  1 ≤ n ≤ 3652059 →
  ∃ dt, DateOrd.fromordinal n = Some dt
        ∧ Datetime.check_date_fields (Datetime.year dt) (Datetime.month dt)
            (Datetime.day dt) = true
        ∧ Datetime.toordinal dt = n.
Proof.
  intros Hn. destruct (ord2ymd_correct n Hn) as (y & m & d & Ho & Hc & Hy).
  exists {| Datetime.year := y; Datetime.month := m; Datetime.day := d |}.
  unfold DateOrd.fromordinal, Datetime.mk_date. by rewrite Ho, Hc.
Qed.

Lemma days_in_month_range y m :
  1 ≤ m ≤ 12 → 28 ≤ Datetime.days_in_month y m ≤ 31.
Proof.
  intros Hm. unfold Datetime.days_in_month.
  assert (Hc : m = 1 ∨ m = 2 ∨ m = 3 ∨ m = 4 ∨ m = 5 ∨ m = 6 ∨ m = 7
               ∨ m = 8 ∨ m = 9 ∨ m = 10 ∨ m = 11 ∨ m = 12) by lia.
  repeat (destruct Hc as [Hc | Hc]); subst m;
    destruct (Datetime.is_leap y); simpl; lia.
Qed.

Lemma check_date_fields_range y m d :
  Datetime.check_date_fields y m d = true →
  1 ≤ y ≤ 9999 ∧ 1 ≤ m ≤ 12 ∧ 1 ≤ d ≤ 31
  ∧ d ≤ Datetime.days_in_month y m.
Proof.
  unfold Datetime.check_date_fields.
  rewrite !andb_true_iff, !Z.leb_le. intros H.
  pose proof (days_in_month_range y m). lia.
Qed.

Lemma toordinal_positive dt :
  Datetime.check_date_fields (Datetime.year dt) (Datetime.month dt)
    (Datetime.day dt) = true →
  1 ≤ Datetime.toordinal dt.
Proof.
  intros Hc. apply check_date_fields_range in Hc as (Hy & Hm & Hd & _).
  unfold Datetime.toordinal, Datetime.ymd2ord.
  assert (0 ≤ Datetime.days_before_year (Datetime.year dt)).
  { unfold Datetime.days_before_year. cbv zeta.
    Z.div_mod_to_equations. lia. }
  assert (0 ≤ Datetime.days_before_month (Datetime.year dt)
                (Datetime.month dt)).
  { unfold Datetime.days_before_month.
    set (m := Datetime.month dt) in *.
    assert (Hc : m = 1 ∨ m = 2 ∨ m = 3 ∨ m = 4 ∨ m = 5 ∨ m = 6 ∨ m = 7
                 ∨ m = 8 ∨ m = 9 ∨ m = 10 ∨ m = 11 ∨ m = 12) by lia.
    clearbody m.
    repeat (destruct Hc as [Hc | Hc]); subst m;
      destruct (Datetime.is_leap _); simpl; lia. }
  lia.
Qed.

Lemma mapping_range day_name :
  0 ≤ default 0 (Initial.mapping !! day_name) ≤ 6.
Proof.
  unfold Initial.mapping. simpl.
  repeat match goal with
         | |- context [<[?k := _]> _ !! day_name] =>
             destruct (decide (day_name = k)) as [-> | ?];
             [ by vm_compute | rewrite lookup_insert_ne by done ]
         end.
  by rewrite lookup_empty.
Qed.

(** X10: for a valid date [today] at least a week before the last date the
    calendar holds, [next_weekday_str] gives the display form of a valid
    date one to seven days after [today] whose weekday is the one asked
    for, Monday when the day name is unknown; it is never [today] itself;
    and [to_iso_any] reads the text it gives back to that date. *)
Theorem next_weekday_str_within_a_week (today : Datetime.date)
    (day_name : string) :
  Datetime.check_date_fields (Datetime.year today) (Datetime.month today)
    (Datetime.day today) = true →
  Datetime.toordinal today + 7 ≤ 3652059 →
  ∃ dt,
    Initial.next_weekday_str today day_name
    = Ok (display_text (Datetime.year dt) (Datetime.month dt)
            (Datetime.day dt))
    ∧ Datetime.check_date_fields (Datetime.year dt) (Datetime.month dt)
        (Datetime.day dt) = true
    ∧ Datetime.toordinal today < Datetime.toordinal dt
      ≤ Datetime.toordinal today + 7
    ∧ Datetime.weekday dt = default 0 (Initial.mapping !! day_name)
    ∧ ∀ env,
        App.to_iso_any env
          (display_text (Datetime.year dt) (Datetime.month dt)
             (Datetime.day dt))
        = Ok (iso_text (Datetime.year dt) (Datetime.month dt)
                (Datetime.day dt)).
Proof.
  intros Hvalid Hmax. pose proof (toordinal_positive today Hvalid) as Hpos.
  pose proof (mapping_range day_name) as Ht.
  unfold Initial.next_weekday_str. cbv zeta.
  set (target := default 0 (Initial.mapping !! day_name)) in *.
  set (delta := if decide ((target - Datetime.weekday today) mod 7 = 0)
                then 7 else (target - Datetime.weekday today) mod 7).
  assert (Hdelta : 1 ≤ delta ≤ 7
                   ∧ (Datetime.toordinal today + delta + 6) mod 7 = target).
  { unfold delta, Datetime.weekday. case_decide; Z.div_mod_to_equations; lia. }
  destruct Hdelta as [Hd Hw].
  destruct (fromordinal_toordinal (Datetime.toordinal today + delta))
    as (dt & Hfrom & Hc & Hord); [lia |].
  exists dt. rewrite Hfrom. simpl. split; [done |]. split; [done |].
  split; [lia |]. split; [unfold Datetime.weekday; by rewrite Hord |].
  intros env. apply check_date_fields_range in Hc as (Hy & Hm & Hdd & _).
  apply display_round_trip; lia.
Qed.

(** From Monday 17 March 2025 the next Monday is the 24th. *)
Lemma next_weekday_str_within_a_week_witness :
  ∃ dt,
    Initial.next_weekday_str monday_17_march "Lundi"
    = Ok (display_text (Datetime.year dt) (Datetime.month dt)
            (Datetime.day dt))
    ∧ Datetime.toordinal monday_17_march < Datetime.toordinal dt.
Proof.
  destruct (next_weekday_str_within_a_week monday_17_march "Lundi")
    as (dt & Hs & _ & Ho & _).
  - reflexivity.
  - vm_compute. discriminate.
  - exists dt. split; [exact Hs | lia].
Defined.

(** ** The route [/api/initial] *)

Lemma map_loop_lookup rows m m' key :
  Initial.map_loop m rows = Ok m' →
  m' !! key
  = if decide (names_under key rows = []) then m !! key
    else Some (default [] (m !! key) ++ names_under key rows).
Proof.
  revert m. induction rows as [| r rows IH]; intros m; simpl.
  - by intros [= <-].
  - unfold Initial.map_step.
    destruct (App.display_key (Reservation.date_iso r)) as [k | e] eqn:Hk;
      [| done].
    simpl. intros Hloop. rewrite (IH _ Hloop). unfold names_under in *.
    assert (Hr : has_key key r = bool_decide (k = key))
      by (unfold has_key; by rewrite Hk).
    rewrite filter_cons, Hr.
    destruct (decide (k = key)) as [-> | Hne].
    + rewrite bool_decide_eq_true_2 by done.
      rewrite (decide_True (P := true = true)) by done.
      rewrite lookup_insert_eq, fmap_cons. simpl.
      case_decide as He; [by rewrite He |].
      by rewrite <- app_assoc.
    + rewrite bool_decide_eq_false_2 by done.
      rewrite (decide_False (P := false = true)) by done.
      by rewrite lookup_insert_ne.
Qed.

Lemma map_loop_snoc m rows r :
  Initial.map_loop m (rows ++ [r])
  = m' ← Initial.map_loop m rows; Initial.map_step m' r.
Proof.
  revert m. induction rows as [| a rows IH]; intros m; simpl.
  - by destruct (Initial.map_step m r).
  - destruct (Initial.map_step m a) as [m1 | e]; simpl; [apply IH | done].
Qed.

(** X11: when [api_initial] answers, its reservation map holds under each
    key the names of the reservations whose date has that key as display
    form, in storage order, and holds no key without a name. *)
Theorem initial_groups_reservations
    (fromisoformat : string → option Datetime.date)
    (tz_today : Datetime.date) (db : DB) (out : Initial.Out) (key : string) :
  Initial.api_initial fromisoformat tz_today db = Ok out →
  Initial.reservations_map out !! key
  = if decide (names_under key (reservations db) = []) then None
    else Some (names_under key (reservations db)).
Proof.
  unfold Initial.api_initial.
  set (days := Initial.for_each _ Initial.wanted). clearbody days.
  destruct (Initial.map_loop ∅ (reservations db)) as [m | e] eqn:Hm; [| done].
  simpl. destruct days; [| done]. simpl. intros [= <-].
  simpl. rewrite (map_loop_lookup _ _ _ key Hm), lookup_empty. done.
Qed.

(** X12: a registration made under the display form of a date shows up in
    the answer of [api_initial] under that very text, after the names
    already listed there, and changes nothing else of the answer. *)
Theorem reservation_shows_in_initial
    (fromisoformat : string → option Datetime.date)
    (tz_today : Datetime.date) (env : Env) (db db' : DB) (name : string)
    (y m d : Z) (answer : text) (out : Initial.Out) :
  0 ≤ y ≤ 9999 → 0 ≤ m ≤ 99 → 0 ≤ d ≤ 99 →
  App.api_reserve env db
    {| reserve_name := name; reserve_dateStr := display_text y m d |}
  = Ok (db', answer) →
  Initial.api_initial fromisoformat tz_today db = Ok out →
  Initial.api_initial fromisoformat tz_today db'
  = Ok {| Initial.days := Initial.days out;
          Initial.reservations_map :=
            <[display_text y m d :=
                default []
                  (Initial.reservations_map out !! display_text y m d)
                ++ [Py.strip name]]> (Initial.reservations_map out) |}.
Proof.
  intros Hy Hm Hd Hres Hout.
  destruct (display_round_trip env y m d Hy Hm Hd) as (Hiso & _ & Hkey).
  destruct (app_reserve_Ok env db
              {| reserve_name := name; reserve_dateStr := display_text y m d |}
              (iso_text y m d) db' answer Hiso Hres) as (_ & _ & ->).
  unfold Initial.api_initial in *. simpl params. simpl reservations.
  set (days := Initial.for_each _ Initial.wanted) in *. clearbody days.
  rewrite map_loop_snoc.
  destruct (Initial.map_loop ∅ (reservations db)) as [mp | e]; [| done].
  simpl in *. destruct days as [ds | e]; [| done]. simpl in *.
  injection Hout as <-. simpl.
  unfold Initial.map_step. simpl. by rewrite Hkey.
Qed.

Lemma ltb_irrefl s : String.ltb s s = false.
Proof.
  unfold String.ltb. pose proof (String.compare_antisym s s) as H.
  by destruct (String.compare s s).
Qed.

Lemma ltb_trans a b c :
  String.ltb a b = true → String.ltb b c = true → String.ltb a c = true.
Proof.
  unfold String.ltb. intros Hab Hbc.
  assert (Hlt : ∀ x y, String.compare x y = Lt
                       ↔ OrderedTypeEx.String_as_OT.lt x y)
    by apply OrderedTypeEx.String_as_OT.cmp_lt.
  assert (String.compare a b = Lt) as Hab'
    by (by destruct (String.compare a b)).
  assert (String.compare b c = Lt) as Hbc'
    by (by destruct (String.compare b c)).
  apply Hlt in Hab', Hbc'.
  pose proof (OrderedTypeEx.String_as_OT.lt_trans _ _ _ Hab' Hbc') as Hac.
  apply Hlt in Hac. by rewrite Hac.
Qed.

Lemma insert_by_str_elem {A} (key : A → string) x l x' :
  x' ∈ Initial.insert_by_str key x l ↔ x' = x ∨ x' ∈ l.
Proof.
  induction l as [| y l IH]; simpl; [apply elem_of_cons |].
  destruct (String.ltb (key x) (key y)); [apply elem_of_cons |].
  rewrite !elem_of_cons, IH. tauto.
Qed.

Lemma elem_of_rev' {A} (l : list A) x : x ∈ rev l ↔ x ∈ l.
Proof. rewrite !list_elem_of_In. symmetry. apply in_rev. Qed.

Lemma foldr_insert_elem {A} (key : A → string) r x :
  x ∈ foldr (Initial.insert_by_str key) [] r ↔ x ∈ r.
Proof.
  induction r as [| y r IH]; simpl; [done |].
  by rewrite insert_by_str_elem, IH, elem_of_cons.
Qed.

Lemma sort_by_str_elem {A} (key : A → string) l x :
  x ∈ Initial.sort_by_str key l ↔ x ∈ l.
Proof.
  unfold Initial.sort_by_str. by rewrite foldr_insert_elem, elem_of_rev'.
Qed.

Lemma insert_by_str_head {A} (key : A → string) x l :
  match l with
  | [] => True
  | e :: _ => ∀ y, y ∈ l → String.ltb (key y) (key e) = false
  end →
  match Initial.insert_by_str key x l with
  | [] => False
  | e :: _ =>
      ∀ y, y ∈ x :: l → String.ltb (key y) (key e) = false
  end.
Proof.
  destruct l as [| e l]; simpl.
  - intros _ y Hy. apply list_elem_of_singleton in Hy as ->.
    apply ltb_irrefl.
  - intros Hmin. destruct (String.ltb (key x) (key e)) eqn:Hxe.
    + intros y Hy. apply elem_of_cons in Hy as [-> | Hy];
        [apply ltb_irrefl |].
      destruct (String.ltb (key y) (key x)) eqn:Hyx; [| done].
      by rewrite <- (Hmin y Hy), (ltb_trans _ _ _ Hyx Hxe).
    + intros y Hy. apply elem_of_cons in Hy as [-> | Hy]; [done |].
      by apply Hmin.
Qed.

Lemma foldr_insert_head {A} (key : A → string) r :
  match foldr (Initial.insert_by_str key) [] r with
  | [] => r = []
  | e :: _ => ∀ y, y ∈ r → String.ltb (key y) (key e) = false
  end.
Proof.
  induction r as [| x r IH]; simpl; [done |].
  pose proof (insert_by_str_head key x
                (foldr (Initial.insert_by_str key) [] r)) as Hh.
  assert (Hpre : match foldr (Initial.insert_by_str key) [] r with
                 | [] => True
                 | e :: _ =>
                     ∀ y, y ∈ foldr (Initial.insert_by_str key) [] r →
                          String.ltb (key y) (key e) = false
                 end).
  { destruct (foldr _ _ r) as [| e0 r0] eqn:Hf; [done |].
    intros y Hy. apply IH. apply (foldr_insert_elem key). by rewrite Hf. }
  specialize (Hh Hpre).
  destruct (Initial.insert_by_str key x _) as [| e rest]; [done |].
  intros y Hy. apply Hh.
  apply elem_of_cons in Hy as [-> | Hy]; [left | right].
  by apply foldr_insert_elem.
Qed.

Lemma sort_by_str_head {A} (key : A → string) l e rest :
  Initial.sort_by_str key l = e :: rest →
  e ∈ l ∧ ∀ y, y ∈ l → String.ltb (key y) (key e) = false.
Proof.
  intros Hs. split.
  - apply (sort_by_str_elem key). rewrite Hs. left.
  - pose proof (foldr_insert_head key (rev l)) as Hh.
    unfold Initial.sort_by_str in Hs. rewrite Hs in Hh.
    intros y Hy. apply Hh. by apply elem_of_rev'.
Qed.

Lemma candidates_elem fromisoformat tz_today day_name rows cs :
  Initial.candidates fromisoformat tz_today day_name rows = Ok cs →
  ∀ r, r ∈ cs ↔ r ∈ rows ∧ upcoming fromisoformat tz_today day_name r.
Proof.
  revert cs. induction rows as [| a rows IH]; intros cs; simpl.
  - intros [= <-] r.
    split; [intros H | intros [H _]]; by apply elem_of_nil in H.
  - destruct (Initial.is_candidate _ _ _ a) as [keep | e] eqn:Ha; [| done].
    simpl.
    destruct (Initial.candidates _ _ _ rows) as [cs' | e]; [| done].
    simpl. intros [= <-] r. specialize (IH cs' eq_refl r).
    assert (Hkeep : keep = true ↔ upcoming fromisoformat tz_today day_name a).
    { unfold Initial.is_candidate, upcoming in *.
      case_decide as Hj; [| split; [by injection Ha as <- | tauto]].
      destruct (ParamRow.open a);
        [| split; [by injection Ha as <- | by intros (_ & ? & _)]].
      destruct (fromisoformat (ParamRow.date_iso a)) as [d |]; [| done].
      simpl in Ha. injection Ha as <-. split.
      - intros Hd. split; [done |]. split; [done |]. by exists d.
      - by intros (_ & _ & d' & [= <-] & Hd). }
    destruct keep.
    + rewrite !elem_of_cons, IH. split.
      * intros [-> | [? ?]]; [split; [by left | by apply Hkeep] |].
        split; [by right | done].
      * intros [[-> | ?] ?]; [by left | by right].
    + rewrite elem_of_cons, IH. split; [intros [? ?]; split; [by right | done] |].
      intros [[-> | ?] Hu]; [| done].
      apply Hkeep in Hu. done.
Qed.

Lemma for_each_Forall2 {A B} (f : A → result B) l ys :
  Initial.for_each f l = Ok ys → Forall2 (λ x y, f x = Ok y) l ys.
Proof.
  revert ys. induction l as [| x l IH]; intros ys; simpl.
  - intros [= <-]. constructor.
  - destruct (f x) as [y | e] eqn:Hx; [| done]. simpl.
    destruct (Initial.for_each f l) as [ys' | e]; [| done]. simpl.
    intros [= <-]. constructor; [done | by apply IH].
Qed.

(** X13: when [api_initial] answers, it answers with one day for each of
    Lundi, Mardi, Jeudi and Vendredi, in that order.  A day shown open is
    an entry of the schedule with that day name, open, dated today or
    later, and no such entry has a date text before its own; it carries
    the display form of that date and the menu and the flag of the
    entry.  A day shown closed has no such entry, and carries the date
    [next_weekday_str] gives, an empty menu and no flag. *)
Theorem initial_shows_first_open
    (fromisoformat : string → option Datetime.date)
    (tz_today : Datetime.date) (db : DB) (out : Initial.Out) :
  Initial.api_initial fromisoformat tz_today db = Ok out →
  Forall2 (shows_first_open fromisoformat tz_today db)
    ["Lundi"; "Mardi"; "Jeudi"; "Vendredi"] (Initial.days out).
Proof.
  unfold Initial.api_initial. intros Hout.
  destruct (Initial.map_loop ∅ (reservations db)) as [mp | e]; [| done].
  set (rows := Initial.sort_by_str ParamRow.date_iso (params db)) in *.
  destruct (Initial.for_each (Initial.first_open_for fromisoformat tz_today
                                rows) Initial.wanted)
    as [ds | e] eqn:Hds; [| done].
  assert (Hd : Initial.days out = ds) by (by injection Hout as <-).
  rewrite Hd. apply for_each_Forall2 in Hds.
  eapply Forall2_impl; [exact Hds |].
  intros day_name day Hday. unfold Initial.first_open_for in Hday.
  destruct (Initial.candidates fromisoformat tz_today day_name rows)
    as [cs | e] eqn:Hcs; [| done].
  simpl in Hday.
  pose proof (candidates_elem _ _ _ _ _ Hcs) as Hin.
  assert (Hrows : ∀ r, r ∈ rows ↔ r ∈ params db)
    by (intros r; apply sort_by_str_elem).
  destruct (Initial.sort_by_str ParamRow.date_iso cs) as [| e0 rest] eqn:Hs.
  - destruct (Initial.next_weekday_str tz_today day_name) as [s |] eqn:Hn;
      [| done].
    simpl in Hday. injection Hday as <-. split; [done |]. simpl.
    split; [| done].
    intros row Hrow Hup.
    assert (row ∈ cs) as Hc by (apply Hin; split; [by apply Hrows | done]).
    apply (sort_by_str_elem ParamRow.date_iso) in Hc. rewrite Hs in Hc.
    by apply elem_of_nil in Hc.
  - destruct (App.display_key (ParamRow.date_iso e0)) as [k |] eqn:Hk;
      [| done].
    simpl in Hday. injection Hday as <-.
    destruct (sort_by_str_head _ _ _ _ Hs) as [He Hmin].
    apply Hin in He as [He Hup]. apply Hrows in He.
    split; [by destruct Hup |]. simpl.
    exists e0. split; [done |]. split; [done |]. split; [done |].
    split; [done |]. split; [done |].
    intros row' Hrow' Hup'. apply Hmin, Hin. split; [by apply Hrows | done].
Qed.

(** John Smith is listed under the display form of the open Monday. *)
Lemma initial_groups_reservations_witness :
  Initial.reservations_map initial_john !! "17.03.2025"
  = Some ["john   smith"].
Proof.
  assert (H : Initial.api_initial fromisoformat_canonical monday_17_march
                john_registered = Ok initial_john)
    by (vm_compute; reflexivity).
  exact (initial_groups_reservations fromisoformat_canonical monday_17_march
           john_registered initial_john "17.03.2025" H).
Defined.

(** Registering John Smith for 17.03.2025 adds him under that text. *)
Lemma reservation_shows_in_initial_witness :
  Initial.api_initial fromisoformat_canonical monday_17_march john_registered
  = Ok {| Initial.days := Initial.days initial_open_monday;
          Initial.reservations_map :=
            <["17.03.2025" :=
                default []
                  (Initial.reservations_map initial_open_monday
                     !! "17.03.2025")
                ++ ["john   smith"]]>
              (Initial.reservations_map initial_open_monday) |}.
Proof.
  assert (Hres : App.api_reserve env_15_march db_open_monday
                   {| reserve_name := "  john   smith ";
                      reserve_dateStr := display_text 2025 3 17 |}
                 = Ok (john_registered,
                       Confirmed "  john   smith " "17.03.2025"))
    by (vm_compute; reflexivity).
  assert (Hout : Initial.api_initial fromisoformat_canonical monday_17_march
                   db_open_monday = Ok initial_open_monday)
    by (vm_compute; reflexivity).
  exact (reservation_shows_in_initial fromisoformat_canonical
           monday_17_march env_15_march db_open_monday john_registered
           "  john   smith " 2025 3 17 _ initial_open_monday
           ltac:(lia) ltac:(lia) ltac:(lia) Hres Hout).
Defined.

(** On Monday 17 March 2025 the open Monday is the day shown for Lundi. *)
Lemma initial_shows_first_open_witness :
  Forall2 (shows_first_open fromisoformat_canonical monday_17_march
             db_open_monday)
    ["Lundi"; "Mardi"; "Jeudi"; "Vendredi"]
    (Initial.days initial_open_monday).
Proof.
  assert (Hout : Initial.api_initial fromisoformat_canonical monday_17_march
                   db_open_monday = Ok initial_open_monday)
    by (vm_compute; reflexivity).
  exact (initial_shows_first_open fromisoformat_canonical monday_17_march
           db_open_monday initial_open_monday Hout).
Defined.

(** ** The refusal at capacity *)

Lemma parse_iso_text y m d :
  0 ≤ y ≤ 9999 → 0 ≤ m ≤ 99 → 0 ≤ d ≤ 99 →
  parse_ymd "-" (iso_text y m d) = Ok (y, m, d).
Proof.
  intros Hy Hm Hd.
  destruct (exact_width_facts 4 y (exact_width_4 y Hy)) as (Yd & Yl & Yi).
  destruct (exact_width_facts 2 m (exact_width_2 m Hm)) as (Md & Ml & Mi).
  destruct (exact_width_facts 2 d (exact_width_2 d Hd)) as (Dd & Dl & Di).
  unfold parse_ymd, iso_text.
  rewrite split_on_three by (by apply digits_no_sep).
  by rewrite Yi, Mi, Di.
Qed.

(** X14: on the canonical text of a calendar date both [pretty_fr_header]
    give the French name of its weekday followed by [dd.mm], and a
    checkout for that date at capacity is refused with status 400 and
    that header; on the canonical text of three numbers that are not a
    calendar date the header, and with it the refusal at capacity, is a
    [ValueError] instead. *)
Theorem capacity_refusal_names_the_day (env : Env) (db : DB)
    (inp : CheckoutIn.t) (y m d : Z) :
  0 ≤ y ≤ 9999 → 0 ≤ m ≤ 99 → 0 ≤ d ≤ 99 →
  let iso := iso_text y m d in
  let header :=
    match Datetime.mk_date y m d with
    | Some dt =>
        Ok (header_text
              (nth (Z.to_nat (Datetime.weekday dt))
                 ["Lundi"; "Mardi"; "Mercredi"; "Jeudi"; "Vendredi";
                  "Samedi"; "Dimanche"] "") d m)
    | None => Raise ValueError
    end in
  App.pretty_fr_header iso = header
  ∧ Sheets.pretty_fr_header iso = header
  ∧ (CheckoutIn.dateIso inp = Some iso →
     App.is_closed db iso = false →
     45 ≤ menus (App.build_totals db iso).1 →
     App.api_checkout env db inp
     = match header with
       | Ok h => Raise (HTTPException 400 (MenuLimitReached h))
       | Raise e => Raise e
       end).
Proof.
  intros Hy Hm Hd iso header.
  assert (Hs : Sheets.pretty_fr_header iso = header).
  { unfold Sheets.pretty_fr_header, pretty_with, iso, header.
    rewrite parse_iso_text by done. simpl.
    by destruct (Datetime.mk_date y m d). }
  assert (Ha : App.pretty_fr_header iso = header).
  { rewrite <- Hs. apply pretty_with_ext, day_label_agree. }
  split; [done |]. split; [done |].
  intros Hdate Hopen Hfull.
  assert (Hlen : String.length iso = 10%nat).
  { unfold iso, iso_text.
    destruct (exact_width_facts 4 y (exact_width_4 y Hy)) as (_ & Yl & _).
    destruct (exact_width_facts 2 m (exact_width_2 m Hm)) as (_ & Ml & _).
    destruct (exact_width_facts 2 d (exact_width_2 d Hd)) as (_ & Dl & _).
    destruct (two_chars _ Ml) as (a & b & ->).
    destruct (two_chars _ Dl) as (c & e & ->).
    destruct (Py.format_0d 4 y) as [| c1 [| c2 [| c3 [| c4 [| ? ?]]]]];
      done. }
  assert (He : effective_date env (CheckoutIn.dateIso inp) = iso)
    by (rewrite Hdate; by apply effective_date_Some).
  pose proof (app_checkout_full env db inp) as Hc. cbv zeta in Hc.
  rewrite He in Hc. rewrite (Hc Hopen Hfull), Ha.
  by destruct header.
Qed.

(** The forty-sixth meal of Monday 17 March 2025 is refused under the
    header of that Monday. *)
Lemma capacity_refusal_names_the_day_witness :
  App.api_checkout env_15_march forty_five_served blank_walk_in
  = Raise (HTTPException 400 (MenuLimitReached "Lundi 17.03")).
Proof.
  assert (Hopen : App.is_closed forty_five_served "2025-03-17" = false)
    by (vm_compute; reflexivity).
  assert (Hfull : 45 ≤ menus (App.build_totals forty_five_served
                                "2025-03-17").1)
    by (vm_compute; discriminate).
  exact (proj2 (proj2 (capacity_refusal_names_the_day env_15_march
                         forty_five_served blank_walk_in 2025 3 17
                         ltac:(lia) ltac:(lia) ltac:(lia)))
           eq_refl Hopen Hfull).
Defined.

(** ** Registering, then unregistering *)

Lemma rstrip_idem s : Py.rstrip (Py.rstrip s) = Py.rstrip s.
Proof.
  induction s as [| c r IH]; [done |].
  change (Py.rstrip (String c r))
    with (match Py.rstrip r with
          | EmptyString =>
              if Py.isspace c then EmptyString else String c EmptyString
          | r' => String c r'
          end).
  destruct (Py.rstrip r) as [| c' r'] eqn:Hr.
  - destruct (Py.isspace c) eqn:Hc; [done |]. simpl. by rewrite Hc.
  - change (Py.rstrip (String c (String c' r')))
      with (match Py.rstrip (String c' r') with
            | EmptyString =>
                if Py.isspace c then EmptyString else String c EmptyString
            | r'' => String c r''
            end).
    by rewrite IH.
Qed.

Lemma strip_idem s : Py.strip (Py.strip s) = Py.strip s.
Proof.
  destruct (decide (Py.strip s = "")) as [-> | Hne]; [done |].
  destruct (strip_head s Hne) as (c & r & He & Hc).
  unfold Py.strip at 1. rewrite He, (lstrip_id c r Hc), <- He.
  unfold Py.strip. apply rstrip_idem.
Qed.

Lemma first_match_app target l1 l2 r :
  App.first_match target l1 = Some r →
  App.first_match target (l1 ++ l2) = Some r.
Proof.
  induction l1 as [| a l1 IH]; simpl; [done |]. by case_decide.
Qed.

Lemma drop_one_length (l : list Reservation.t) r :
  StronglySorted Z.lt (Reservation.id <$> l) → r ∈ l →
  S (length (filter (λ x, Reservation.id x ≠ Reservation.id r) l))
  = length l.
Proof.
  intros Hs Hr. apply list_elem_of_split in Hr as (pre & post & ->).
  rewrite sorted_keys_drop_one by done. rewrite !length_app. simpl. lia.
Qed.

(** X15: whoever has registered can unregister with the same name and the
    same date text, provided that text is read as the same date at the
    moment of the unregistration as at the moment of the registration:
    the request is then accepted, every date has as many reservations as
    before the registration, and when nobody of that stripped name was
    registered for the date the reservations are exactly what they were.
    A text of the dotted or of the dashed shape is read alike at any two
    moments, and any text is read alike at two moments of the same day
    that parse dates alike.  An empty text is read as the date of the
    day: who registers with it on 17 March 2025 is refused the
    unregistration with it on the 18th. *)
Theorem reserve_then_unreserve :
  (∀ (env env' : Env) (db db' : DB) (inp : ReserveIn) (answer : text)
     (iso : string),
     keys_ascending db →
     App.to_iso_any env (reserve_dateStr inp) = Ok iso →
     App.to_iso_any env' (reserve_dateStr inp) = Ok iso →
     App.api_reserve env db inp = Ok (db', answer) →
     ∃ db'',
       App.api_unreserve env' db'
         {| unreserve_name := reserve_name inp;
            unreserve_dateStr := reserve_dateStr inp |}
       = Ok (db'', Unregistered (reserve_dateStr inp))
       ∧ (∀ d, length (live_reservations db'' d)
               = length (live_reservations db d))
       ∧ ((∀ r, r ∈ live_reservations db iso →
                ¬ same_stripped (Py.strip (reserve_name inp)) r) →
          reservations db'' = reservations db)
       ∧ params db'' = params db ∧ till db'' = till db)
  ∧ (∀ (env env' : Env) (s : string),
       dotted_shape (Py.strip s) ∨ dashed_shape (Py.strip s) →
       App.to_iso_any env' s = App.to_iso_any env s)
  ∧ (∀ (env env' : Env) (s : string),
       today_iso env' = today_iso env →
       (∀ t, fromisoformat_date env' t = fromisoformat_date env t) →
       App.to_iso_any env' s = App.to_iso_any env s)
  ∧ (∃ db',
       App.api_reserve env_17_march db_open_monday
         {| reserve_name := "Ada"; reserve_dateStr := "" |}
       = Ok (db', Confirmed "Ada" "")
       ∧ App.api_unreserve env_18_march db'
           {| unreserve_name := "Ada"; unreserve_dateStr := "" |}
         = Raise (HTTPException 400 (NoReservationFound "Ada" ""))).
Proof.
  split; [| split; [| split]].
  { intros env env' db db' inp answer iso Hk Hiso Hiso' Hres.
    destruct (app_reserve_Ok env db inp iso db' answer Hiso Hres)
      as (_ & _ & ->).
    set (n := Py.strip (reserve_name inp)).
    set (new := {| Reservation.id := next_id (Reservation.id <$> reservations db);
                   Reservation.date_iso := iso; Reservation.name := n |}).
    set (db1 := add_reservation db iso n).
    assert (Hk1 : keys_ascending db1).
    { unfold keys_ascending, db1. simpl. rewrite fmap_app. simpl.
      by apply sorted_snoc_next. }
    assert (Hlive : live_reservations db1 iso = live_reservations db iso ++ [new])
      by apply live_after_add.
    assert (Hnew : same_stripped n new) by apply strip_idem.
    assert (Hcount : ∀ r, r ∈ live_reservations db1 iso →
              ∀ d, length (live_reservations (delete_reservation db1 r) d)
                   = length (live_reservations db d)).
    { intros r Hr d. rewrite live_after_delete.
      destruct (decide (d = iso)) as [-> | Hne].
      - assert (Hs : StronglySorted Z.lt
                       (Reservation.id <$> live_reservations db1 iso))
          by apply sorted_keys_filter, Hk1.
        pose proof (drop_one_length (live_reservations db1 iso) r Hs Hr) as Hl.
        assert (length (live_reservations db1 iso)
                = S (length (live_reservations db iso))) as Hlen
          by (rewrite Hlive, length_app; simpl; lia).
        lia.
      - unfold db1. rewrite live_after_add_other by done.
        rewrite filter_all; [done |].
        apply Forall_forall. intros x Hx Heq.
        unfold live_reservations in Hx, Hr.
        apply list_elem_of_filter in Hx as [Hxd Hx].
        apply list_elem_of_filter in Hr as [Hrd Hr].
        assert (x ∈ reservations db1) as Hx1
          by (unfold db1; simpl; apply elem_of_app; by left).
        apply (sorted_keys_inj _ _ _ Hk1 Hx1 Hr) in Heq. congruence. }
    fold n. fold db1.
    rewrite (app_unreserve_cases env' db1
               {| unreserve_name := reserve_name inp;
                  unreserve_dateStr := reserve_dateStr inp |} iso Hiso').
    simpl unreserve_name. fold n. simpl unreserve_dateStr.
    destruct (App.first_match n (live_reservations db iso)) as [r |] eqn:Hm.
    - rewrite Hlive, (first_match_app _ _ _ _ Hm).
      eexists. split; [reflexivity |]. split; [| split; [| done]].
      + apply Hcount. rewrite Hlive. apply elem_of_app. left.
        by apply first_match_elem in Hm.
      + intros Hnone. apply first_match_elem in Hm as Hin.
        exfalso. apply (Hnone r Hin).
        clear -Hm. induction (live_reservations db iso) as [| a l IH];
          simpl in Hm; [done |].
        case_decide as Ha; [by injection Hm as <- | by apply IH].
    - pose proof (proj1 (first_match_None n _) Hm) as Hnone.
      rewrite Hlive, (first_match_first n _ new []) by done.
      eexists. split; [reflexivity |]. split; [| split; [| done]].
      + apply Hcount. rewrite Hlive. apply elem_of_app. right. left.
      + intros _. unfold db1. simpl. rewrite filter_app.
        rewrite (filter_cons _ new), decide_False, filter_nil, app_nil_r
          by (intros Hne; by apply Hne).
        apply filter_all, Forall_forall. intros x Hx. simpl.
        assert (Reservation.id x
                < next_id (Reservation.id <$> reservations db)); [| lia].
        apply next_id_above, list_elem_of_fmap. by exists x. }
  { intros env env' s Hshape. unfold App.to_iso_any. cbv zeta.
    destruct (decide (Py.strip s = "")) as [He | He].
    { rewrite He in Hshape. by destruct Hshape as [[? _] | [? _]]. }
    destruct (decide (dotted_shape (Py.strip s))); [done |].
    destruct (decide (dashed_shape (Py.strip s))); [done | tauto]. }
  { intros env env' s Htoday Hparse. unfold App.to_iso_any. cbv zeta.
    by rewrite Htoday, Hparse. }
  eexists. split; [vm_compute; reflexivity |]. vm_compute. reflexivity.
Qed.

(** John Smith registers for the open Monday on 15 March 2025 and
    unregisters on the 18th. *)
Lemma reserve_then_unreserve_witness :
  ∃ db'',
    App.api_unreserve env_18_march john_registered
      {| unreserve_name := "  john   smith ";
         unreserve_dateStr := "17.03.2025" |}
    = Ok (db'', Unregistered "17.03.2025")
    ∧ reservations db'' = reservations db_open_monday.
Proof.
  assert (Hk : keys_ascending db_open_monday) by constructor.
  assert (Hiso : App.to_iso_any env_15_march "17.03.2025" = Ok "2025-03-17")
    by (vm_compute; reflexivity).
  assert (Hiso' : App.to_iso_any env_18_march "17.03.2025" = Ok "2025-03-17")
    by (vm_compute; reflexivity).
  assert (Hres : App.api_reserve env_15_march db_open_monday
                   {| reserve_name := "  john   smith ";
                      reserve_dateStr := "17.03.2025" |}
                 = Ok (john_registered,
                       Confirmed "  john   smith " "17.03.2025"))
    by (vm_compute; reflexivity).
  destruct (proj1 reserve_then_unreserve env_15_march env_18_march
              db_open_monday john_registered
              {| reserve_name := "  john   smith ";
                 reserve_dateStr := "17.03.2025" |}
              _ "2025-03-17" Hk Hiso Hiso' Hres)
    as (db'' & Hun & _ & Hsame & _).
  exists db''. split; [exact Hun |]. apply Hsame.
  intros r Hr. by apply elem_of_nil in Hr.
Defined.

(** ** The spreadsheet backend: the close *)

Lemma sheets_is_closed_app b b' extra iso :
  Sheets.Caisse b ≠ [] →
  Sheets.Caisse b' = Sheets.Caisse b ++ extra →
  Sheets.is_closed b iso = true → Sheets.is_closed b' iso = true.
Proof.
  unfold Sheets.is_closed. intros Hne ->.
  destruct (Sheets.Caisse b) as [| h rows]; [done |]. simpl.
  rewrite existsb_app. by intros ->.
Qed.

Lemma sheets_add_Ok env clock b inp type base bev choc tot b' out :
  SheetsTill.api_add env clock b inp type base bev choc tot = Ok (b', out) →
  ∃ extra, Sheets.Caisse b' = Sheets.Caisse b ++ extra
           ∧ length extra = App.add_count inp.
Proof.
  unfold SheetsTill.api_add, Sheets.assert_open.
  destruct (Sheets.is_closed b _); [done |]. simpl. intros [= <- _].
  eexists. split; [reflexivity |]. by rewrite length_fmap, length_seq.
Qed.

Lemma sheets_step_caisse b b' :
  SheetsTill.step b b' →
  ∃ extra, Sheets.Caisse b' = Sheets.Caisse b ++ extra.
Proof.
  assert (Hsame : ∃ extra, Sheets.Caisse b = Sheets.Caisse b ++ extra)
    by (exists []; by rewrite app_nil_r).
  intros [env b0 inp b1 answer H | env b0 inp b1 answer H
         | env b0 inp b1 out H | env clock b0 inp b1 out H
         | env clock b0 inp b1 out H | env clock b0 inp b1 out H
         | env b0 inp].
  - unfold Sheets.api_reserve in H.
    destruct (Sheets.to_iso_any env _); simpl in H; [| done].
    destruct (negb _); [done |]. case_decide; [done |].
    injection H as <- _. simpl. exists []. by rewrite app_nil_r.
  - unfold Sheets.api_unreserve in H.
    destruct (Sheets.to_iso_any env _); simpl in H; [| done].
    destruct (Sheets.find_row _ _ _ _); [| done].
    injection H as <- _. simpl. exists []. by rewrite app_nil_r.
  - unfold Sheets.api_checkout, Sheets.assert_open in H.
    destruct (Sheets.is_closed b0 _); [done |]. simpl in H.
    destruct (Sheets.assert_capacity env b0 _); [| done]. simpl in H.
    injection H as <- _. simpl. by eexists.
  - apply sheets_add_Ok in H as (extra & ? & _). by exists extra.
  - apply sheets_add_Ok in H as (extra & ? & _). by exists extra.
  - apply sheets_add_Ok in H as (extra & ? & _). by exists extra.
  - simpl. by eexists.
Qed.

Lemma sheets_steps_closed b b' iso :
  rtc SheetsTill.step b b' →
  Sheets.Caisse b ≠ [] → Sheets.is_closed b iso = true →
  Sheets.Caisse b' ≠ [] ∧ Sheets.is_closed b' iso = true.
Proof.
  induction 1 as [b | b b1 b2 Hstep _ IH]; intros Hne Hc; [done |].
  destruct (sheets_step_caisse b b1 Hstep) as [extra He].
  apply IH.
  - rewrite He. by destruct (Sheets.Caisse b).
  - by apply (sheets_is_closed_app b b1 extra).
Qed.

(** X16: in the spreadsheet backend, closing a date on a till sheet that
    has its header row seals the date: right after the close and after
    every sequence of requests served later, the date is closed, and a
    checkout or an add-on for it is refused with "till closed". *)
Theorem sheets_close_seals (env : Env) (b b' : Sheets.Book) (inp : CloseIn) :
  Sheets.Caisse b ≠ [] →
  rtc SheetsTill.step (SheetsTill.api_close env b inp) b' →
  let iso := effective_date env (close_dateIso inp) in
  Sheets.is_closed b' iso = true
  ∧ (∀ env' inp',
       effective_date env' (CheckoutIn.dateIso inp') = iso →
       Sheets.api_checkout env' b' inp'
       = Raise (HTTPException 400 (TillClosed iso)))
  ∧ (∀ env' clock inp',
       effective_date env' (qty_dateIso inp') = iso →
       SheetsTill.api_add_sandwich env' clock b' inp'
       = Raise (HTTPException 400 (TillClosed iso))
       ∧ SheetsTill.api_add_beverage env' clock b' inp'
         = Raise (HTTPException 400 (TillClosed iso))
       ∧ SheetsTill.api_add_chocolate env' clock b' inp'
         = Raise (HTTPException 400 (TillClosed iso))).
Proof.
  intros Hne Hrun iso.
  assert (Hc : Sheets.is_closed b' iso = true).
  { apply (sheets_steps_closed _ _ iso Hrun).
    - simpl. by destruct (Sheets.Caisse b).
    - unfold Sheets.is_closed, SheetsTill.api_close. simpl.
      fold (effective_date env (close_dateIso inp)). fold iso.
      destruct (Sheets.Caisse b) as [| h rows]; [done |]. simpl.
      rewrite existsb_app. simpl.
      rewrite (bool_decide_eq_true_2 (_ ∧ _)); [apply orb_true_r |].
      split; [lia | done]. }
  split; [done |]. split.
  - intros env' inp' He. unfold Sheets.api_checkout, Sheets.assert_open.
    fold (effective_date env' (CheckoutIn.dateIso inp')).
    by rewrite He, Hc.
  - intros env' clock inp' He.
    unfold SheetsTill.api_add_sandwich, SheetsTill.api_add_beverage,
      SheetsTill.api_add_chocolate, SheetsTill.api_add, Sheets.assert_open.
    fold (effective_date env' (qty_dateIso inp')).
    by rewrite He, Hc.
Qed.

(** Closing Monday 17 March 2025 on a sheet with one meal closes it. *)
Lemma sheets_close_seals_witness :
  Sheets.is_closed
    (SheetsTill.api_close env_15_march book_one_meal
       {| close_dateIso := Some "2025-03-17" |}) "2025-03-17" = true.
Proof.
  assert (Hne : Sheets.Caisse book_one_meal ≠ []) by done.
  exact (proj1 (sheets_close_seals env_15_march book_one_meal _
                  {| close_dateIso := Some "2025-03-17" |} Hne
                  (rtc_refl _ _))).
Defined.

(** ** The close *)

(** X17: closing a date writes nothing but its marker: the totals and the
    paid counts of every date and the reservations stay as they were; from
    then on the till answers for the date with [closed], the totals of
    before the close and an empty waiting list, the reservations still
    being in the store. *)
Theorem close_keeps_totals_and_hides_queue (env env' : Env) (db : DB)
    (inp : CloseIn) :
  let iso := effective_date env (close_dateIso inp) in
  let db' := App.api_close env db inp in
  String.length iso = 10%nat →
  (∀ d, App.build_totals db' d = App.build_totals db d)
  ∧ reservations db' = reservations db
  ∧ params db' = params db
  ∧ App.api_caisse env' db' (Some iso)
    = {| out_date := iso; closed := true; names := [];
         totals := (App.build_totals db iso).1 |}.
Proof.
  intros iso db' Hlen.
  assert (Ht : ∀ d, App.build_totals db' d = App.build_totals db d).
  { intros d. unfold db', App.api_close.
    fold (effective_date env (close_dateIso inp)). fold iso.
    destruct (till_of_add db d iso "" "Closed" 0 0 0 0)
      as (row & _ & _ & _ & Hty & _ & _ & _ & _ & Hof).
    unfold App.build_totals. rewrite Hof. case_decide; [| by rewrite app_nil_r].
    rewrite fold_left_app. simpl. unfold App.row_step at 1, totals_step.
    destruct (fold_left App.row_step (App.till_of db d) (Totals0, ∅)).
    by rewrite Hty, decide_True. }
  split; [done |]. split; [done |]. split; [done |].
  rewrite app_caisse_closed, Ht; [done | done |].
  apply is_closed_after_close.
Qed.

(** After the close of Monday 17 March 2025 the till shows no waiting
    name, John Smith's reservation being kept. *)
Lemma close_keeps_totals_and_hides_queue_witness :
  names (App.api_caisse env_15_march monday_closed (Some "2025-03-17")) = []
  ∧ reservations monday_closed = reservations john_registered.
Proof.
  destruct (close_keeps_totals_and_hides_queue env_15_march env_15_march
              john_registered {| close_dateIso := Some "2025-03-17" |}
              eq_refl) as (_ & Hr & _ & Hc).
  split; [| exact Hr].
  change (App.api_close env_15_march john_registered
            {| close_dateIso := Some "2025-03-17" |})
    with monday_closed in Hc.
  change (effective_date env_15_march
            (close_dateIso {| close_dateIso := Some "2025-03-17" |}))
    with "2025-03-17" in Hc.
  by rewrite Hc.
Defined.

(** ** The spreadsheet backend: the route [/api/initial] *)

Lemma reservation_step_lookup m r key :
  SheetsInitial.reservation_step m r !! key
  = if sheet_has_key key r
    then Some (default [] (m !! key) ++ [Py.strip (Sheets.cell r 1)])
    else m !! key.
Proof.
  unfold SheetsInitial.reservation_step, sheet_has_key.
  destruct (decide (length r < 2)%nat) as [Hl | Hl];
    [by rewrite bool_decide_eq_false_2 by lia |].
  cbv zeta.
  destruct (decide (Sheets.cell r 0 = "" ∨ Py.strip (Sheets.cell r 1) = ""))
    as [He | He]; [by rewrite bool_decide_eq_false_2 by tauto |].
  rewrite bool_decide_eq_true_2 by (split; [lia | tauto]).
  rewrite andb_true_l.
  destruct (App.display_key (Sheets.cell r 0)) as [k | e]; [| done].
  destruct (decide (k = key)) as [-> | Hne].
  - by rewrite bool_decide_eq_true_2, lookup_insert_eq.
  - by rewrite bool_decide_eq_false_2, lookup_insert_ne.
Qed.

Lemma sheet_map_lookup rows m key :
  fold_left SheetsInitial.reservation_step rows m !! key
  = if decide (sheet_names_under key rows = []) then m !! key
    else Some (default [] (m !! key) ++ sheet_names_under key rows).
Proof.
  revert m. induction rows as [| r rows IH]; intros m; simpl; [done |].
  rewrite IH, reservation_step_lookup. unfold sheet_names_under in *.
  rewrite filter_cons.
  destruct (sheet_has_key key r).
  - rewrite (decide_True (P := true = true)) by done.
    rewrite fmap_cons. simpl.
    case_decide as Hn; [by rewrite Hn |]. by rewrite <- app_assoc.
  - by rewrite (decide_False (P := false = true)).
Qed.

(** X18: when [api_initial] of the spreadsheet backend answers, its
    reservation map holds under each key the stripped names of the rows of
    the reservation sheet that have two cells or more, a date and a name
    that are not empty, and a date whose display form is the key, in sheet
    order; a row whose date is not three integers is listed nowhere and
    stops nothing, and no key is held without a name. *)
Theorem sheets_initial_groups_reservations
    (fromisoformat : string → option Datetime.date)
    (today : Datetime.date) (b : Sheets.Book) (out : Initial.Out)
    (key : string) :
  SheetsInitial.api_initial fromisoformat today b = Some out →
  Initial.reservations_map out !! key
  = if decide (sheet_names_under key (tail (Sheets.Reservations b)) = [])
    then None
    else Some (sheet_names_under key (tail (Sheets.Reservations b))).
Proof.
  unfold SheetsInitial.api_initial.
  destruct (mapM _ Initial.wanted) as [ds |]; [| done]. simpl.
  intros [= <-]. simpl. by rewrite sheet_map_lookup, lookup_empty.
Qed.

(** The row dated ["lundi"] is skipped; Ada is listed, stripped. *)
Lemma sheets_initial_groups_reservations_witness :
  Initial.reservations_map initial_book_open_monday !! "17.03.2025"
  = Some ["Ada"].
Proof.
  assert (H : SheetsInitial.api_initial fromisoformat_canonical
                monday_17_march book_open_monday
              = Some initial_book_open_monday)
    by (vm_compute; reflexivity).
  exact (sheets_initial_groups_reservations fromisoformat_canonical
           monday_17_march book_open_monday initial_book_open_monday
           "17.03.2025" H).
Defined.

Lemma sheet_candidates_elem fromisoformat today day_name rows cs :
  SheetsInitial.candidates fromisoformat today day_name rows = Some cs →
  ∀ e, e ∈ cs ↔ e ∈ rows ∧ sheet_upcoming fromisoformat today day_name e.
Proof.
  revert cs. induction rows as [| a rows IH]; intros cs; simpl.
  - intros [= <-] e.
    split; [intros H | intros [H _]]; by apply elem_of_nil in H.
  - destruct (SheetsInitial.is_candidate _ _ _ a) as [keep |] eqn:Ha;
      [| done].
    simpl.
    destruct (SheetsInitial.candidates _ _ _ rows) as [cs' |]; [| done].
    simpl. intros [= <-] e. specialize (IH cs' eq_refl e).
    assert (Hkeep : keep = true
                    ↔ sheet_upcoming fromisoformat today day_name a).
    { unfold SheetsInitial.is_candidate, sheet_upcoming in *.
      case_decide as Hj; [| split; [by injection Ha as <- | tauto]].
      destruct (SheetsInitial.open a);
        [| split; [by injection Ha as <- | by intros (_ & ? & _)]].
      destruct (fromisoformat (SheetsInitial.date_iso a)) as [d |];
        [| done].
      simpl in Ha. injection Ha as <-. split.
      - intros Hd. split; [done |]. split; [done |]. by exists d.
      - by intros (_ & _ & d' & [= <-] & Hd). }
    destruct keep.
    + rewrite !elem_of_cons, IH. split.
      * intros [-> | [? ?]]; [split; [by left | by apply Hkeep] |].
        split; [by right | done].
      * intros [[-> | ?] ?]; [by left | by right].
    + rewrite elem_of_cons, IH.
      split; [intros [? ?]; split; [by right | done] |].
      intros [[-> | ?] Hu]; [| done].
      apply Hkeep in Hu. done.
Qed.

Lemma sheet_closed_day today day_name wd fut :
  Initial.mapping !! day_name = Some wd →
  DateOrd.fromordinal
    (Datetime.toordinal today
     + (if decide ((wd - Datetime.weekday today) mod 7 = 0) then 7
        else (wd - Datetime.weekday today) mod 7)) = Some fut →
  Initial.next_weekday_str today day_name
  = Ok (display_text (Datetime.year fut) (Datetime.month fut)
          (Datetime.day fut)).
Proof.
  intros Hwd Hf. unfold Initial.next_weekday_str. rewrite Hwd.
  cbn [default from_option id]. cbv zeta. by rewrite Hf.
Qed.

Lemma first_open_unfold fromisoformat today rows day_name :
  SheetsInitial.first_open fromisoformat today rows day_name
  = match SheetsInitial.candidates fromisoformat today day_name rows with
    | Some cs =>
        match Initial.sort_by_str SheetsInitial.date_iso cs with
        | e :: _ =>
            match App.display_key (SheetsInitial.date_iso e) with
            | Ok key =>
                Some {| DayOut.date := key; DayOut.jour := day_name;
                        DayOut.menu := SheetsInitial.menu e;
                        DayOut.open := true;
                        DayOut.disabled := SheetsInitial.disabled e |}
            | Raise _ => None
            end
        | [] =>
            match Initial.mapping !! day_name with
            | Some wd =>
                match DateOrd.fromordinal
                        (Datetime.toordinal today
                         + (if decide ((wd - Datetime.weekday today) mod 7 = 0)
                            then 7
                            else (wd - Datetime.weekday today) mod 7)) with
                | Some fut =>
                    Some {| DayOut.date :=
                              display_text (Datetime.year fut)
                                (Datetime.month fut) (Datetime.day fut);
                            DayOut.jour := day_name; DayOut.menu := "";
                            DayOut.open := false; DayOut.disabled := false |}
                | None => None
                end
            | None => None
            end
        end
    | None => None
    end.
Proof. reflexivity. Qed.

Lemma sheet_first_open_day fromisoformat today b day_name day :
  SheetsInitial.first_open fromisoformat today
    (SheetsInitial.entries fromisoformat (Sheets.Parametres b)) day_name
  = Some day →
  sheet_shows_first_open fromisoformat today b day_name day.
Proof.
  unfold sheet_shows_first_open. cbv zeta. rewrite first_open_unfold.
  generalize (SheetsInitial.entries fromisoformat (Sheets.Parametres b)).
  intros rows Hday.
  destruct (SheetsInitial.candidates fromisoformat today day_name rows)
    as [cs |] eqn:Hcs; [| done].
  pose proof (sheet_candidates_elem _ _ _ _ _ Hcs) as Hin.
  destruct (Initial.sort_by_str SheetsInitial.date_iso cs) as [| e0 rest]
    eqn:Hs.
  - destruct (Initial.mapping !! day_name) as [wd |] eqn:Hknown; [| done].
    destruct (DateOrd.fromordinal _) as [fut |] eqn:Hf; [| done].
    injection Hday as <-.
    split; [done |].
    cbn [DayOut.open DayOut.date DayOut.menu DayOut.disabled].
    split; [| split; [| done]].
    + intros e He Hup.
      assert (e ∈ cs) as Hc by (apply Hin; by split).
      apply (sort_by_str_elem SheetsInitial.date_iso) in Hc.
      rewrite Hs in Hc. by apply elem_of_nil in Hc.
    + by apply (sheet_closed_day today day_name wd fut).
  - destruct (App.display_key (SheetsInitial.date_iso e0)) as [k |] eqn:Hk;
      [| done].
    injection Hday as <-.
    destruct (sort_by_str_head _ _ _ _ Hs) as [He Hmin].
    apply Hin in He as [He Hup].
    split; [done |].
    cbn [DayOut.open DayOut.date DayOut.menu DayOut.disabled].
    exists e0. split; [done |]. split; [done |]. split; [done |].
    split; [done |]. split; [done |].
    intros e' He' Hup'. apply Hmin, Hin. by split.
Qed.

(** X19: when [api_initial] of the spreadsheet backend answers, it gives
    one day for each of Lundi, Mardi, Jeudi and Vendredi, in that order.
    Its entries are the rows of the schedule sheet with five cells or more
    and a date [fromisoformat] reads.  A day shown open is such an entry
    with that day name, open, dated today or later, with no such entry of
    an earlier date text; it carries the display form of that date and
    the menu and the flag of the entry.  A day shown closed has no such
    entry and carries the date [next_weekday_str] of [app.py] gives. *)
Theorem sheets_initial_shows_first_open
    (fromisoformat : string → option Datetime.date)
    (today : Datetime.date) (b : Sheets.Book) (out : Initial.Out) :
  SheetsInitial.api_initial fromisoformat today b = Some out →
  Forall2 (sheet_shows_first_open fromisoformat today b)
    ["Lundi"; "Mardi"; "Jeudi"; "Vendredi"] (Initial.days out).
Proof.
  unfold SheetsInitial.api_initial. intros Hout.
  destruct (mapM (SheetsInitial.first_open fromisoformat today
                    (SheetsInitial.entries fromisoformat
                       (Sheets.Parametres b)))
              Initial.wanted) as [ds |] eqn:Hds; [| done].
  cbn [mbind option_bind] in Hout. injection Hout as <-.
  cbn [Initial.days].
  apply mapM_Some in Hds.
  eapply Forall2_impl; [exact Hds |].
  intros day_name day. apply sheet_first_open_day.
Qed.

(** On Monday 17 March 2025 the row of the schedule sheet is the day
    shown for Lundi. *)
Lemma sheets_initial_shows_first_open_witness :
  Forall2 (sheet_shows_first_open fromisoformat_canonical monday_17_march
             book_open_monday)
    ["Lundi"; "Mardi"; "Jeudi"; "Vendredi"]
    (Initial.days initial_book_open_monday).
Proof.
  assert (H : SheetsInitial.api_initial fromisoformat_canonical
                monday_17_march book_open_monday
              = Some initial_book_open_monday)
    by (vm_compute; reflexivity).
  exact (sheets_initial_shows_first_open fromisoformat_canonical
           monday_17_march book_open_monday initial_book_open_monday H).
Defined.
(** * The queue of the till against the specification *)

(** ** The normalizer *)

Lemma blank_isspace c : blank c = Py.isspace c.
Proof. by destruct c as [[] [] [] [] [] [] [] []]. Qed.

Lemma capital_upper c : capital c = Py.upper_char c.
Proof. by destruct c as [[] [] [] [] [] [] [] []]. Qed.

Lemma upper_append a b :
  Py.upper (String.append a b) = String.append (Py.upper a) (Py.upper b).
Proof.
  unfold Py.upper. induction a as [| c a IH]; [done |].
  rewrite append_String. simpl. by rewrite IH, append_String.
Qed.

Lemma join_cons_words sep (u : string) (ws : list string) :
  Py.join sep (u :: ws)
  = match ws with
    | [] => u
    | _ => String.append u (String.append sep (Py.join sep ws))
    end.
Proof. by destruct ws. Qed.

Lemma normalize_from_words s :
  normalize_from Leading s = Py.join " " (Py.upper <$> Py.split_go [] s)
  ∧ normalize_from Gap s
    = match Py.upper <$> Py.split_go [] s with
      | [] => ""
      | ws => String " " (Py.join " " ws)
      end
  ∧ ∀ cur, cur ≠ [] →
      Py.join " " (Py.upper <$> Py.split_go cur s)
      = String.append (Py.upper (string_of_list_ascii (rev cur)))
          (normalize_from Inside s).
Proof.
  induction s as [| c r (IHl & IHg & IHi)].
  - split; [done |]. split; [done |]. intros cur Hcur.
    destruct cur as [| a cur]; [done |]. simpl Py.split_go.
    rewrite fmap_cons, fmap_nil. simpl. by rewrite append_empty_r.
  - simpl normalize_from. rewrite blank_isspace, capital_upper.
    simpl Py.split_go. destruct (Py.isspace c) eqn:Hc.
    + split; [done |]. split; [done |]. intros cur Hcur.
      destruct cur as [| a cur]; [done |].
      rewrite fmap_cons, join_cons_words, IHg.
      destruct (Py.upper <$> Py.split_go [] r) as [| w ws];
        [by rewrite append_empty_r | done].
    + assert (Hone : Py.join " " (Py.upper <$> Py.split_go [c] r)
                     = String (Py.upper_char c) (normalize_from Inside r)).
      { rewrite (IHi [c]) by done. done. }
      split; [done |]. split.
      * destruct (split_go_word [c] r) as (w & ws & Hw & _); [done |].
        rewrite <- Hone, Hw. by rewrite fmap_cons.
      * intros cur Hcur. rewrite (IHi (c :: cur)) by done.
        simpl rev. rewrite string_of_list_ascii_app, upper_append.
        by rewrite append_assoc.
Qed.

(** The normalizer of the program is the normalizer of the
    specification. *)
Lemma norm_name_normalize s : norm_name s = normalize s.
Proof.
  rewrite norm_name_words. symmetry.
  apply (proj1 (normalize_from_words s)).
Qed.

(** ** The notions of the specification and those of the program *)

Lemma occurrences_count_key k names : occurrences k names = count_key k names.
Proof.
  unfold occurrences, count_key. do 2 f_equal.
  apply list_filter_iff. intros n. by rewrite norm_name_normalize.
Qed.

Lemma paid_names_meal_payers db iso : paid_names db iso = meal_payers db iso.
Proof.
  unfold paid_names, meal_payers, App.till_of. f_equal.
  rewrite list_filter_filter. apply list_filter_iff. intros r. tauto.
Qed.

Lemma credits_under_credits_of payers k :
  credits_under payers k = credits_of payers k.
Proof.
  unfold credits_under, credits_of. by rewrite occurrences_count_key.
Qed.

Lemma not_closed_is_closed db iso :
  not_closed db iso ↔ App.is_closed db iso = false.
Proof.
  unfold not_closed. rewrite is_closed_false, Forall_forall. split.
  - intros H r Hr Hd Ht. by apply (H r Hr).
  - intros H r Hr [Hd Ht]. by apply (H r Hr Hd).
Qed.

Lemma answered_date_caisse_date env date :
  App.caisse_date env date = answered_date env date.
Proof.
  unfold App.caisse_date, answered_date. destruct date as [d |]; [| done].
  destruct (decide (String.length d = 10%nat)) as [Hl | Hl].
  - rewrite decide_True; [done |]. split; [by destruct d | done].
  - rewrite decide_False; [done | tauto].
Qed.

Lemma queue_loop_walk names pl c :
  (∀ k, credit pl k = c k) →
  (queue_loop pl names).2 = walk c names
  ∧ ∀ k, credit (queue_loop pl names).1 k = credits_left c names k.
Proof.
  revert pl c. induction names as [| n names IH]; intros pl c Hc; [done |].
  rewrite queue_loop_cons. simpl walk. simpl credits_left.
  rewrite norm_name_normalize, Hc.
  destruct (0 <? c (normalize n)).
  - apply IH. intros k. rewrite credit_insert. unfold consume.
    destruct (decide (normalize n = k)) as [<- | Hne].
    + by rewrite decide_True.
    + by rewrite decide_False by congruence.
  - destruct (IH pl c Hc) as [Hq Hl]. simpl. by rewrite Hq.
Qed.

Lemma paid_credits_start db iso k :
  credit (App.build_totals db iso).2 k = paid_credits db iso k.
Proof.
  rewrite build_totals_paid, credit_fold_count_paid.
  unfold credit at 1. rewrite lookup_empty. simpl.
  unfold paid_credits. rewrite credits_under_credits_of, paid_names_meal_payers.
  unfold credits_of. case_decide; lia.
Qed.

Lemma omap_filter {A B} (f : A → option B) (P : A → Prop)
    `{∀ x, Decision (P x)} (g : A → B) (l : list A) :
  (∀ x, f x = if decide (P x) then Some (g x) else None) →
  omap f l = g <$> filter P l.
Proof.
  intros Hf. induction l as [| x l IH]; [done |].
  change (omap f (x :: l))
    with (match f x with Some y => y :: omap f l | None => omap f l end).
  rewrite filter_cons, Hf, IH. by case_decide.
Qed.

Lemma sheet_paid_names_meal_payers b iso :
  sheet_paid_names b iso = sheet_meal_payers b iso.
Proof.
  unfold sheet_paid_names, sheet_meal_payers. apply omap_filter.
  intros r. unfold Sheets.cell.
  destruct r as [| d [| n [| t [| c3 [| c4 [| c5 [| c6 r]]]]]]];
    try (case_decide as Hc;
         [exfalso; destruct Hc as [Hn _]; apply Hn; left; simpl; lia | done]).
  simpl nth. destruct (decide (d = iso ∧ is_meal t)) as [[Hd Hm] | Hno].
  - case_decide as Hc; [done |]. exfalso. apply Hc. split; [| done].
    intros [Hl | ?]; [simpl in Hl; lia | done].
  - case_decide as Hc; [| done]. exfalso. destruct Hc as [Hn Hm].
    apply Hno. split; [| done]. destruct (decide (d = iso)); [done |].
    exfalso. apply Hn. by right.
Qed.

Lemma sheet_registered_names_ordered b iso :
  sheet_registered_names b iso = Sheets.ordered b iso.
Proof.
  unfold sheet_registered_names, Sheets.ordered. apply omap_filter.
  intros r. unfold Sheets.cell.
  destruct r as [| d [| n r]];
    try (case_decide as Hc;
         [exfalso; destruct Hc as [Hl _]; simpl in Hl; lia | done]).
  simpl nth. destruct (decide (d = iso ∧ Py.strip n ≠ "")) as [[Hd Hm] | Hno].
  - case_decide as Hc; [done |]. exfalso. apply Hc.
    split; [simpl; lia | done].
  - case_decide as Hc; [| done]. exfalso. destruct Hc as (_ & Hd & Hn).
    by apply Hno.
Qed.

Lemma sheet_not_closed_is_closed b iso :
  sheet_not_closed b iso ↔ Sheets.is_closed b iso = false.
Proof.
  unfold sheet_not_closed, Sheets.is_closed.
  induction (tail (Sheets.Caisse b)) as [| r rows IH]; simpl; [done |].
  rewrite Forall_cons, IH, orb_false_iff, bool_decide_eq_false.
  unfold Sheets.cell.
  destruct r as [| d [| n [| t r]]]; simpl;
    try (split; [intros [_ ?]; split; [intros [? _]; lia | done]
                | intros [_ ?]; done]).
  split.
  - intros [Hn ?]. split; [| done]. intros (_ & Hd & Ht). by apply Hn.
  - intros [Hn ?]. split; [| done]. intros [Hd Ht]. apply Hn.
    split; [lia | done].
Qed.

Lemma walk_facts payers names :
  let c := credits_under payers in
  (∀ i k, credits_left c (take i names) k
          = Z.max 0 (c k - occurrences k (take i names)))
  ∧ walk c names `sublist_of` names
  ∧ (∀ k, occurrences k (walk c names)
          = Z.max 0 (occurrences k names - c k)).
Proof.
  intros c.
  set (pc := fold_left count_paid payers ∅).
  assert (Hpc : ∀ k, credit pc k = c k).
  { intros k. unfold pc, c. rewrite credit_fold_count_paid.
    unfold credit at 1. rewrite lookup_empty. simpl.
    rewrite credits_under_credits_of. unfold credits_of. case_decide; lia. }
  destruct (queue_loop_from_payers payers names) as (_ & Hcred & Hsub & Hcnt).
  cbv zeta in *. fold pc in Hcred, Hsub, Hcnt.
  destruct (queue_loop_walk names pc c Hpc) as [Hq _].
  rewrite Hq in Hsub, Hcnt. split; [| split].
  - intros i k.
    destruct (queue_loop_walk (take i names) pc c Hpc) as [_ Hl].
    rewrite <- Hl, Hcred, occurrences_count_key.
    unfold c. by rewrite credits_under_credits_of.
  - done.
  - intros k. rewrite !occurrences_count_key, Hcnt.
    unfold c. by rewrite credits_under_credits_of.
Qed.

Lemma writes_keep_payers_named db rs iso :
  payers_named db iso → payers_named (Admin.run db rs) iso.
Proof.
  revert db. induction rs as [| r rs IH]; intros db Hn; [done |].
  simpl. apply IH. destruct r as [env req | params resas]; simpl.
  - by apply step_keeps_payers_named.
  - unfold payers_named, meal_payers, App.till_of in *.
    by rewrite import_till.
Qed.

(** C1: the normalizer of the program is the normalizer of the
    specification.  For a date with no closing marker, the names
    returned by [api_caisse] are those the walk of the specification
    gives on the reservations of the date taken in the order of their
    keys (their storage order when the keys ascend), started with one
    credit per meal row of the date under the normalized name of its
    payer, none under the empty key: a reservation is skipped, and a
    credit consumed, exactly when a credit is left under its normalized
    name.  The credits left after any number of reservations are
    max(0, paid - seen) and so never below zero; the names kept are a
    sublist of the reservations; and a key occurs max(0, registered -
    paid) times among them.  Every meal row of a store built from an
    empty till by requests of the API and imports has a payer of
    non-empty key, so that there the credits are the plain counts of the
    meal rows.  The same holds of
    [app_sheets.py] whenever its [api_caisse] returns. *)
Theorem remaining_queue_fifo_reconciliation :
  (∀ s, norm_name s = normalize s)
  ∧ (∀ (env : Env) (db : DB) (date : option string),
       let iso := answered_date env date in
       let out := App.api_caisse env db date in
       not_closed db iso →
       ∃ regs : list Reservation.t,
         regs ≡ₚ live_reservations db iso
         ∧ StronglySorted Z.le (Reservation.id <$> regs)
         ∧ (keys_ascending db → regs = live_reservations db iso)
         ∧ out_date out = iso ∧ closed out = false
         ∧ names out
           = walk (paid_credits db iso) (Reservation.name <$> regs)
         ∧ (∀ i k,
              credits_left (paid_credits db iso)
                (take i (Reservation.name <$> regs)) k
              = Z.max 0 (paid_credits db iso k
                         - occurrences k
                             (take i (Reservation.name <$> regs))))
         ∧ names out `sublist_of` (Reservation.name <$> regs)
         ∧ (∀ k, occurrences k (names out)
                 = Z.max 0 (occurrences k (Reservation.name <$> regs)
                            - paid_credits db iso k)))
  ∧ (∀ (db0 : DB) (rs : list Admin.request) (iso k : string),
       till db0 = [] →
       Forall (λ n, normalize n ≠ "") (paid_names (Admin.run db0 rs) iso)
       ∧ paid_credits (Admin.run db0 rs) iso k
         = occurrences k (paid_names (Admin.run db0 rs) iso))
  ∧ (∀ (env : Env) (b : Sheets.Book) (date : option string) (out : CaisseOut),
       let iso := answered_date env date in
       let regs := sheet_registered_names b iso in
       let credits := credits_under (sheet_paid_names b iso) in
       Sheets.api_caisse env b date = Ok out →
       sheet_not_closed b iso →
       out_date out = iso ∧ closed out = false
       ∧ names out = walk credits regs
       ∧ names out `sublist_of` regs
       ∧ ∀ k, occurrences k (names out)
              = Z.max 0 (occurrences k regs
                         - occurrences k (sheet_paid_names b iso))).
Proof.
  split; [apply norm_name_normalize |]. split; [| split].
  - intros env db date iso out Hopen.
    apply not_closed_is_closed in Hopen.
    exists (App.ordered db iso).
    destruct (ordered_is_registration_order db iso) as (Hperm & Hsort & Hasc).
    split; [done |]. split; [done |]. split; [done |].
    assert (Hout : out = {| out_date := iso; closed := false;
                            names := remaining_queue db iso;
                            totals := (App.build_totals db iso).1 |}).
    { unfold out, App.api_caisse. rewrite answered_date_caisse_date.
      fold iso. rewrite Hopen. unfold remaining_queue, queue_loop.
      destruct (App.build_totals db iso) as [t pc]. simpl.
      by destruct (fold_left queue_step _ _). }
    rewrite Hout. simpl. split; [done |]. split; [done |].
    assert (Hwalk : remaining_queue db iso
                    = walk (paid_credits db iso)
                        (Reservation.name <$> App.ordered db iso)).
    { unfold remaining_queue.
      by destruct (queue_loop_walk (Reservation.name <$> App.ordered db iso)
                     (App.build_totals db iso).2 (paid_credits db iso)
                     (paid_credits_start db iso)) as [-> _]. }
    rewrite Hwalk.
    destruct (walk_facts (paid_names db iso)
                (Reservation.name <$> App.ordered db iso))
      as (Hleft & Hsub & Hcnt).
    done.
  - intros db0 rs iso k Hempty.
    assert (Hn : Forall (λ n, normalize n ≠ "")
                   (paid_names (Admin.run db0 rs) iso)).
    { rewrite paid_names_meal_payers.
      pose proof (writes_keep_payers_named db0 rs iso
                    (empty_till_payers_named db0 iso Hempty)) as Hp.
      unfold payers_named in Hp. eapply Forall_impl; [exact Hp |].
      intros n Hk. simpl in Hk. by rewrite <- norm_name_normalize. }
    split; [done |].
    unfold paid_credits, credits_under. case_decide as Hk; [| done].
    subst k. unfold occurrences. rewrite filter_none; [done |].
    eapply Forall_impl; [exact Hn |]. done.
  - intros env b date out iso regs credits Hres Hopen.
    apply sheet_not_closed_is_closed in Hopen.
    unfold Sheets.api_caisse in Hres.
    rewrite answered_date_caisse_date in Hres. fold iso in Hres.
    rewrite Hopen in Hres.
    destruct (Sheets.build_totals env b iso) as [[t pc] | e] eqn:Hbt;
      simpl in Hres; [| done].
    apply sheets_loop_paid in Hbt. simpl in Hbt.
    fold (sheet_meal_payers b iso) in Hbt.
    rewrite <- sheet_paid_names_meal_payers in Hbt.
    rewrite <- sheet_registered_names_ordered in Hres. fold regs in Hres.
    fold (queue_loop pc regs) in Hres.
    assert (Hpc : ∀ k, credit pc k = credits k).
    { intros k. rewrite Hbt, credit_fold_count_paid.
      unfold credit at 1. rewrite lookup_empty. simpl.
      unfold credits. rewrite credits_under_credits_of.
      unfold credits_of. case_decide; lia. }
    destruct (queue_loop_walk regs pc credits Hpc) as [Hq _].
    destruct (queue_loop pc regs) as [pl rem] eqn:Hloop.
    injection Hres as <-. simpl in *. subst rem.
    destruct (walk_facts (sheet_paid_names b iso) regs)
      as (_ & Hsub & Hcnt).
    split; [done |]. split; [done |]. split; [done |]. split; [done |].
    intros k. rewrite Hcnt. unfold credits_under.
    case_decide as Hk; [| done]. subst k.
    assert (occurrences "" regs = 0) as ->.
    { rewrite occurrences_count_key. unfold regs.
      rewrite sheet_registered_names_ordered.
      apply count_key_empty_named, sheets_ordered_named. }
    pose proof (count_key_nonneg "" (sheet_paid_names b iso)) as Hnn.
    rewrite <- occurrences_count_key in Hnn. lia.
Qed.

(** John Smith registers twice, under two spellings, and pays once under
    a third: the first registration is served, the second waits. *)
Lemma remaining_queue_fifo_reconciliation_witness :
  not_closed john_twice_paid_once "2025-03-17"
  ∧ (Reservation.name <$> live_reservations john_twice_paid_once "2025-03-17")
    = ["John Smith"; "JOHN   SMITH"]
  ∧ paid_names john_twice_paid_once "2025-03-17" = ["john smith"]
  ∧ names (App.api_caisse env_15_march john_twice_paid_once
             (Some "2025-03-17"))
    = ["JOHN   SMITH"].
Proof.
  assert (Hopen : not_closed john_twice_paid_once "2025-03-17")
    by (repeat constructor; vm_compute; intros [_ ?]; discriminate).
  assert (Hk : keys_ascending john_twice_paid_once)
    by (unfold keys_ascending; vm_compute; repeat constructor).
  destruct (proj1 (proj2 remaining_queue_fifo_reconciliation) env_15_march
              john_twice_paid_once (Some "2025-03-17") Hopen)
    as (regs & _ & _ & Hasc & _ & _ & Hq & _).
  split; [exact Hopen |]. split; [vm_compute; reflexivity |].
  split; [vm_compute; reflexivity |].
  rewrite Hq, (Hasc Hk). vm_compute. reflexivity.
Defined.

(** * The checkout *)

Lemma meal_count_menus db iso :
  menus (App.build_totals db iso).1 = meal_count db iso.
Proof.
  unfold meal_count. by rewrite menus_count, paid_names_meal_payers.
Qed.

Lemma closed_is_closed db iso :
  ¬ not_closed db iso → App.is_closed db iso = true.
Proof.
  intros Hc. destruct (App.is_closed db iso) eqn:He; [done |].
  by apply not_closed_is_closed in He.
Qed.

Lemma iso_text_length y m d :
  0 ≤ y ≤ 9999 → 0 ≤ m ≤ 99 → 0 ≤ d ≤ 99 →
  String.length (iso_text y m d) = 10%nat.
Proof.
  intros Hy Hm Hd. unfold iso_text.
  destruct (exact_width_facts 4 y (exact_width_4 y Hy)) as (_ & Yl & _).
  destruct (exact_width_facts 2 m (exact_width_2 m Hm)) as (_ & Ml & _).
  destruct (exact_width_facts 2 d (exact_width_2 d Hd)) as (_ & Dl & _).
  destruct (two_chars _ Ml) as (a & b & ->).
  destruct (two_chars _ Dl) as (c & e & ->).
  destruct (Py.format_0d 4 y) as [| c1 [| c2 [| c3 [| c4 [| ? ?]]]]]; done.
Qed.

Lemma header_of_calendar_date y m d dt :
  Datetime.mk_date y m d = Some dt →
  App.pretty_fr_header (iso_text y m d)
  = Ok (header_text (nth (Z.to_nat (Datetime.weekday dt)) day_names "") d m).
Proof.
  intros Hdt.
  assert (Hr : 1 ≤ y ≤ 9999 ∧ 1 ≤ m ≤ 12 ∧ 1 ≤ d ≤ 31).
  { unfold Datetime.mk_date in Hdt.
    destruct (Datetime.check_date_fields y m d) eqn:Hc; [| done].
    apply check_date_fields_range in Hc. lia. }
  transitivity (Sheets.pretty_fr_header (iso_text y m d)).
  { apply pretty_with_ext, day_label_agree. }
  unfold Sheets.pretty_fr_header, pretty_with.
  rewrite parse_iso_text by lia. simpl. by rewrite Hdt.
Qed.

Lemma answered_date_twice env iso :
  answered_date env (Some (answered_date env (Some iso)))
  = answered_date env (Some iso).
Proof.
  unfold answered_date.
  destruct (decide (String.length iso = 10%nat)) as [Hl | Hl].
  - by rewrite decide_True.
  - by destruct (decide (String.length (today_iso env) = 10%nat)).
Qed.

Lemma caisse_of_answered_date env db date :
  App.api_caisse env db date
  = App.api_caisse env db (Some (answered_date env date)).
Proof.
  unfold App.api_caisse. rewrite !answered_date_caisse_date.
  assert (answered_date env (Some (answered_date env date))
          = answered_date env date) as ->; [| done].
  destruct date as [d |]; [apply answered_date_twice |].
  unfold answered_date. by case_decide.
Qed.

Lemma caisse_open_answer env db iso :
  answered_date env (Some iso) = iso →
  not_closed db iso →
  App.api_caisse env db (Some iso)
  = {| out_date := iso; closed := false;
       names := walk (paid_credits db iso)
                  (Reservation.name <$> App.ordered db iso);
       totals := (App.build_totals db iso).1 |}.
Proof.
  intros Hd Hopen. apply not_closed_is_closed in Hopen.
  unfold App.api_caisse. rewrite answered_date_caisse_date, Hd, Hopen.
  destruct (queue_loop_walk (Reservation.name <$> App.ordered db iso)
              (App.build_totals db iso).2 (paid_credits db iso)
              (paid_credits_start db iso)) as [<- _].
  unfold queue_loop.
  destruct (App.build_totals db iso) as [t pc]. simpl.
  by destruct (fold_left queue_step _ _).
Qed.

Lemma no_row_till_of db iso : no_row_on db iso → App.till_of db iso = [].
Proof. intros H. by apply filter_none. Qed.

Lemma totals_step_meal t pc name student card bev choc tot :
  totals_step (t, pc) name (meal_label student card) bev choc tot
  = (add_amount (count_menu t (meal_label student card) bev choc) tot,
     count_paid pc name).
Proof. by destruct student, card. Qed.

Lemma is_eleve_label student card :
  Py.contains "eleve" (Py.lower (meal_label student card)) = student.
Proof. by destruct student, card. Qed.

Lemma caisse_out_date env db date :
  out_date (App.api_caisse env db date) = answered_date env date.
Proof.
  unfold App.api_caisse. rewrite answered_date_caisse_date.
  destruct (App.is_closed db _); [done |].
  destruct (App.build_totals db _) as [t pc].
  by destruct (fold_left queue_step _ _).
Qed.

(** C2, as amended: a checkout for a closed date is refused with status
    400, "till closed".  For a date that is not closed and has 45 meal
    rows or more, written as the canonical text of a calendar date, it is
    refused with status 400, "menu limit reached", under the header of
    that day.  For a date that is not closed and has fewer than 45 meal
    rows it appends exactly one row: a meal for the date, with the base of
    the person kind (8.00 for a student, 12.00 otherwise), 2.00 for a
    beverage and 1.50 for a chocolate when asked for and 0 otherwise, and
    as total the beverage and the chocolate under CARD and the base, the
    beverage and the chocolate otherwise; it answers what [api_caisse]
    answers for that date text on the new store.  When that text has 10
    characters, or is today's date, the answer is the totals of the date
    with this meal more and the queue of the date against the new till;
    for another text the answer is the one for today.  On a date with no
    row in the till and no reservation, a student paying cash with a
    beverage gives the totals 1, 1, 0, 0, 1, 0 and 10.00; two sandwiches
    then give 2 sandwiches and 22.00; after the close the answer is
    closed and a checkout is refused. *)
Theorem checkout_contract :
  (∀ (env : Env) (db : DB) (inp : CheckoutIn.t),
     let iso := effective_date env (CheckoutIn.dateIso inp) in
     let student :=
       bool_decide
         (Py.upper (App.or_else (CheckoutIn.type inp) "PROF") = "ELEVE") in
     let card :=
       bool_decide
         (Py.upper (App.or_else (CheckoutIn.method inp) "CASH") = "CARD") in
     let base := if student then 800 else 1200 in
     let bev := if CheckoutIn.beverage inp then 200 else 0 in
     let choc := if CheckoutIn.chocolate inp then 150 else 0 in
     let cash := if card then bev + choc else base + bev + choc in
     (¬ not_closed db iso →
        App.api_checkout env db inp
        = Raise (HTTPException 400 (TillClosed iso)))
     ∧ (not_closed db iso → 45 ≤ meal_count db iso →
        ∀ (y m d : Z) (dt : Datetime.date),
          iso = iso_text y m d → Datetime.mk_date y m d = Some dt →
          App.api_checkout env db inp
          = Raise (HTTPException 400
                     (MenuLimitReached
                        (header_text
                           (nth (Z.to_nat (Datetime.weekday dt)) day_names "")
                           d m))))
     ∧ (not_closed db iso → meal_count db iso < 45 →
        ∃ (db' : DB) (row : TillRow.t) (out : CaisseOut),
          App.api_checkout env db inp = Ok (db', out)
          ∧ till db' = till db ++ [row]
          ∧ params db' = params db ∧ reservations db' = reservations db
          ∧ TillRow.date_iso row = iso
          ∧ TillRow.name row
            = App.or_else (Py.strip (CheckoutIn.name inp)) "Anonyme"
          ∧ TillRow.type row = meal_label student card
          ∧ is_meal (TillRow.type row)
          ∧ TillRow.base row = base
          ∧ TillRow.beverage row = bev
          ∧ TillRow.chocolate row = choc
          ∧ TillRow.total row = cash
          ∧ meal_count db' iso = meal_count db iso + 1
          ∧ out = App.api_caisse env db' (Some iso)
          ∧ out_date out = answered_date env (Some iso)
          ∧ (answered_date env (Some iso) = iso →
             ∃ regs : list Reservation.t,
               regs ≡ₚ live_reservations db iso
               ∧ StronglySorted Z.le (Reservation.id <$> regs)
               ∧ (keys_ascending db → regs = live_reservations db iso)
               ∧ closed out = false
               ∧ totals out
                 = with_meal (App.build_totals db iso).1 student
                     (CheckoutIn.beverage inp) (CheckoutIn.chocolate inp) cash
               ∧ names out
                 = walk (paid_credits db' iso) (Reservation.name <$> regs))
          ∧ (answered_date env (Some iso) ≠ iso →
             out = App.api_caisse env db' None)))
  ∧ (∀ (env : Env) (db : DB) (iso name : string),
       String.length iso = 10%nat →
       no_row_on db iso →
       live_reservations db iso = [] →
       ∃ db1 out1 db2 out2,
         App.api_checkout env db (student_cash_with_beverage name iso)
         = Ok (db1, out1)
         ∧ out_date out1 = iso ∧ closed out1 = false
         ∧ totals out1
           = {| menus := 1; eleves := 1; profs := 0; sandwiches := 0;
                beverages := 1; chocolates := 0; amount := 1000 |}
         ∧ names out1 = []
         ∧ App.api_add_sandwich env db1 (two_sandwiches iso) = Ok (db2, out2)
         ∧ totals out2
           = {| menus := 1; eleves := 1; profs := 0; sandwiches := 2;
                beverages := 1; chocolates := 0; amount := 2200 |}
         ∧ closed (App.api_caisse env
                     (App.api_close env db2 {| close_dateIso := Some iso |})
                     (Some iso)) = true
         ∧ App.api_checkout env
             (App.api_close env db2 {| close_dateIso := Some iso |})
             (student_cash_with_beverage name iso)
           = Raise (HTTPException 400 (TillClosed iso))).
Proof.
  split.
  - intros env db inp iso student card base bev choc cash.
    split; [| split].
    + intros Hc. by apply app_checkout_closed, closed_is_closed.
    + intros Hopen Hfull y m d dt Hiso Hdt.
      apply not_closed_is_closed in Hopen.
      rewrite <- meal_count_menus in Hfull.
      pose proof (app_checkout_full env db inp) as Hco. cbv zeta in Hco.
      fold iso in Hco. rewrite (Hco Hopen Hfull), Hiso.
      by rewrite (header_of_calendar_date y m d dt Hdt).
    + intros Hopen Hroom.
      pose proof Hopen as Hopen'. apply not_closed_is_closed in Hopen'.
      rewrite <- meal_count_menus in Hroom.
      rewrite (app_checkout_open env db inp Hopen' Hroom). cbv zeta.
      fold iso.
      set (typ := Py.upper (App.or_else (CheckoutIn.type inp) "PROF")).
      set (method := Py.upper (App.or_else (CheckoutIn.method inp) "CASH")).
      set (label := String.append _ _).
      assert (Hlabel : label = meal_label student card).
      { unfold label, student, card. fold typ method.
        destruct (decide (typ = "ELEVE")) as [Ht | Ht],
          (decide (method = "CARD")) as [Hm | Hm];
          rewrite ?(bool_decide_eq_true_2 _ Ht), ?(bool_decide_eq_false_2 _ Ht),
            ?(bool_decide_eq_true_2 _ Hm), ?(bool_decide_eq_false_2 _ Hm);
          reflexivity. }
      assert (Hmeal : is_meal (meal_label student card))
        by (by destruct student, card).
      assert (Hbase : (if decide (typ = "ELEVE") then PRICE_ELEVE
                       else PRICE_PROF) = base).
      { unfold base, student. fold typ.
        destruct (decide (typ = "ELEVE")) as [Ht | Ht];
          by rewrite ?(bool_decide_eq_true_2 _ Ht),
               ?(bool_decide_eq_false_2 _ Ht). }
      assert (Hcash : (if decide (method = "CARD")
                       then (if CheckoutIn.beverage inp then PRICE_BOISSON
                             else 0)
                            + (if CheckoutIn.chocolate inp
                               then PRICE_CHOCOLAT else 0)
                       else (if decide (typ = "ELEVE") then PRICE_ELEVE
                             else PRICE_PROF)
                            + (if CheckoutIn.beverage inp then PRICE_BOISSON
                               else 0)
                            + (if CheckoutIn.chocolate inp
                               then PRICE_CHOCOLAT else 0)) = cash).
      { rewrite Hbase. unfold cash, card. fold method.
        destruct (decide (method = "CARD")) as [Hm | Hm];
          by rewrite ?(bool_decide_eq_true_2 _ Hm),
               ?(bool_decide_eq_false_2 _ Hm). }
      rewrite Hcash, Hbase, Hlabel.
      change (if CheckoutIn.beverage inp then PRICE_BOISSON else 0) with bev.
      change (if CheckoutIn.chocolate inp then PRICE_CHOCOLAT else 0)
        with choc.
      set (payer := App.or_else (Py.strip (CheckoutIn.name inp)) "Anonyme").
      set (db' := add_till_row db iso payer (meal_label student card)
                    base bev choc cash).
      assert (Hopen1 : not_closed db' iso).
      { apply not_closed_is_closed. unfold db'.
        rewrite is_closed_add_row; [done |]. by destruct student, card. }
      assert (Htot : (App.build_totals db' iso).1
                = with_meal (App.build_totals db iso).1 student
                    (CheckoutIn.beverage inp) (CheckoutIn.chocolate inp)
                    cash).
      { unfold db'. rewrite build_totals_add_same.
        destruct (App.build_totals db iso) as [t pc].
        rewrite totals_step_meal. unfold count_menu, add_amount, with_meal.
        rewrite is_eleve_label. unfold bev, choc.
        destruct student, (CheckoutIn.beverage inp),
          (CheckoutIn.chocolate inp); simpl; f_equal; lia. }
      exists db', {| TillRow.id := next_id (TillRow.id <$> till db);
                     TillRow.date_iso := iso; TillRow.name := payer;
                     TillRow.type := meal_label student card;
                     TillRow.base := base; TillRow.beverage := bev;
                     TillRow.chocolate := choc; TillRow.total := cash |},
        (App.api_caisse env db' (Some iso)).
      split; [done |]. split; [done |]. split; [done |]. split; [done |].
      split; [done |]. split; [done |]. split; [done |]. split; [done |].
      split; [done |]. split; [done |]. split; [done |]. split; [done |].
      split.
      { rewrite <- !meal_count_menus, Htot. done. }
      split; [done |].
      split.
      { apply caisse_out_date. }
      split.
      * intros Hd. rewrite (caisse_open_answer env db' iso Hd Hopen1).
        destruct (ordered_is_registration_order db' iso)
          as (Hperm & Hsort & Hasc).
        exists (App.ordered db' iso). simpl.
        split; [done |]. split; [done |]. split; [done |].
        split; [done |]. split; [exact Htot | done].
      * intros Hd. rewrite (caisse_of_answered_date env db' (Some iso)).
        rewrite (caisse_of_answered_date env db' None). f_equal. f_equal.
        unfold answered_date in *. by case_decide.
  - intros env db iso name Hlen Hnone Hnores.
    apply no_row_till_of in Hnone.
    destruct (empty_till_open db iso Hnone) as [Hopen Htot].
    pose proof (effective_date_Some env iso Hlen) as Heff.
    set (inp := student_cash_with_beverage name iso).
    assert (Hco : App.api_checkout env db inp =
              Ok (add_till_row db iso (App.or_else (Py.strip name) "Anonyme")
                    "Eleve (CASH)" 800 200 0 1000,
                  App.api_caisse env
                    (add_till_row db iso
                       (App.or_else (Py.strip name) "Anonyme")
                       "Eleve (CASH)" 800 200 0 1000) (Some iso))).
    { rewrite app_checkout_open; simpl CheckoutIn.dateIso; rewrite Heff;
        [done | done | rewrite Htot; by compute]. }
    set (db1 := add_till_row db iso _ "Eleve (CASH)" 800 200 0 1000) in *.
    assert (Hopen1 : App.is_closed db1 iso = false).
    { unfold db1. by rewrite is_closed_add_row. }
    assert (Htot1 : (App.build_totals db1 iso).1
              = {| menus := 1; eleves := 1; profs := 0; sandwiches := 0;
                   beverages := 1; chocolates := 0; amount := 1000 |}).
    { unfold db1. by rewrite build_totals_add_same, Htot. }
    set (db2 := add_till_row (add_till_row db1 iso "" "Sandwich" 600 0 0 600)
                  iso "" "Sandwich" 600 0 0 600).
    assert (Hopen2 : App.is_closed db2 iso = false).
    { unfold db2. by rewrite !is_closed_add_row. }
    assert (Htot2 : (App.build_totals db2 iso).1
              = {| menus := 1; eleves := 1; profs := 0; sandwiches := 2;
                   beverages := 1; chocolates := 0; amount := 2200 |}).
    { unfold db2. rewrite !build_totals_add_same.
      destruct (App.build_totals db1 iso) as [t1 pc1]. simpl in Htot1.
      by rewrite Htot1. }
    exists db1, (App.api_caisse env db1 (Some iso)),
      db2, (App.api_caisse env db2 (Some iso)).
    split; [exact Hco |].
    rewrite !app_caisse_open by done. simpl.
    split; [done |]. split; [done |].
    split; [done |].
    split; [by apply remaining_queue_no_reservation |].
    split.
    { unfold App.api_add_sandwich, App.api_add, App.assert_open.
      simpl qty_dateIso. fold (effective_date env (Some iso)).
      rewrite Heff, Hopen1. simpl mbind.
      change (Nat.iter _ _ db1) with db2. by rewrite app_caisse_open. }
    split; [done |].
    pose proof (is_closed_after_close env db2 {| close_dateIso := Some iso |})
      as Hc3.
    simpl close_dateIso in Hc3. rewrite Heff in Hc3.
    split; [by rewrite app_caisse_closed |].
    rewrite app_checkout_closed; simpl CheckoutIn.dateIso; by rewrite Heff.
Qed.

(** C2 as stated fails: a checkout for the date text "2025-3-17", of nine
    characters, is accepted and stored as a meal of that date, and is
    answered with the date, the totals and the queue of today, 15 March
    2025, where no meal is counted. *)
Lemma checkout_answered_about_today :
  ∃ db' out,
    App.api_checkout env_15_march db_open_monday
      (student_cash_with_beverage "" "2025-3-17") = Ok (db', out)
    ∧ meal_count db' "2025-3-17" = 1
    ∧ menus (App.build_totals db' "2025-3-17").1 = 1
    ∧ out_date out = "2025-03-15"
    ∧ totals out = Totals0
    ∧ totals out ≠ (App.build_totals db' "2025-3-17").1.
Proof.
  eexists _, _. split; [by vm_compute |].
  split; [by vm_compute |]. split; [by vm_compute |].
  split; [by vm_compute |]. split; [by vm_compute |].
  vm_compute. discriminate.
Qed.

(** The scenario on Monday 17 March 2025; the forty-sixth meal of that
    Monday is refused under its header; a staff meal paid by card with a
    chocolate is stored with the base 12.00 and the total 1.50; a checkout
    on the closed Monday is refused. *)
Lemma checkout_contract_witness :
  (∃ db1 out1 db2 out2,
     App.api_checkout env_15_march db_open_monday
       (student_cash_with_beverage "" "2025-03-17") = Ok (db1, out1)
     ∧ out_date out1 = "2025-03-17" ∧ closed out1 = false
     ∧ totals out1
       = {| menus := 1; eleves := 1; profs := 0; sandwiches := 0;
            beverages := 1; chocolates := 0; amount := 1000 |}
     ∧ names out1 = []
     ∧ App.api_add_sandwich env_15_march db1 (two_sandwiches "2025-03-17")
       = Ok (db2, out2)
     ∧ totals out2
       = {| menus := 1; eleves := 1; profs := 0; sandwiches := 2;
            beverages := 1; chocolates := 0; amount := 2200 |}
     ∧ closed (App.api_caisse env_15_march
                 (App.api_close env_15_march db2
                    {| close_dateIso := Some "2025-03-17" |})
                 (Some "2025-03-17")) = true
     ∧ App.api_checkout env_15_march
         (App.api_close env_15_march db2
            {| close_dateIso := Some "2025-03-17" |})
         (student_cash_with_beverage "" "2025-03-17")
       = Raise (HTTPException 400 (TillClosed "2025-03-17")))
  ∧ App.api_checkout env_15_march forty_five_served
      (student_cash_with_beverage "" "2025-03-17")
    = Raise (HTTPException 400 (MenuLimitReached "Lundi 17.03"))
  ∧ (∃ db' row out,
       App.api_checkout env_15_march john_registered staff_card_with_chocolate
       = Ok (db', out)
       ∧ till db' = [row]
       ∧ TillRow.date_iso row = "2025-03-17"
       ∧ TillRow.name row = "Ada"
       ∧ TillRow.type row = "Prof (CARD)"
       ∧ TillRow.base row = 1200
       ∧ TillRow.beverage row = 0
       ∧ TillRow.chocolate row = 150
       ∧ TillRow.total row = 150
       ∧ totals out
         = {| menus := 1; eleves := 0; profs := 1; sandwiches := 0;
              beverages := 0; chocolates := 1; amount := 150 |}
       ∧ names out = ["john   smith"])
  ∧ App.api_checkout env_15_march monday_closed
      (student_cash_with_beverage "" "2025-03-17")
    = Raise (HTTPException 400 (TillClosed "2025-03-17")).
Proof.
  split; [| split; [| split]].
  - apply (proj2 checkout_contract env_15_march db_open_monday
             "2025-03-17" ""); [reflexivity | constructor | reflexivity].
  - assert (Hopen : not_closed forty_five_served "2025-03-17")
      by (apply not_closed_is_closed; vm_compute; reflexivity).
    assert (Hfull : 45 ≤ meal_count forty_five_served "2025-03-17")
      by (vm_compute; discriminate).
    refine (eq_trans
              (proj1 (proj2 (proj1 checkout_contract env_15_march
                               forty_five_served
                               (student_cash_with_beverage "" "2025-03-17")))
                 Hopen Hfull 2025 3 17 monday_17_march _ _) _);
      vm_compute; reflexivity.
  - assert (Hopen : not_closed john_registered "2025-03-17")
      by (apply not_closed_is_closed; vm_compute; reflexivity).
    assert (Hroom : meal_count john_registered "2025-03-17" < 45)
      by (vm_compute; reflexivity).
    destruct (proj2 (proj2 (proj1 checkout_contract env_15_march
                              john_registered staff_card_with_chocolate))
                Hopen Hroom)
      as (db' & row & out & Hco & Htill & _ & _ & Hd & Hn & Hty & _ & Hb
          & Hbev & Hchoc & Htot & _ & _ & _ & Hans & _).
    destruct (Hans eq_refl) as (regs & _ & _ & Hasc & _ & Htotals & Hnames).
    rewrite Hasc in Hnames
      by (unfold keys_ascending; vm_compute; repeat constructor).
    destruct row as [id d n ty b bv ch tot].
    cbn [TillRow.date_iso TillRow.name TillRow.type TillRow.base
         TillRow.beverage TillRow.chocolate TillRow.total] in *.
    vm_compute in Hd, Hn, Hty, Hb, Hbev, Hchoc, Htot. subst.
    eexists db', _, out. split; [exact Hco |]. split; [exact Htill |].
    cbn [TillRow.date_iso TillRow.name TillRow.type TillRow.base
         TillRow.beverage TillRow.chocolate TillRow.total].
    do 7 (split; [reflexivity |]).
    split; [rewrite Htotals; vm_compute; reflexivity |].
    rewrite Hnames. unfold paid_credits, paid_names. rewrite Htill.
    vm_compute. reflexivity.
  - apply (proj1 (proj1 checkout_contract env_15_march monday_closed
                    (student_cash_with_beverage "" "2025-03-17"))).
    intros Hopen. apply not_closed_is_closed in Hopen. vm_compute in Hopen.
    discriminate.
Defined.

(** * Whitespace that [int] does not skip *)

(** The separator US is stripped by [str.strip] and refused by [int]: a
    dotted date text with it inside a field raises in both backends. *)
Example int_refuses_separator :
  Py.strip (String (ascii_of_nat 31) "1") = "1"
  ∧ Py.int (String (ascii_of_nat 31) "1") = None
  ∧ App.to_iso_any env_15_march day_with_separator = Raise ValueError
  ∧ Sheets.to_iso_any env_15_march day_with_separator = Raise ValueError.
Proof. repeat split; reflexivity. Qed.
